(** * profile-handler.cc: profile timers and the signal handler that
      multiplexes them over registered callbacks.

    A shallow embedding of [src/profile-handler.cc].  Every member function
    of [TimerProfileEventSource] and [ProfileHandler] becomes a function on
    an explicit state.  What the code calls outside itself is modelled in
    [Module Libc] ([setitimer], [getitimer], [sigaction]) and in
    [Module Scanf] ([sscanf] with the format of the constructor).
    [Module Singleton] has the static part: [BuildEventSource], [Init],
    [Instance], the static initializer and the functions of the C
    interface, over the two classes an event source pointer can point
    to.

    Conventions.
    - [int32], [int64] and [int] values are [Z].  The two counters
      ([callback_count_], [interrupts_]) are signed, so C++ gives their
      overflow no meaning; they are left unbounded here, and stay within
      the number of calls made ([counters_bounded]), so that an overflow
      needs a run of 2^31 calls.
    - [uint32_t] tick counts are [N].
    - A pointer is an [address]; a [ProfileHandlerToken*] held by the
      registry is the address together with the object it owns.
    - The two spin locks serialise the public operations and the signal
      handler; the embedding is the resulting sequential semantics, one
      operation at a time, each one made by a calling [thread].
    - Time has no measure here.  A timer holds what [setitimer] last
      accepted; a period of a timer going by is an event of its own in a
      run, between two operations, and what it does to the timers is
      [expire]. *)

From Stdlib Require Import ZArith Lia Ascii String.
From stdpp Require Import base decidable countable gmap list strings.

Local Open Scope Z_scope.

(** ** The C library and the kernel, as far as the file uses them *)

Module Libc.

Definition thread := nat.
Definition address := Z.

(** [<sys/time.h>] *)
Record timeval := { tv_sec : Z; tv_usec : Z }.
Record itimerval := { it_interval : timeval; it_value : timeval }.

Definition zero_timeval : timeval := {| tv_sec := 0; tv_usec := 0 |}.
(** What [memset(&timer, 0, sizeof timer)] leaves in an [itimerval]. *)
Definition zero_itimerval : itimerval :=
  {| it_interval := zero_timeval; it_value := zero_timeval |}.

Inductive timer_type := ITIMER_REAL | ITIMER_PROF.
Inductive signal := SIGPROF | SIGALRM.

(** What a signal is bound to: the default action, [SIG_IGN], or
    [ProfileHandler::SignalHandler] (the only handler the file installs). *)
Inductive disposition := SIG_DFL | SIG_IGN | SA_SignalHandler.

(** The interval timers of the process.  Whether all threads share one
    timer of each type, or each thread has its own, is a property of the
    platform ([process_wide]); [setting] holds what was last set. *)
Record itimers := {
  process_wide : bool;
  setting : gmap (nat * thread) itimerval
}.

Definition which_index (which : timer_type) : nat :=
  match which with ITIMER_REAL => 0%nat | ITIMER_PROF => 2%nat end.

(** The timer a call made by thread [t] acts on. *)
Definition slot (k : itimers) (which : timer_type) (t : thread) : nat * thread :=
  (which_index which, if process_wide k then 0%nat else t).

(** [getitimer(which, &v)].  With [which] one of the two timer types and
    a valid pointer the call cannot fail, so the [RAW_CHECK] that
    [IsTimerRunning] makes on its result never fires.  The value read is
    what the timer holds: an armed periodic timer whose [it_value] runs
    out is loaded again from its [it_interval], so that "zero or not"
    is the same for what was set and for the time that remains; the one
    timer that is not loaded again is the subject of [expire] below. *)
Definition getitimer (which : timer_type) (t : thread) (k : itimers) : itimerval :=
  default zero_itimerval (setting k !! slot k which t).

(** POSIX's canonical form of a [timeval]. *)
Definition canonical_timeval (tv : timeval) : bool :=
  (0 <=? tv_sec tv) && (0 <=? tv_usec tv) && (tv_usec tv <? 1000000).

(** What [setitimer] accepts. *)
Definition valid_itimerval (v : itimerval) : bool :=
  canonical_timeval (it_interval v) && canonical_timeval (it_value v).

(** [setitimer(which, &v, 0)].  A request with a [timeval] that is not
    canonical (a [tv_usec] of 1000000 or more) is turned down with
    [EINVAL] and the timer stays as it was; any other request is what
    the timer holds afterwards.  The source never looks at the result
    of [setitimer], so a request that is turned down passes unnoticed. *)
Definition setitimer (which : timer_type) (t : thread) (v : itimerval)
    (k : itimers) : itimers :=
  if valid_itimerval v then
    {| process_wide := process_wide k;
       setting := <[slot k which t := v]> (setting k) |}
  else k.

#[global] Instance signal_eq_dec : EqDecision signal.
Proof. solve_decision. Defined.

#[global] Instance signal_countable : Countable signal.
Proof.
  refine (inj_countable'
            (fun s => match s with SIGPROF => 27%nat | SIGALRM => 14%nat end)
            (fun n => match n with 27%nat => SIGPROF | _ => SIGALRM end) _).
  by intros [].
Defined.

#[global] Instance disposition_eq_dec : EqDecision disposition.
Proof. solve_decision. Defined.

#[global] Instance timer_type_eq_dec : EqDecision timer_type.
Proof. solve_decision. Defined.

(** [sigaction(sig, &sa, NULL)] on the table of dispositions.  For
    [SIGPROF] and [SIGALRM] the call cannot fail, so the [RAW_CHECK]s of
    [EnableHandler] and [DisableHandler] never fire. *)
Definition sigaction (sig : signal) (d : disposition)
    (tbl : gmap signal disposition) : gmap signal disposition :=
  <[sig := d]> tbl.

Definition disposition_of (tbl : gmap signal disposition) (sig : signal) : disposition :=
  default SIG_DFL (tbl !! sig).

(** A timer that has run out and is not armed again: nothing is left of
    its [it_value]. *)
Definition lapse (which : timer_type) (t : thread) (k : itimers) : itimers :=
  match setting k !! slot k which t with
  | Some v =>
      {| process_wide := process_wide k;
         setting := <[slot k which t :=
                        {| it_interval := it_interval v; it_value := zero_timeval |}]>
                      (setting k) |}
  | None => k
  end.

(** Time passing: a period of the real-time timer that thread [t]
    reads goes by.  A periodic timer is armed again when it runs out,
    except the real-time timer while [SIGALRM] is ignored (Linux arms
    it again when the signal is taken, and an ignored signal never is):
    that timer reads as stopped from then on.  The profiling timer is
    armed again whatever [SIGPROF] is bound to.  The signal an expiry
    sends when it is not ignored is the matter of the deliveries, not of
    this function. *)
Definition expire (t : thread) (tbl : gmap signal disposition) (k : itimers)
    : itimers :=
  match disposition_of tbl SIGALRM with
  | SIG_IGN => lapse ITIMER_REAL t k
  | _ => k
  end.

End Libc.
Export Libc.

(** ** [sscanf(fr, "%u%c", &frequency_, &junk)] *)

Module Scanf.

Definition EOF : Z := -1.

(** [isspace] in the C locale: space, and the controls 9 to 13. *)
Definition isspace (c : ascii) : bool :=
  let n := Z.of_nat (nat_of_ascii c) in
  (n =? 32) || ((9 <=? n) && (n <=? 13)).

Definition digit_of (c : ascii) : option Z :=
  let n := Z.of_nat (nat_of_ascii c) in
  if (48 <=? n) && (n <=? 57) then Some (n - 48) else None.

Fixpoint skip_spaces (s : string) : string :=
  match s with
  | String c rest => if isspace c then skip_spaces rest else s
  | EmptyString => s
  end.

(** The longest run of decimal digits at the head of [s], read onto
    [acc], and what follows it. *)
Fixpoint scan_digits (acc : Z) (s : string) : Z * string :=
  match s with
  | String c rest =>
      match digit_of c with
      | Some d => scan_digits (10 * acc + d) rest
      | None => (acc, s)
      end
  | EmptyString => (acc, s)
  end.

Definition ULONG_MAX : Z := 2 ^ 64 - 1.

(** The [unsigned int] that [%u] stores for the digits' value [n]: the
    library converts as [strtoul] does (an [unsigned long] of 64 bits,
    held at [ULONG_MAX] when the digits exceed it, negated modulo 2^64
    after a minus sign) and keeps the low 32 bits. *)
Definition conv_u (negative : bool) (n : Z) : Z :=
  let ul := if ULONG_MAX <? n then ULONG_MAX
            else if negative then (2 ^ 64 - n) mod 2 ^ 64 else n in
  ul mod 2 ^ 32.

(** The value an [int32] object has once the 32 bits [u] are stored in
    it: [frequency_] is an [int32] and [%u] writes an [unsigned int]
    through its address. *)
Definition as_int32 (u : Z) : Z :=
  if u <? 2 ^ 31 then u else u - 2 ^ 32.

(** The return value of the call, and the [unsigned int] stored through
    the first pointer when the [%u] conversion succeeded.
    [%u] skips white space, takes an optional sign and then needs one
    decimal digit at least; [%c] takes the next character, if there is
    one.  The result is the number of conversions done, or [EOF] when
    the input ends before the first one. *)
Definition sscanf_u_c (s : string) : Z * option Z :=
  match skip_spaces s with
  | EmptyString => (EOF, None)
  | String c rest =>
      let '(negative, body) :=
        if Ascii.eqb c "-"%char then (true, rest)
        else if Ascii.eqb c "+"%char then (false, rest)
        else (false, String c rest) in
      match body with
      | EmptyString => (0, None)
      | String d _ =>
          match digit_of d with
          | None => (0, None)
          | Some _ =>
              let '(n, after) := scan_digits 0 body in
              match after with
              | EmptyString => (1, Some (conv_u negative n))
              | String _ _ => (2, Some (conv_u negative n))
              end
          end
      end
  end.

End Scanf.

(** ** [class ProfileEventSource]: the strategy interface *)

Module ProfileEventSource.

(** The virtual member functions.  An event source has its own state
    [ES] and acts on the interval timers; every call is made by a thread
    and can read [handler_.GetFrequency()], which is passed as
    [frequency]. *)
Class interface (ES : Type) := {
  RegisterThread (t : thread) (frequency : Z) (callback_count : Z) :
    ES -> itimers -> ES * itimers;
  RegisteredCallback (t : thread) (frequency : Z) (new_callback_count : Z) :
    ES -> itimers -> ES * itimers;
  UnregisteredCallback (t : thread) (frequency : Z) (new_callback_count : Z) :
    ES -> itimers -> ES * itimers;
  Reset (t : thread) (frequency : Z) : ES -> itimers -> ES * itimers;
  GetSignal : ES -> signal;
  EnableEvents (t : thread) : ES -> ES;
  DisableEvents (t : thread) : ES -> ES;
  GetTicksSinceLastCall (t : thread) : ES -> N * ES
}.

End ProfileEventSource.

(** ** [class TimerProfileEventSource] *)

Module TimerProfileEventSource.

Inductive sharing :=
| TIMERS_UNTOUCHED   (* No timer initialization attempted yet. *)
| TIMERS_ONE_SET     (* First thread has registered and set timer. *)
| TIMERS_SHARED      (* Timers are shared by all threads. *)
| TIMERS_SEPARATE.   (* Timers are separate in each thread. *)

Record t := {
  timer_type_ : timer_type;
  timer_sharing_ : sharing
}.

#[global] Instance sharing_eq_dec : EqDecision sharing.
Proof. solve_decision. Defined.

Definition ctor (timer_type : timer_type) : t :=
  {| timer_type_ := timer_type; timer_sharing_ := TIMERS_UNTOUCHED |}.

Definition set_sharing (s : sharing) (self : t) : t :=
  {| timer_type_ := timer_type_ self; timer_sharing_ := s |}.

Definition GetSignal (self : t) : signal :=
  if decide (timer_type_ self = ITIMER_PROF) then SIGPROF else SIGALRM.

(** The [itimerval] that [StartTimer] fills in: [/] on two [int]s is
    C++'s truncating division. *)
Definition StartTimer_value (frequency : Z) : itimerval :=
  let it_interval := {| tv_sec := 0; tv_usec := 1000000 ÷ frequency |} in
  {| it_interval := it_interval; it_value := it_interval |}.

Definition StartTimer (th : thread) (frequency : Z) (self : t) (k : itimers) : itimers :=
  setitimer (timer_type_ self) th (StartTimer_value frequency) k.

Definition StopTimer_value : itimerval := zero_itimerval.

Definition StopTimer (th : thread) (self : t) (k : itimers) : itimers :=
  setitimer (timer_type_ self) th StopTimer_value k.

Definition IsTimerRunning (th : thread) (self : t) (k : itimers) : bool :=
  let current_timer := getitimer (timer_type_ self) th k in
  negb (tv_sec (it_value current_timer) =? 0)
  || negb (tv_usec (it_value current_timer) =? 0).

Definition RegisterThread (th : thread) (frequency : Z) (callback_count : Z)
    (self : t) (k : itimers) : t * itimers :=
  match timer_sharing_ self with
  | TIMERS_UNTOUCHED =>
      (set_sharing TIMERS_ONE_SET self, StartTimer th frequency self k)
  | TIMERS_ONE_SET =>
      if IsTimerRunning th self k then
        (set_sharing TIMERS_SHARED self,
         if callback_count =? 0 then StopTimer th self k else k)
      else
        (set_sharing TIMERS_SEPARATE self, StartTimer th frequency self k)
  | TIMERS_SHARED => (self, k)
  | TIMERS_SEPARATE => (self, StartTimer th frequency self k)
  end.

Definition RegisteredCallback (th : thread) (frequency : Z) (new_callback_count : Z)
    (self : t) (k : itimers) : t * itimers :=
  if (new_callback_count =? 1) && bool_decide (timer_sharing_ self = TIMERS_SHARED)
  then (self, StartTimer th frequency self k)
  else (self, k).

Definition UnregisteredCallback (th : thread) (frequency : Z) (new_callback_count : Z)
    (self : t) (k : itimers) : t * itimers :=
  if (new_callback_count =? 0) && bool_decide (timer_sharing_ self = TIMERS_SHARED)
  then (self, StopTimer th self k)
  else (self, k).

Definition Reset (th : thread) (frequency : Z) (self : t) (k : itimers) : t * itimers :=
  (set_sharing TIMERS_UNTOUCHED self,
   if bool_decide (timer_sharing_ self = TIMERS_SHARED) then StopTimer th self k else k).

(** The members the class inherits from [ProfileEventSource]:
    [EnableEvents] and [DisableEvents] do nothing and
    [GetTicksSinceLastCall] is 1. *)
#[global] Instance event_source : ProfileEventSource.interface t := {|
  ProfileEventSource.RegisterThread := RegisterThread;
  ProfileEventSource.RegisteredCallback := RegisteredCallback;
  ProfileEventSource.UnregisteredCallback := UnregisteredCallback;
  ProfileEventSource.Reset := Reset;
  ProfileEventSource.GetSignal := GetSignal;
  ProfileEventSource.EnableEvents := fun _ self => self;
  ProfileEventSource.DisableEvents := fun _ self => self;
  ProfileEventSource.GetTicksSinceLastCall := fun _ self => (1%N, self)
|}.

End TimerProfileEventSource.

(** ** [class ProfileHandler] *)

Module ProfileHandler.

(** [struct ProfileHandlerToken]; a callback is known by the address of
    its code. *)
Record ProfileHandlerToken := {
  callback : address;
  callback_arg : address
}.

(** [struct ProfileHandlerState], filled in by [GetState]. *)
Record ProfileHandlerState := {
  interrupts : Z;
  frequency : Z;
  callback_count : Z
}.

(** One call [callback(sig, sinfo, ucontext, ticks, callback_arg)] made
    by the signal handler.  What a callback does is not part of the
    file; the calls made are recorded in order. *)
Record invocation := {
  inv_callback : address;
  inv_sig : signal;
  inv_sinfo : address;
  inv_ucontext : address;
  inv_ticks : N;
  inv_arg : address
}.

Definition kMaxFrequency : Z := 4000.
Definition kDefaultFrequency : Z := 100.

(** Modelled from the spec: the macros [RAW_CHECK] and [RAW_LOG] come
    from base/logging.h, which is not among the sources.  A failed
    [RAW_CHECK] and a [RAW_LOG(FATAL, ...)] terminate the process with a
    diagnostic; [Fatal] keeps the diagnostic and the state the process
    was in. *)
Inductive outcome (W A : Type) :=
| Returns (a : A) (w : W)
| Fatal (diagnostic : string) (w : W).
Arguments Returns {W A} a w.
Arguments Fatal {W A} diagnostic w.

(** The frequency the constructor leaves in [frequency_], given
    [getenv("CPUPROFILE_FREQUENCY")].  [&&] is evaluated left to right
    and stops at the first false operand. *)
Definition ctor_frequency (fr : option string) : Z :=
  match fr with
  | None => kDefaultFrequency
  | Some s =>
      match Scanf.sscanf_u_c s with
      | (1, Some u) =>
          let frequency_ := Scanf.as_int32 u in
          if 0 <? frequency_ then
            (if kMaxFrequency <? frequency_ then kMaxFrequency else frequency_)
          else kDefaultFrequency
      | _ => kDefaultFrequency
      end
  end.

(** An entry of [callbacks_]: the pointer and the token it owns. *)
Abbreviation entry := (address * ProfileHandlerToken)%type (only parsing).

Section WithEventSource.

Context {ES : Type} `{!ProfileEventSource.interface ES}.

Record t := {
  interrupts_ : Z;
  frequency_ : Z;
  callback_count_ : Z;
  callbacks_ : list entry;
  event_source_ : ES
}.

(** The process: the singleton [instance_], the interval timers, the
    signal dispositions and the callback invocations made so far. *)
Record process := {
  instance_ : t;
  timers : itimers;
  signals : gmap signal disposition;
  invoked : list invocation
}.

Definition GetFrequency (self : t) : Z := frequency_ self.

Definition set_event_source (es : ES) (self : t) : t :=
  {| interrupts_ := interrupts_ self; frequency_ := frequency_ self;
     callback_count_ := callback_count_ self; callbacks_ := callbacks_ self;
     event_source_ := es |}.

Definition set_callbacks (l : list entry) (self : t) : t :=
  {| interrupts_ := interrupts_ self; frequency_ := frequency_ self;
     callback_count_ := callback_count_ self; callbacks_ := l;
     event_source_ := event_source_ self |}.

Definition set_callback_count (n : Z) (self : t) : t :=
  {| interrupts_ := interrupts_ self; frequency_ := frequency_ self;
     callback_count_ := n; callbacks_ := callbacks_ self;
     event_source_ := event_source_ self |}.

Definition set_interrupts (n : Z) (self : t) : t :=
  {| interrupts_ := n; frequency_ := frequency_ self;
     callback_count_ := callback_count_ self; callbacks_ := callbacks_ self;
     event_source_ := event_source_ self |}.

Definition on_instance (f : t -> t) (w : process) : process :=
  {| instance_ := f (instance_ w); timers := timers w;
     signals := signals w; invoked := invoked w |}.

(** A call of a member of the event source that acts on the timers. *)
Definition on_event_source (m : ES -> itimers -> ES * itimers) (w : process) : process :=
  let r := m (event_source_ (instance_ w)) (timers w) in
  {| instance_ := set_event_source (fst r) (instance_ w); timers := snd r;
     signals := signals w; invoked := invoked w |}.

Definition EnableHandler (th : thread) (w : process) : process :=
  let es := ProfileEventSource.EnableEvents th (event_source_ (instance_ w)) in
  let signal_number := ProfileEventSource.GetSignal es in
  {| instance_ := set_event_source es (instance_ w); timers := timers w;
     signals := sigaction signal_number SA_SignalHandler (signals w);
     invoked := invoked w |}.

Definition DisableHandler (th : thread) (w : process) : process :=
  let es := ProfileEventSource.DisableEvents th (event_source_ (instance_ w)) in
  let signal_number := ProfileEventSource.GetSignal es in
  {| instance_ := set_event_source es (instance_ w); timers := timers w;
     signals := sigaction signal_number SIG_IGN (signals w);
     invoked := invoked w |}.

(** The constructor.  [es] is what [BuildEventSource()] returns for the
    environment, [fr] what [getenv("CPUPROFILE_FREQUENCY")] returns;
    [k] and [sigs] are the timers and dispositions the process has
    when the singleton is built. *)
Definition ctor (th : thread) (es : ES) (fr : option string)
    (k : itimers) (sigs : gmap signal disposition) : process :=
  DisableHandler th
    {| instance_ := {| interrupts_ := 0; frequency_ := ctor_frequency fr;
                       callback_count_ := 0; callbacks_ := [];
                       event_source_ := es |};
       timers := k; signals := sigs; invoked := [] |}.

Definition RegisterThread (th : thread) (w : process) : process :=
  on_event_source
    (ProfileEventSource.RegisterThread th (GetFrequency (instance_ w))
       (callback_count_ (instance_ w))) w.

(** [token] is the address that [new ProfileHandlerToken(...)] returns. *)
Definition RegisterCallback (th : thread) (callback callback_arg : address)
    (token : address) (w : process) : address * process :=
  let w := DisableHandler th w in
  let w := on_instance (fun self =>
             set_callbacks
               (callbacks_ self ++
                [(token, {| callback := callback; callback_arg := callback_arg |})])
               self) w in
  let w := on_instance (fun self =>
             set_callback_count (callback_count_ self + 1) self) w in
  let w := on_event_source
             (ProfileEventSource.RegisteredCallback th (GetFrequency (instance_ w))
                (callback_count_ (instance_ w))) w in
  let w := EnableHandler th w in
  (token, w).

(** The body run when the loop of [UnregisterCallback] finds the token:
    the entries [before ++ after] are the list with [*it] erased. *)
Definition UnregisterCallback_found (th : thread) (before after : list entry)
    (w : process) : outcome process unit :=
  if 0 <? callback_count_ (instance_ w) then
    let w := DisableHandler th w in
    let w := on_instance (set_callbacks (before ++ after)) w in
    let w := on_instance (fun self =>
               set_callback_count (callback_count_ self - 1) self) w in
    let w := if 0 <? callback_count_ (instance_ w) then EnableHandler th w else w in
    let w := on_event_source
               (ProfileEventSource.UnregisteredCallback th (GetFrequency (instance_ w))
                  (callback_count_ (instance_ w))) w in
    Returns tt w
  else Fatal "Invalid callback count" w.

(** The loop over [callbacks_]: [before] are the entries passed, [it]
    the ones from the iterator on. *)
Fixpoint UnregisterCallback_loop (th : thread) (token : address)
    (before it : list entry) (w : process) : outcome process unit :=
  match it with
  | [] => Fatal "Invalid token" w
  | e :: after =>
      if fst e =? token then UnregisterCallback_found th before after w
      else UnregisterCallback_loop th token (before ++ [e]) after w
  end.

Definition UnregisterCallback (th : thread) (token : address) (w : process)
    : outcome process unit :=
  UnregisterCallback_loop th token [] (callbacks_ (instance_ w)) w.

Definition Reset (th : thread) (w : process) : process :=
  let w := DisableHandler th w in
  let w := on_instance (set_callbacks []) w in
  let w := on_instance (set_callback_count 0) w in
  on_event_source (ProfileEventSource.Reset th (GetFrequency (instance_ w))) w.

Definition GetState (th : thread) (w : process) : ProfileHandlerState * process :=
  let w := DisableHandler th w in
  let state_interrupts := interrupts_ (instance_ w) in
  let w := if 0 <? callback_count_ (instance_ w) then EnableHandler th w else w in
  ({| interrupts := state_interrupts;
      frequency := frequency_ (instance_ w);
      callback_count := callback_count_ (instance_ w) |}, w).

(** The call the handler makes for one entry. *)
Definition invoke (sig : signal) (sinfo ucontext : address) (ticks : N)
    (e : entry) : invocation :=
  {| inv_callback := callback (snd e); inv_sig := sig; inv_sinfo := sinfo;
     inv_ucontext := ucontext; inv_ticks := ticks;
     inv_arg := callback_arg (snd e) |}.

(** [SignalHandler], run on thread [th].  [errno] is saved and put
    back and has no part in the model. *)
Definition SignalHandler (th : thread) (sig : signal) (sinfo ucontext : address)
    (w : process) : process :=
  let r := ProfileEventSource.GetTicksSinceLastCall th (event_source_ (instance_ w)) in
  let ticks := fst r in
  let w := on_instance (set_event_source (snd r)) w in
  let w := on_instance (fun self => set_interrupts (interrupts_ self + 1) self) w in
  if negb (ticks =? 0)%N then
    {| instance_ := instance_ w; timers := timers w; signals := signals w;
       invoked := invoked w ++
                  map (invoke sig sinfo ucontext ticks) (callbacks_ (instance_ w)) |}
  else w.

(** *** Runs of the process

    What happens to the singleton: the five public operations (each
    made by a thread), the delivery of a signal to a thread, and the
    passing of a period of the real-time timer a thread reads. *)
Inductive call :=
| CallRegisterThread
| CallRegisterCallback (callback callback_arg : address) (token : address)
| CallUnregisterCallback (token : address)
| CallReset
| CallGetState
| Deliver (sig : signal) (sinfo ucontext : address)
| Elapse.

(** A delivered signal runs [SignalHandler] when that is its
    disposition, is dropped when ignored, and ends the process under
    the default action (both signals terminate by default). *)
Definition deliver (th : thread) (sig : signal) (sinfo ucontext : address)
    (w : process) : outcome process unit :=
  match disposition_of (signals w) sig with
  | SA_SignalHandler => Returns tt (SignalHandler th sig sinfo ucontext w)
  | SIG_IGN => Returns tt w
  | SIG_DFL => Fatal "terminated by signal" w
  end.

(** Time passes for the timers of the process; the singleton is not
    touched. *)
Definition elapse (th : thread) (w : process) : process :=
  {| instance_ := instance_ w; timers := expire th (signals w) (timers w);
     signals := signals w; invoked := invoked w |}.

Definition perform (th : thread) (c : call) (w : process) : outcome process unit :=
  match c with
  | CallRegisterThread => Returns tt (RegisterThread th w)
  | CallRegisterCallback callback callback_arg token =>
      Returns tt (snd (RegisterCallback th callback callback_arg token w))
  | CallUnregisterCallback token => UnregisterCallback th token w
  | CallReset => Returns tt (Reset th w)
  | CallGetState => Returns tt (snd (GetState th w))
  | Deliver sig sinfo ucontext => deliver th sig sinfo ucontext w
  | Elapse => Returns tt (elapse th w)
  end.

(** The calls are made one after the other; a fatal one ends the run. *)
Fixpoint run (cs : list (thread * call)) (w : process) : outcome process unit :=
  match cs with
  | [] => Returns tt w
  | (th, c) :: rest =>
      match perform th c w with
      | Returns _ w' => run rest w'
      | Fatal diagnostic w' => Fatal diagnostic w'
      end
  end.

(** The state a run ends in, whether it returned or was terminated. *)
Definition state_of {A : Type} (o : outcome process A) : process :=
  match o with
  | Returns _ w => w
  | Fatal _ w => w
  end.

Definition is_registration (c : call) : bool :=
  match c with
  | CallRegisterCallback _ _ _ => true
  | _ => false
  end.

Definition addresses (l : list entry) : list address := map fst l.

End WithEventSource.

Arguments t ES : clear implicits.
Arguments process ES : clear implicits.

End ProfileHandler.

Import ProfileHandler.

(** ** Notions the properties are stated with *)

Section Notions.

Context {ES : Type} `{!ProfileEventSource.interface ES}.

(** The representation invariant of the registry: [callback_count_] is
    the length of [callbacks_]. *)
Definition count_is_length (w : process ES) : Prop :=
  callback_count_ (instance_ w) = Z.of_nat (length (callbacks_ (instance_ w))).

(** The tokens that are live: the addresses held by the registry. *)
Definition live_tokens (w : process ES) : list address :=
  addresses (callbacks_ (instance_ w)).

Definition is_reset (c : call) : bool :=
  match c with
  | CallReset => true
  | _ => false
  end.

(** A registration request: the calling thread, then the callback, its
    argument and the address the token gets.  [registration] is the call
    it stands for, [registered] the entry it leaves in the registry. *)
Definition registration (r : thread * (address * address * address)) : thread * call :=
  (fst r, CallRegisterCallback (fst (fst (snd r))) (snd (fst (snd r))) (snd (snd r))).

Definition registered (r : thread * (address * address * address)) : entry :=
  (snd (snd r),
   {| callback := fst (fst (snd r)); callback_arg := snd (fst (snd r)) |}).

(** The entries that the registrations among the calls [cs] add, in the
    order of the calls. *)
Definition registered_by (cs : list (thread * call)) : list entry :=
  flat_map (fun tc =>
              match snd tc with
              | CallRegisterCallback callback callback_arg token =>
                  [(token, {| callback := callback; callback_arg := callback_arg |})]
              | _ => []
              end) cs.

End Notions.

(** The process whose event source is a [TimerProfileEventSource]. *)
Definition sharing_of (w : process TimerProfileEventSource.t)
    : TimerProfileEventSource.sharing :=
  TimerProfileEventSource.timer_sharing_ (event_source_ (instance_ w)).

(** What [IsTimerRunning] would answer to thread [th] in state [w]. *)
Definition timer_running (th : thread) (w : process TimerProfileEventSource.t) : bool :=
  TimerProfileEventSource.IsTimerRunning th (event_source_ (instance_ w)) (timers w).

(** The signal of the process's event source is delivered to
    [SignalHandler]. *)
Definition delivery_enabled (w : process TimerProfileEventSource.t) : bool :=
  bool_decide
    (disposition_of (signals w)
       (TimerProfileEventSource.GetSignal (event_source_ (instance_ w)))
     = SA_SignalHandler).

(** The sharing states in which detection is over. *)
Definition settled (s : TimerProfileEventSource.sharing) : Prop :=
  s = TimerProfileEventSource.TIMERS_SHARED \/
  s = TimerProfileEventSource.TIMERS_SEPARATE.

(** What a call can have done to the event source and the timers: left
    them alone, or made one call of [RegisterThread], of a hook, or of
    [Reset]. *)
Inductive timer_effect (th : thread) (w w' : process TimerProfileEventSource.t)
    : call -> Prop :=
| effect_none c :
    ~ is_reset c ->
    event_source_ (instance_ w') = event_source_ (instance_ w) ->
    timers w' = timers w ->
    callback_count_ (instance_ w') = callback_count_ (instance_ w) ->
    timer_effect th w w' c
| effect_RegisterThread :
    (event_source_ (instance_ w'), timers w') =
      TimerProfileEventSource.RegisterThread th (frequency_ (instance_ w))
        (callback_count_ (instance_ w)) (event_source_ (instance_ w)) (timers w) ->
    callback_count_ (instance_ w') = callback_count_ (instance_ w) ->
    timer_effect th w w' CallRegisterThread
| effect_RegisteredCallback cb arg token :
    (event_source_ (instance_ w'), timers w') =
      TimerProfileEventSource.RegisteredCallback th (frequency_ (instance_ w))
        (callback_count_ (instance_ w) + 1) (event_source_ (instance_ w)) (timers w) ->
    callback_count_ (instance_ w') = callback_count_ (instance_ w) + 1 ->
    timer_effect th w w' (CallRegisterCallback cb arg token)
| effect_UnregisteredCallback token :
    0 < callback_count_ (instance_ w) ->
    (event_source_ (instance_ w'), timers w') =
      TimerProfileEventSource.UnregisteredCallback th (frequency_ (instance_ w))
        (callback_count_ (instance_ w) - 1) (event_source_ (instance_ w)) (timers w) ->
    callback_count_ (instance_ w') = callback_count_ (instance_ w) - 1 ->
    timer_effect th w w' (CallUnregisterCallback token)
| effect_Reset :
    (event_source_ (instance_ w'), timers w') =
      TimerProfileEventSource.Reset th (frequency_ (instance_ w))
        (event_source_ (instance_ w)) (timers w) ->
    callback_count_ (instance_ w') = 0 ->
    timer_effect th w w' CallReset
| effect_Elapse :
    event_source_ (instance_ w') = event_source_ (instance_ w) ->
    timers w' = expire th (signals w) (timers w) ->
    signals w' = signals w ->
    callback_count_ (instance_ w') = callback_count_ (instance_ w) ->
    timer_effect th w w' Elapse.

(** The signal of the timer event source is bound to [SignalHandler]
    when callbacks are registered and ignored when none is. *)
Definition handler_follows_count (w : process TimerProfileEventSource.t) : Prop :=
  signals w !! TimerProfileEventSource.GetSignal (event_source_ (instance_ w)) =
    Some (if 0 <? callback_count_ (instance_ w) then SA_SignalHandler else SIG_IGN).


(** The registry is empty, nothing more has been invoked than in [w0],
    and the signal of the event source is ignored. *)
Definition quiet (w0 w : process TimerProfileEventSource.t) : Prop :=
  callbacks_ (instance_ w) = [] /\
  callback_count_ (instance_ w) = 0 /\
  invoked w = invoked w0 /\
  delivery_enabled w = false.

(** ** Decimal numerals

    The string made of the decimal digits [ds], most significant first,
    and the number it denotes. *)

Definition digit_char (d : Z) : ascii := ascii_of_nat (Z.to_nat (48 + d)).

Definition numeral (ds : list Z) : string :=
  string_of_list_ascii (map digit_char ds).

Definition numeral_value (ds : list Z) : Z :=
  fold_left (fun acc d => 10 * acc + d) ds 0.

Definition decimal_digits (ds : list Z) : Prop :=
  ds <> [] /\ Forall (fun d => 0 <= d <= 9) ds.

(** ** Sample processes

    A new process on a platform with process-wide timers, resp. with
    per-thread timers: no timer set, no disposition set, the singleton
    built by thread 0 over the CPU-time timer with no frequency override. *)

Definition no_timers (shared : bool) : itimers :=
  {| process_wide := shared; setting := ∅ |}.

Definition sample_process (shared : bool) : process TimerProfileEventSource.t :=
  ctor 0%nat (TimerProfileEventSource.ctor ITIMER_PROF) None (no_timers shared) ∅.

(** The same with two callbacks registered, tokens at 4096 and 4128. *)
Definition sample_two_callbacks (shared : bool) : process TimerProfileEventSource.t :=
  snd (RegisterCallback 1%nat 77 0 4128
         (snd (RegisterCallback 0%nat 55 0 4096 (sample_process shared)))).

(** ** Notions for the further properties *)

(** An override string as [sscanf] sees it: white space, an optional
    sign, a decimal numeral, and whatever follows. *)
Definition white_space (ws : list ascii) : Prop :=
  Forall (fun c => Scanf.isspace c = true) ws.

Inductive sign := no_sign | plus_sign | minus_sign.

Definition sign_string (s : sign) : string :=
  match s with
  | no_sign => EmptyString
  | plus_sign => String "+" EmptyString
  | minus_sign => String "-" EmptyString
  end.

Definition override (ws : list ascii) (s : sign) (ds : list Z) (tail : string) : string :=
  String.append (string_of_list_ascii ws)
    (String.append (sign_string s) (String.append (numeral ds) tail)).

(** [tail] does not go on with a digit. *)
Definition no_digit_ahead (tail : string) : Prop :=
  match tail with
  | EmptyString => True
  | String c _ => Scanf.digit_of c = None
  end.

Definition is_delivery (c : call) : bool :=
  match c with
  | Deliver _ _ _ => true
  | _ => false
  end.

Definition is_thread_registration (c : call) : bool :=
  match c with
  | CallRegisterThread => true
  | _ => false
  end.

Definition is_elapse (c : call) : bool :=
  match c with
  | Elapse => true
  | _ => false
  end.

(** Over [c] a running timer of type [timer] is sure to be armed again:
    the profiling timer always is, the real-time timer as long as no
    period goes by. *)
Definition keeps_time (timer : timer_type) (c : call) : bool :=
  match timer with
  | ITIMER_PROF => true
  | ITIMER_REAL => negb (is_elapse c)
  end.

(** ** The singleton and the C interface *)

Module Singleton.

(** How [pthread_once] is linked in: the weak symbol can be left null
    (a program without pthreads), be a function that does nothing
    (FreeBSD without pthreads), or be the one of the threads library. *)
Inductive linkage := once_null | once_does_nothing | once_pthreads.

Section WithThreadSource.

(** Modelled from the spec: [class ThreadProfileEventSource] is defined
    in profile-eventsource-timerthread.cc, which is not among the
    sources.  It is an event source with the members of
    [ProfileEventSource] and nothing more is said of it: [TS] is its
    state and [new_ThreadProfileEventSource] the object its constructor
    makes. *)
Context {TS : Type} `{!ProfileEventSource.interface TS}.
Variable new_ThreadProfileEventSource : TS.

(** What a [ProfileEventSource*] points to: an object of one of the two
    classes.  A virtual call runs the member of the object's class. *)
Inductive source :=
| Timer (es : TimerProfileEventSource.t)
| Thread (es : TS).

Definition as_Timer (r : TimerProfileEventSource.t * itimers) : source * itimers :=
  (Timer (fst r), snd r).

Definition as_Thread (r : TS * itimers) : source * itimers :=
  (Thread (fst r), snd r).

#[local] Instance virtual_call : ProfileEventSource.interface source := {|
  ProfileEventSource.RegisterThread th frequency callback_count self k :=
    match self with
    | Timer es =>
        as_Timer (ProfileEventSource.RegisterThread th frequency callback_count es k)
    | Thread es =>
        as_Thread (ProfileEventSource.RegisterThread th frequency callback_count es k)
    end;
  ProfileEventSource.RegisteredCallback th frequency new_callback_count self k :=
    match self with
    | Timer es =>
        as_Timer (ProfileEventSource.RegisteredCallback th frequency
                    new_callback_count es k)
    | Thread es =>
        as_Thread (ProfileEventSource.RegisteredCallback th frequency
                     new_callback_count es k)
    end;
  ProfileEventSource.UnregisteredCallback th frequency new_callback_count self k :=
    match self with
    | Timer es =>
        as_Timer (ProfileEventSource.UnregisteredCallback th frequency
                    new_callback_count es k)
    | Thread es =>
        as_Thread (ProfileEventSource.UnregisteredCallback th frequency
                     new_callback_count es k)
    end;
  ProfileEventSource.Reset th frequency self k :=
    match self with
    | Timer es => as_Timer (ProfileEventSource.Reset th frequency es k)
    | Thread es => as_Thread (ProfileEventSource.Reset th frequency es k)
    end;
  ProfileEventSource.GetSignal self :=
    match self with
    | Timer es => ProfileEventSource.GetSignal es
    | Thread es => ProfileEventSource.GetSignal es
    end;
  ProfileEventSource.EnableEvents th self :=
    match self with
    | Timer es => Timer (ProfileEventSource.EnableEvents th es)
    | Thread es => Thread (ProfileEventSource.EnableEvents th es)
    end;
  ProfileEventSource.DisableEvents th self :=
    match self with
    | Timer es => Timer (ProfileEventSource.DisableEvents th es)
    | Thread es => Thread (ProfileEventSource.DisableEvents th es)
    end;
  ProfileEventSource.GetTicksSinceLastCall th self :=
    match self with
    | Timer es =>
        let r := ProfileEventSource.GetTicksSinceLastCall th es in (fst r, Timer (snd r))
    | Thread es =>
        let r := ProfileEventSource.GetTicksSinceLastCall th es in (fst r, Thread (snd r))
    end
|}.

(** [string::empty()] *)
Definition empty (s : string) : bool :=
  match s with
  | EmptyString => true
  | String _ _ => false
  end.

(** [BuildEventSource]; [getenv] is the environment of the process. *)
Definition BuildEventSource (getenv : string -> option string)
    (event_source_type : string) : source :=
  let use_event_source_type :=
    if empty event_source_type then
      let use_event_source_type :=
        match getenv "CPUPROFILE_EVENT" with
        | Some event => event
        | None =>
            match getenv "CPUPROFILE_REALTIME" with
            | Some _ => "timer-realtime"
            | None => event_source_type
            end
        end in
      if empty use_event_source_type then "timer-cpu" else use_event_source_type
    else event_source_type in
  if String.eqb use_event_source_type "timer-realtime" then
    Timer (TimerProfileEventSource.ctor ITIMER_REAL)
  else if String.eqb use_event_source_type "thread-wallclock" then
    Thread new_ThreadProfileEventSource
  else
    Timer (TimerProfileEventSource.ctor ITIMER_PROF).

(** [new ProfileHandler()], made by thread [th]: the constructor calls
    [BuildEventSource()], whose argument defaults to the empty string,
    and reads CPUPROFILE_FREQUENCY. *)
Definition new_ProfileHandler (getenv : string -> option string) (th : thread)
    (k : itimers) (sigs : gmap signal disposition) : process source :=
  ctor th (BuildEventSource getenv EmptyString) (getenv "CPUPROFILE_FREQUENCY") k sigs.

(** The program: the static [once_] (true once [pthread_once] has run
    its routine) and the static [instance_], which is null until a
    handler is built; the process goes with it. *)
Inductive program :=
| NoInstance (once_ : bool) (k : itimers) (sigs : gmap signal disposition)
| HasInstance (once_ : bool) (w : process source).

Definition once_ (p : program) : bool :=
  match p with
  | NoInstance once_ _ _ => once_
  | HasInstance once_ _ => once_
  end.

Definition dispositions (p : program) : gmap signal disposition :=
  match p with
  | NoInstance _ _ sigs => sigs
  | HasInstance _ w => signals w
  end.

(** [Init] stores a new handler in [instance_]; the one that was there,
    if any, is left behind with its registry. *)
Definition Init (getenv : string -> option string) (th : thread) (p : program)
    : bool * process source :=
  match p with
  | NoInstance once_ k sigs => (once_, new_ProfileHandler getenv th k sigs)
  | HasInstance once_ w =>
      let w' := new_ProfileHandler getenv th (timers w) (signals w) in
      (once_, {| instance_ := instance_ w'; timers := timers w';
                 signals := signals w'; invoked := invoked w |})
  end.

(** [pthread_once(&once_, Init)] of the threads library. *)
Definition pthread_once (getenv : string -> option string) (th : thread)
    (p : program) : program :=
  if once_ p then p else HasInstance true (snd (Init getenv th p)).

(** [Instance] returns [instance_], which is not null then. *)
Definition Instance (link : linkage) (getenv : string -> option string)
    (th : thread) (p : program) : bool * process source :=
  let p :=
    match link with
    | once_null => p
    | once_does_nothing => p
    | once_pthreads => pthread_once getenv th p
    end in
  match p with
  | NoInstance _ _ _ => Init getenv th p
  | HasInstance once_ w => (once_, w)
  end.

(** A member function called on what [Instance] returned. *)
Definition member {A : Type} (r : bool * process source)
    (f : process source -> outcome (process source) A) : outcome program A :=
  match f (snd r) with
  | Returns a w => Returns a (HasInstance (fst r) w)
  | Fatal diagnostic w => Fatal diagnostic (HasInstance (fst r) w)
  end.

(** The constructor of the static [profile_handler_initializer]. *)
Definition ProfileHandlerInitializer (link : linkage)
    (getenv : string -> option string) (th : thread) (p : program) : program :=
  let r := Instance link getenv th p in
  HasInstance (fst r) (RegisterThread th (snd r)).

Definition ProfileHandlerRegisterThread (link : linkage)
    (getenv : string -> option string) (th : thread) (p : program) : program :=
  let r := Instance link getenv th p in
  HasInstance (fst r) (RegisterThread th (snd r)).

Definition ProfileHandlerRegisterCallback (link : linkage)
    (getenv : string -> option string) (th : thread)
    (callback callback_arg : address) (token : address) (p : program)
    : address * program :=
  let r := Instance link getenv th p in
  let r' := RegisterCallback th callback callback_arg token (snd r) in
  (fst r', HasInstance (fst r) (snd r')).

Definition ProfileHandlerUnregisterCallback (link : linkage)
    (getenv : string -> option string) (th : thread) (token : address)
    (p : program) : outcome program unit :=
  member (Instance link getenv th p) (UnregisterCallback th token).

Definition ProfileHandlerReset (link : linkage)
    (getenv : string -> option string) (th : thread) (p : program) : program :=
  let r := Instance link getenv th p in
  HasInstance (fst r) (Reset th (snd r)).

Definition ProfileHandlerGetState (link : linkage)
    (getenv : string -> option string) (th : thread) (p : program)
    : ProfileHandlerState * program :=
  let r := Instance link getenv th p in
  let r' := GetState th (snd r) in
  (fst r', HasInstance (fst r) (snd r')).

(** [SignalHandler] is static and starts with the check of [instance_]. *)
Definition SignalHandler (th : thread) (sig : signal) (sinfo ucontext : address)
    (p : program) : outcome program unit :=
  match p with
  | NoInstance _ _ _ => Fatal "ProfileHandler is not initialized" p
  | HasInstance once_ w =>
      Returns tt (HasInstance once_ (ProfileHandler.SignalHandler th sig sinfo ucontext w))
  end.

Definition deliver (th : thread) (sig : signal) (sinfo ucontext : address)
    (p : program) : outcome program unit :=
  match disposition_of (dispositions p) sig with
  | SA_SignalHandler => SignalHandler th sig sinfo ucontext p
  | SIG_IGN => Returns tt p
  | SIG_DFL => Fatal "terminated by signal" p
  end.

(** Time passes, with or without an instance. *)
Definition elapse (th : thread) (p : program) : program :=
  match p with
  | NoInstance once_ k sigs => NoInstance once_ (expire th sigs k) sigs
  | HasInstance once_ w => HasInstance once_ (ProfileHandler.elapse th w)
  end.

(** A call made through the C interface, with the environment it is
    made in. *)
Definition perform (link : linkage) (getenv : string -> option string)
    (th : thread) (c : call) (p : program) : outcome program unit :=
  match c with
  | CallRegisterThread => Returns tt (ProfileHandlerRegisterThread link getenv th p)
  | CallRegisterCallback callback callback_arg token =>
      Returns tt (snd (ProfileHandlerRegisterCallback link getenv th
                         callback callback_arg token p))
  | CallUnregisterCallback token =>
      ProfileHandlerUnregisterCallback link getenv th token p
  | CallReset => Returns tt (ProfileHandlerReset link getenv th p)
  | CallGetState => Returns tt (snd (ProfileHandlerGetState link getenv th p))
  | Deliver sig sinfo ucontext => deliver th sig sinfo ucontext p
  | Elapse => Returns tt (elapse th p)
  end.

Fixpoint run (link : linkage)
    (cs : list ((string -> option string) * (thread * call))) (p : program)
    : outcome program unit :=
  match cs with
  | [] => Returns tt p
  | (getenv, (th, c)) :: rest =>
      match perform link getenv th c p with
      | Returns _ p' => run link rest p'
      | Fatal diagnostic p' => Fatal diagnostic p'
      end
  end.

(** The program a run of the handler's members stands for. *)
Definition program_of (once_ : bool) (o : outcome (process source) unit)
    : outcome program unit :=
  match o with
  | Returns a w => Returns a (HasInstance once_ w)
  | Fatal diagnostic w => Fatal diagnostic (HasInstance once_ w)
  end.

(** A process over a timer event source, seen as one over a
    [ProfileEventSource*]. *)
Definition upcast (w : process TimerProfileEventSource.t) : process source :=
  {| instance_ :=
       {| interrupts_ := interrupts_ (instance_ w);
          frequency_ := frequency_ (instance_ w);
          callback_count_ := callback_count_ (instance_ w);
          callbacks_ := callbacks_ (instance_ w);
          event_source_ := Timer (event_source_ (instance_ w)) |};
     timers := timers w; signals := signals w; invoked := invoked w |}.

Definition upcast_outcome {A : Type}
    (o : outcome (process TimerProfileEventSource.t) A)
    : outcome (process source) A :=
  match o with
  | Returns a w => Returns a (upcast w)
  | Fatal diagnostic w => Fatal diagnostic (upcast w)
  end.

End WithThreadSource.

Arguments source TS : clear implicits.
Arguments program TS : clear implicits.

#[global] Existing Instance virtual_call.

End Singleton.

(** * Properties *)

(** ** The interval timers *)

Section Timers.

Import TimerProfileEventSource.

Lemma process_wide_setitimer which th v k :
  process_wide (setitimer which th v k) = process_wide k.
Proof. unfold setitimer. by destruct (valid_itimerval v). Qed.

Lemma slot_setitimer which th v k which' th' :
  slot (setitimer which th v k) which' th' = slot k which' th'.
Proof. unfold setitimer. by destruct (valid_itimerval v). Qed.

(** A request that is turned down changes nothing. *)
Lemma setitimer_refused which th v k :
  valid_itimerval v = false -> setitimer which th v k = k.
Proof. intros Hv. unfold setitimer. by rewrite Hv. Qed.

(** Reading back the timer a thread has just set. *)
Lemma getitimer_setitimer which th v k :
  valid_itimerval v = true ->
  getitimer which th (setitimer which th v k) = v.
Proof.
  intros Hv. unfold getitimer. rewrite slot_setitimer. unfold setitimer.
  rewrite Hv. cbn [setting]. by rewrite lookup_insert_eq.
Qed.

(** When timers are process wide every thread reads the one timer. *)
Lemma getitimer_setitimer_shared which th th' v k :
  valid_itimerval v = true ->
  process_wide k = true ->
  getitimer which th' (setitimer which th v k) = v.
Proof.
  intros Hv Hk. unfold getitimer, setitimer, slot. rewrite Hv.
  cbn [setting process_wide]. rewrite Hk. by rewrite lookup_insert_eq.
Qed.

Lemma getitimer_shared which th th' k :
  process_wide k = true -> getitimer which th k = getitimer which th' k.
Proof. intros Hk. unfold getitimer, slot. by rewrite Hk. Qed.


Lemma period_positive frequency :
  1 <= frequency <= 1000000 -> 0 < 1000000 ÷ frequency.
Proof.
  intros Hf. rewrite Z.quot_div_nonneg by lia.
  apply Z.div_str_pos. lia.
Qed.

(** From frequency 2 on the period is a canonical [timeval], and the
    request of [StartTimer] one that [setitimer] accepts. *)
Lemma StartTimer_value_canonical frequency :
  2 <= frequency <= 1000000 ->
  canonical_timeval (it_value (StartTimer_value frequency)) = true.
Proof.
  intros Hf. unfold canonical_timeval, StartTimer_value. cbn.
  rewrite Z.quot_div_nonneg by lia.
  assert (0 <= 1000000 / frequency < 1000000).
  { split; [apply Z.div_pos; lia | apply Z.div_lt; lia]. }
  apply andb_true_intro; split; [apply Z.leb_le | apply Z.ltb_lt]; lia.
Qed.

Lemma StartTimer_value_valid frequency :
  2 <= frequency <= 1000000 ->
  valid_itimerval (StartTimer_value frequency) = true.
Proof.
  intros Hf. unfold valid_itimerval.
  change (it_interval (StartTimer_value frequency))
    with (it_value (StartTimer_value frequency)).
  by rewrite StartTimer_value_canonical.
Qed.

(** At frequency 1 the period is written as 0 seconds and 1000000
    microseconds, which [setitimer] turns down. *)
Example StartTimer_value_1 :
  StartTimer_value 1 =
    {| it_interval := {| tv_sec := 0; tv_usec := 1000000 |};
       it_value := {| tv_sec := 0; tv_usec := 1000000 |} |} /\
  canonical_timeval (it_value (StartTimer_value 1)) = false.
Proof. by split. Qed.

Lemma StartTimer_refused th self k :
  StartTimer th 1 self k = k.
Proof. reflexivity. Qed.

Lemma IsTimerRunning_StartTimer th frequency self k :
  2 <= frequency <= 1000000 ->
  IsTimerRunning th self (StartTimer th frequency self k) = true.
Proof.
  intros Hf. unfold IsTimerRunning, StartTimer.
  rewrite getitimer_setitimer by (by apply StartTimer_value_valid). cbn.
  pose proof (period_positive frequency ltac:(lia)) as Hp.
  destruct (Z.eqb_spec (1000000 ÷ frequency) 0); [lia | done].
Qed.

Lemma IsTimerRunning_StartTimer_shared th th' frequency self k :
  process_wide k = true -> 2 <= frequency <= 1000000 ->
  IsTimerRunning th' self (StartTimer th frequency self k) = true.
Proof.
  intros Hk Hf. unfold IsTimerRunning, StartTimer.
  rewrite getitimer_setitimer_shared by (by try apply StartTimer_value_valid). cbn.
  pose proof (period_positive frequency ltac:(lia)) as Hp.
  destruct (Z.eqb_spec (1000000 ÷ frequency) 0); [lia | done].
Qed.

Lemma IsTimerRunning_StopTimer th self k :
  IsTimerRunning th self (StopTimer th self k) = false.
Proof. unfold IsTimerRunning, StopTimer. by rewrite getitimer_setitimer. Qed.


Lemma IsTimerRunning_shared th th' self k :
  process_wide k = true -> IsTimerRunning th self k = IsTimerRunning th' self k.
Proof.
  intros Hk. unfold IsTimerRunning.
  by rewrite (getitimer_shared _ th th' k Hk).
Qed.

(** *** Time passing *)

Lemma process_wide_lapse which th k :
  process_wide (lapse which th k) = process_wide k.
Proof. unfold lapse. by destruct (setting k !! slot k which th). Qed.

Lemma process_wide_expire th sigs k :
  process_wide (expire th sigs k) = process_wide k.
Proof.
  unfold expire. destruct (disposition_of sigs SIGALRM); try reflexivity.
  apply process_wide_lapse.
Qed.


Lemma getitimer_lapse which which' th th' k :
  getitimer which th (lapse which' th' k) =
    if decide (slot k which' th' = slot k which th)
    then {| it_interval := it_interval (getitimer which th k);
            it_value := if bool_decide (is_Some (setting k !! slot k which th))
                        then zero_timeval
                        else it_value (getitimer which th k) |}
    else getitimer which th k.
Proof.
  unfold lapse, getitimer.
  destruct (setting k !! slot k which' th') as [v |] eqn:Hv.
  - unfold slot at 1. cbn [process_wide setting]. fold (slot k which th).
    rewrite lookup_insert. case_decide as Hslot; [| reflexivity].
    rewrite <- Hslot, Hv. cbn [default].
    by rewrite bool_decide_eq_true_2 by eauto.
  - case_decide as Hslot; [| reflexivity].
    rewrite <- Hslot, Hv. cbn [default].
    rewrite bool_decide_eq_false_2; [reflexivity |].
    intros [v Hsome]. discriminate Hsome.
Qed.

(** A lapse starts no timer. *)
Lemma IsTimerRunning_expire_stopped th th' self sigs k :
  IsTimerRunning th self k = false ->
  IsTimerRunning th self (expire th' sigs k) = false.
Proof.
  intros Hstop. unfold expire.
  destruct (disposition_of sigs SIGALRM); try exact Hstop.
  unfold IsTimerRunning in *. rewrite getitimer_lapse.
  case_decide as Hslot; [| exact Hstop]. cbn [it_value].
  case_bool_decide; [reflexivity | exact Hstop].
Qed.

(** The profiling timer does not lapse. *)
Lemma IsTimerRunning_expire_PROF th th' self sigs k :
  timer_type_ self = ITIMER_PROF ->
  IsTimerRunning th self (expire th' sigs k) = IsTimerRunning th self k.
Proof.
  intros Htype. unfold expire.
  destruct (disposition_of sigs SIGALRM); try reflexivity.
  unfold IsTimerRunning. rewrite getitimer_lapse, Htype.
  case_decide as Hslot; [| reflexivity].
  unfold slot in Hslot. discriminate Hslot.
Qed.

(** A real-time timer that lapses reads as stopped. *)
Lemma IsTimerRunning_lapse th self k :
  IsTimerRunning th self (lapse (timer_type_ self) th k) = false.
Proof.
  unfold IsTimerRunning. rewrite getitimer_lapse.
  rewrite decide_True by reflexivity. cbn [it_value].
  case_bool_decide as Hsome; [reflexivity |].
  unfold getitimer. destruct (setting k !! slot k (timer_type_ self) th) as [v |] eqn:Hv.
  - exfalso. apply Hsome. by eauto.
  - reflexivity.
Qed.

End Timers.

(** C9.  For every frequency from 1 to 4000, [StartTimer] is the call of
    [setitimer] with an [itimerval] whose repeat interval and initial
    delay are both 0 seconds and 1000000 / frequency microseconds, the
    quotient being the integer one (the largest [p] with
    [p * frequency <= 1000000]) and above 0.  From frequency 2 on the
    timer of the calling thread holds that value afterwards.  At
    frequency 1, which CPUPROFILE_FREQUENCY=1 configures, the request is
    0 seconds and 1000000 microseconds: [setitimer] turns it down, the
    timer stays as it was, and a thread that registers with a new
    singleton in a process with no timer set has no timer running
    afterwards.  [StopTimer] is the call of [setitimer] with an
    [itimerval] whose two fields are zero, and that is what the timer
    holds afterwards. *)
Theorem C9_timer_period :
  (forall frequency : Z,
      1 <= frequency <= 4000 ->
      let period := {| tv_sec := 0; tv_usec := 1000000 / frequency |} in
      (tv_usec period * frequency <= 1000000 < (tv_usec period + 1) * frequency) /\
      0 < tv_usec period /\
      TimerProfileEventSource.StartTimer_value frequency =
        {| it_interval := period; it_value := period |} /\
      forall th self k,
        TimerProfileEventSource.StartTimer th frequency self k =
          setitimer (TimerProfileEventSource.timer_type_ self) th
            {| it_interval := period; it_value := period |} k) /\
  (forall (frequency : Z) th self k,
      2 <= frequency <= 4000 ->
      let period := {| tv_sec := 0; tv_usec := 1000000 / frequency |} in
      getitimer (TimerProfileEventSource.timer_type_ self) th
        (TimerProfileEventSource.StartTimer th frequency self k) =
        {| it_interval := period; it_value := period |}) /\
  (TimerProfileEventSource.StartTimer_value 1 =
     {| it_interval := {| tv_sec := 0; tv_usec := 1000000 |};
        it_value := {| tv_sec := 0; tv_usec := 1000000 |} |} /\
   valid_itimerval (TimerProfileEventSource.StartTimer_value 1) = false /\
   ctor_frequency (Some "1") = 1 /\
   (forall th self k, TimerProfileEventSource.StartTimer th 1 self k = k) /\
   (forall th0 th timer shared sigs,
       timer_running th
         (RegisterThread th0
            (ctor th0 (TimerProfileEventSource.ctor timer) (Some "1")
               (no_timers shared) sigs)) = false)) /\
  (TimerProfileEventSource.StopTimer_value =
     {| it_interval := zero_timeval; it_value := zero_timeval |} /\
   forall th self k,
     TimerProfileEventSource.StopTimer th self k =
       setitimer (TimerProfileEventSource.timer_type_ self) th
         {| it_interval := zero_timeval; it_value := zero_timeval |} k /\
     getitimer (TimerProfileEventSource.timer_type_ self) th
       (TimerProfileEventSource.StopTimer th self k) =
       {| it_interval := zero_timeval; it_value := zero_timeval |}).
Proof.
  assert (Hvalue : forall frequency, 1 <= frequency <= 4000 ->
             TimerProfileEventSource.StartTimer_value frequency =
             {| it_interval := {| tv_sec := 0; tv_usec := 1000000 / frequency |};
                it_value := {| tv_sec := 0; tv_usec := 1000000 / frequency |} |}).
  { intros frequency Hf. unfold TimerProfileEventSource.StartTimer_value.
    by rewrite Z.quot_div_nonneg by lia. }
  split; [| split; [| split]].
  - intros frequency Hf period. subst period. cbn [tv_usec].
    split.
    { pose proof (Z.div_mod 1000000 frequency ltac:(lia)) as Hdm.
      pose proof (Z.mod_pos_bound 1000000 frequency ltac:(lia)) as Hm.
      nia. }
    split; [apply Z.div_str_pos; lia |].
    split; [by apply Hvalue |].
    intros th self k. unfold TimerProfileEventSource.StartTimer.
    by rewrite Hvalue.
  - intros frequency th self k Hf period. subst period.
    unfold TimerProfileEventSource.StartTimer.
    rewrite getitimer_setitimer by (apply StartTimer_value_valid; lia).
    apply Hvalue. lia.
  - split; [reflexivity |]. split; [reflexivity |].
    split; [vm_compute; reflexivity |].
    split; [reflexivity |].
    intros th0 th timer shared sigs. by destruct timer, shared.
  - split; [reflexivity |]. intros th self k.
    split; [reflexivity |].
    unfold TimerProfileEventSource.StopTimer. by rewrite getitimer_setitimer.
Qed.

Lemma C9_timer_period_witness :
  getitimer ITIMER_PROF 0%nat
    (TimerProfileEventSource.StartTimer 0%nat 100
       (TimerProfileEventSource.ctor ITIMER_PROF) (no_timers true)) =
    {| it_interval := {| tv_sec := 0; tv_usec := 10000 |};
       it_value := {| tv_sec := 0; tv_usec := 10000 |} |}.
Proof.
  apply (proj1 (proj2 C9_timer_period) 100 0%nat
           (TimerProfileEventSource.ctor ITIMER_PROF) (no_timers true)).
  lia.
Defined.

(** ** The registry, for any event source *)

Section Registry.

Context {ES : Type} `{!ProfileEventSource.interface ES}.

Implicit Types (w : process ES) (th : thread) (token : address).

(** The handler switches and the event source hooks leave the registry,
    the counters and the invocation record alone. *)
Lemma EnableHandler_frame th w :
  callbacks_ (instance_ (EnableHandler th w)) = callbacks_ (instance_ w) /\
  callback_count_ (instance_ (EnableHandler th w)) = callback_count_ (instance_ w) /\
  interrupts_ (instance_ (EnableHandler th w)) = interrupts_ (instance_ w) /\
  frequency_ (instance_ (EnableHandler th w)) = frequency_ (instance_ w) /\
  invoked (EnableHandler th w) = invoked w /\
  timers (EnableHandler th w) = timers w.
Proof. by repeat split. Qed.

Lemma DisableHandler_frame th w :
  callbacks_ (instance_ (DisableHandler th w)) = callbacks_ (instance_ w) /\
  callback_count_ (instance_ (DisableHandler th w)) = callback_count_ (instance_ w) /\
  interrupts_ (instance_ (DisableHandler th w)) = interrupts_ (instance_ w) /\
  frequency_ (instance_ (DisableHandler th w)) = frequency_ (instance_ w) /\
  invoked (DisableHandler th w) = invoked w /\
  timers (DisableHandler th w) = timers w.
Proof. by repeat split. Qed.

Lemma on_event_source_frame m w :
  callbacks_ (instance_ (on_event_source m w)) = callbacks_ (instance_ w) /\
  callback_count_ (instance_ (on_event_source m w)) = callback_count_ (instance_ w) /\
  interrupts_ (instance_ (on_event_source m w)) = interrupts_ (instance_ w) /\
  frequency_ (instance_ (on_event_source m w)) = frequency_ (instance_ w) /\
  invoked (on_event_source m w) = invoked w /\
  signals (on_event_source m w) = signals w.
Proof. by repeat split. Qed.

(** *** [RegisterCallback] *)

Lemma RegisterCallback_registry th cb arg token w :
  let r := RegisterCallback th cb arg token w in
  fst r = token /\
  callbacks_ (instance_ (snd r)) =
    callbacks_ (instance_ w) ++ [(token, {| callback := cb; callback_arg := arg |})] /\
  callback_count_ (instance_ (snd r)) = callback_count_ (instance_ w) + 1 /\
  interrupts_ (instance_ (snd r)) = interrupts_ (instance_ w) /\
  frequency_ (instance_ (snd r)) = frequency_ (instance_ w) /\
  invoked (snd r) = invoked w.
Proof. by repeat split. Qed.

(** *** [Reset], [GetState], [RegisterThread], [SignalHandler] *)

Lemma Reset_registry th w :
  callbacks_ (instance_ (Reset th w)) = [] /\
  callback_count_ (instance_ (Reset th w)) = 0 /\
  interrupts_ (instance_ (Reset th w)) = interrupts_ (instance_ w) /\
  frequency_ (instance_ (Reset th w)) = frequency_ (instance_ w) /\
  invoked (Reset th w) = invoked w.
Proof. by repeat split. Qed.

Lemma GetState_registry th w :
  let r := GetState th w in
  fst r = {| interrupts := interrupts_ (instance_ w);
             frequency := frequency_ (instance_ w);
             callback_count := callback_count_ (instance_ w) |} /\
  callbacks_ (instance_ (snd r)) = callbacks_ (instance_ w) /\
  callback_count_ (instance_ (snd r)) = callback_count_ (instance_ w) /\
  interrupts_ (instance_ (snd r)) = interrupts_ (instance_ w) /\
  frequency_ (instance_ (snd r)) = frequency_ (instance_ w) /\
  invoked (snd r) = invoked w.
Proof.
  unfold GetState. cbn.
  destruct (0 <? callback_count_ (instance_ w)); by repeat split.
Qed.

Lemma RegisterThread_registry th w :
  callbacks_ (instance_ (RegisterThread th w)) = callbacks_ (instance_ w) /\
  callback_count_ (instance_ (RegisterThread th w)) = callback_count_ (instance_ w) /\
  interrupts_ (instance_ (RegisterThread th w)) = interrupts_ (instance_ w) /\
  frequency_ (instance_ (RegisterThread th w)) = frequency_ (instance_ w) /\
  invoked (RegisterThread th w) = invoked w.
Proof. by repeat split. Qed.

Lemma SignalHandler_registry th sig sinfo ucontext w :
  let w' := SignalHandler th sig sinfo ucontext w in
  let ticks := fst (ProfileEventSource.GetTicksSinceLastCall th
                      (event_source_ (instance_ w))) in
  callbacks_ (instance_ w') = callbacks_ (instance_ w) /\
  callback_count_ (instance_ w') = callback_count_ (instance_ w) /\
  interrupts_ (instance_ w') = interrupts_ (instance_ w) + 1 /\
  frequency_ (instance_ w') = frequency_ (instance_ w) /\
  timers w' = timers w /\
  signals w' = signals w /\
  invoked w' =
    invoked w ++
    (if (0 <? ticks)%N
     then map (invoke sig sinfo ucontext ticks) (callbacks_ (instance_ w))
     else []).
Proof.
  unfold SignalHandler. cbn.
  destruct (ProfileEventSource.GetTicksSinceLastCall th
              (event_source_ (instance_ w))) as [ticks es'] eqn:Hticks.
  cbn. destruct (N.eqb_spec ticks 0) as [-> | Hne]; cbn.
  - repeat split; try done. by rewrite app_nil_r.
  - assert (Hpos : (0 <? ticks)%N = true) by (apply N.ltb_lt; lia).
    rewrite Hpos. by repeat split.
Qed.

End Registry.

(** ** [UnregisterCallback] *)

Section Unregister.

Context {ES : Type} `{!ProfileEventSource.interface ES}.

Implicit Types (w : process ES) (th : thread) (token : address)
  (before after it : list entry).

Lemma addresses_app (l1 l2 : list entry) :
  addresses (l1 ++ l2) = addresses l1 ++ addresses l2.
Proof. apply map_app. Qed.

(** The loop ends in the fatal log when no entry matches. *)
Lemma UnregisterCallback_loop_absent th token it :
  forall before w,
    ~ In token (addresses it) ->
    UnregisterCallback_loop th token before it w = Fatal "Invalid token" w.
Proof.
  induction it as [| e it IH]; intros before w Hnot; [reflexivity |].
  cbn [UnregisterCallback_loop].
  destruct (Z.eqb_spec (fst e) token) as [Heq | Hne].
  - exfalso. apply Hnot. left. exact Heq.
  - apply IH. intros Hin. apply Hnot. right. exact Hin.
Qed.

(** Otherwise it stops at the first entry that matches. *)
Lemma UnregisterCallback_loop_present th token it :
  forall before w,
    In token (addresses it) ->
    exists l1 tok l2,
      it = l1 ++ (token, tok) :: l2 /\
      ~ In token (addresses l1) /\
      UnregisterCallback_loop th token before it w =
        UnregisterCallback_found th (before ++ l1) l2 w.
Proof.
  induction it as [| e it IH]; intros before w Hin; [destruct Hin |].
  cbn [UnregisterCallback_loop].
  destruct (Z.eqb_spec (fst e) token) as [Heq | Hne].
  - exists [], (snd e), it. rewrite app_nil_r. cbn.
    split; [| split; [tauto | reflexivity]].
    destruct e as [a tok]. cbn in Heq. by subst a.
  - destruct Hin as [Hhd | Htl]; [contradiction |].
    destruct (IH (before ++ [e]) w Htl) as (l1 & tok & l2 & Hit & Hl1 & Hloop).
    exists (e :: l1), tok, l2. split; [by rewrite Hit |].
    split.
    + intros [Hhd | Hin1]; [contradiction | by apply Hl1].
    + rewrite Hloop. by rewrite <- app_assoc.
Qed.

(** What the body does once the entry is found. *)
Lemma UnregisterCallback_found_returns th before after w :
  0 < callback_count_ (instance_ w) ->
  exists w',
    UnregisterCallback_found th before after w = Returns tt w' /\
    callbacks_ (instance_ w') = before ++ after /\
    callback_count_ (instance_ w') = callback_count_ (instance_ w) - 1 /\
    interrupts_ (instance_ w') = interrupts_ (instance_ w) /\
    frequency_ (instance_ w') = frequency_ (instance_ w) /\
    invoked w' = invoked w /\
    let es1 := ProfileEventSource.DisableEvents th (event_source_ (instance_ w)) in
    let ignored := sigaction (ProfileEventSource.GetSignal es1) SIG_IGN (signals w) in
    (signals w' =
       if 0 <? callback_count_ (instance_ w) - 1
       then sigaction
              (ProfileEventSource.GetSignal (ProfileEventSource.EnableEvents th es1))
              SA_SignalHandler ignored
       else ignored) /\
    (event_source_ (instance_ w'), timers w') =
      ProfileEventSource.UnregisteredCallback th (frequency_ (instance_ w))
        (callback_count_ (instance_ w) - 1)
        (if 0 <? callback_count_ (instance_ w) - 1
         then ProfileEventSource.EnableEvents th es1 else es1)
        (timers w).
Proof.
  intros Hpos. unfold UnregisterCallback_found.
  assert (Hlt : (0 <? callback_count_ (instance_ w)) = true) by (apply Z.ltb_lt; lia).
  rewrite Hlt. eexists. split; [reflexivity |]. cbn.
  destruct (0 <? callback_count_ (instance_ w) - 1); cbn;
    repeat split; try done; by rewrite <- surjective_pairing.
Qed.

Lemma UnregisterCallback_found_fatal th before after w :
  callback_count_ (instance_ w) <= 0 ->
  UnregisterCallback_found th before after w = Fatal "Invalid callback count" w.
Proof.
  intros Hle. unfold UnregisterCallback_found.
  assert (Hlt : (0 <? callback_count_ (instance_ w)) = false) by (apply Z.ltb_ge; lia).
  by rewrite Hlt.
Qed.

(** Whatever [UnregisterCallback] does, a return means that one entry
    went and the count went down by one. *)
Lemma UnregisterCallback_returns_inv th token w w' :
  UnregisterCallback th token w = Returns tt w' ->
  exists l1 tok l2,
    callbacks_ (instance_ w) = l1 ++ (token, tok) :: l2 /\
    callbacks_ (instance_ w') = l1 ++ l2 /\
    callback_count_ (instance_ w') = callback_count_ (instance_ w) - 1 /\
    interrupts_ (instance_ w') = interrupts_ (instance_ w) /\
    frequency_ (instance_ w') = frequency_ (instance_ w) /\
    invoked w' = invoked w.
Proof.
  unfold UnregisterCallback. intros Hret.
  destruct (in_dec Z.eq_dec token (addresses (callbacks_ (instance_ w)))) as [Hin | Hnot].
  - destruct (UnregisterCallback_loop_present th token _ [] w Hin)
      as (l1 & tok & l2 & Hcb & _ & Hloop).
    rewrite Hloop in Hret. cbn [app] in Hret.
    destruct (Z_lt_le_dec 0 (callback_count_ (instance_ w))) as [Hpos | Hle].
    + destruct (UnregisterCallback_found_returns th l1 l2 w Hpos)
        as (w1 & Hfound & Hl & Hc & Hi & Hf & Hv & _ & _).
      rewrite Hfound in Hret. injection Hret as <-.
      exists l1, tok, l2. by repeat split.
    + by rewrite UnregisterCallback_found_fatal in Hret.
  - by rewrite UnregisterCallback_loop_absent in Hret.
Qed.

(** A fatal end leaves the state as it was. *)
Lemma UnregisterCallback_fatal_inv th token w diagnostic w' :
  UnregisterCallback th token w = Fatal diagnostic w' -> w' = w.
Proof.
  unfold UnregisterCallback. intros Hret.
  destruct (in_dec Z.eq_dec token (addresses (callbacks_ (instance_ w)))) as [Hin | Hnot].
  - destruct (UnregisterCallback_loop_present th token _ [] w Hin)
      as (l1 & tok & l2 & Hcb & _ & Hloop).
    rewrite Hloop in Hret. cbn [app] in Hret.
    destruct (Z_lt_le_dec 0 (callback_count_ (instance_ w))) as [Hpos | Hle].
    + destruct (UnregisterCallback_found_returns th l1 l2 w Hpos)
        as (w1 & Hfound & _).
      by rewrite Hfound in Hret.
    + rewrite UnregisterCallback_found_fatal in Hret by done. congruence.
  - rewrite UnregisterCallback_loop_absent in Hret by done. congruence.
Qed.

(** The three ways [UnregisterCallback] can go. *)
Lemma UnregisterCallback_cases th token w :
  (~ In token (live_tokens w) /\
   UnregisterCallback th token w = Fatal "Invalid token" w) \/
  (exists l1 tok l2,
      callbacks_ (instance_ w) = l1 ++ (token, tok) :: l2 /\
      ~ In token (addresses l1) /\
      UnregisterCallback th token w = UnregisterCallback_found th l1 l2 w).
Proof.
  destruct (in_dec Z.eq_dec token (live_tokens w)) as [Hin | Hnot].
  - right. destruct (UnregisterCallback_loop_present th token _ [] w Hin)
      as (l1 & tok & l2 & Hcb & Hl1 & Hloop).
    exists l1, tok, l2. by repeat split.
  - left. split; [exact Hnot | by apply UnregisterCallback_loop_absent].
Qed.

End Unregister.

(** ** Runs *)

Section Runs.

Context {ES : Type} `{!ProfileEventSource.interface ES}.

Implicit Types (w : process ES) (th : thread) (c : call)
  (cs : list (thread * call)).

(** A property kept by every call holds at the end of every run. *)
Lemma run_invariant (I : process ES -> Prop) :
  (forall th c w, I w -> I (state_of (perform th c w))) ->
  forall cs w, I w -> I (state_of (run cs w)).
Proof.
  intros Hstep. induction cs as [| [th c] cs IH]; intros w Hw; [exact Hw |].
  cbn [run]. pose proof (Hstep th c w Hw) as Hnext.
  destruct (perform th c w) as [[] w' | diagnostic w']; cbn in *.
  - by apply IH.
  - exact Hnext.
Qed.

Lemma run_app cs1 cs2 w :
  run (cs1 ++ cs2) w =
    match run cs1 w with
    | Returns _ w' => run cs2 w'
    | Fatal diagnostic w' => Fatal diagnostic w'
    end.
Proof.
  revert w. induction cs1 as [| [th c] cs1 IH]; intros w; [reflexivity |].
  cbn [run app]. destruct (perform th c w) as [[] w' | diagnostic w'];
    [apply IH | reflexivity].
Qed.

Lemma deliver_cases th sig sinfo ucontext w :
  state_of (deliver th sig sinfo ucontext w) = w \/
  state_of (deliver th sig sinfo ucontext w) = SignalHandler th sig sinfo ucontext w.
Proof. unfold deliver. destruct (disposition_of _ _); cbn; auto. Qed.

Lemma count_is_length_perform th c w :
  count_is_length w -> count_is_length (state_of (perform th c w)).
Proof.
  unfold count_is_length. intros Hw. destruct c as [| cb arg token | token | | | sig sinfo uc |];
    cbn [perform state_of].
  - exact Hw.
  - destruct (RegisterCallback_registry th cb arg token w) as (_ & -> & -> & _).
    rewrite length_app, Hw. cbn. lia.
  - destruct (UnregisterCallback th token w) as [[] w' | diagnostic w'] eqn:Hun; cbn.
    + destruct (UnregisterCallback_returns_inv th token w w' Hun)
        as (l1 & tok & l2 & Hcb & -> & -> & _).
      rewrite Hw, Hcb, !length_app. cbn. lia.
    + by rewrite (UnregisterCallback_fatal_inv th token w diagnostic w' Hun).
  - by destruct (Reset_registry th w) as (-> & -> & _).
  - by destruct (GetState_registry th w) as (_ & -> & -> & _).
  - destruct (deliver_cases th sig sinfo uc w) as [-> | ->]; [exact Hw |].
    by destruct (SignalHandler_registry th sig sinfo uc w) as (-> & -> & _).
  - exact Hw.
Qed.

Lemma frequency_perform th c w :
  frequency_ (instance_ (state_of (perform th c w))) = frequency_ (instance_ w).
Proof.
  destruct c as [| cb arg token | token | | | sig sinfo uc |]; cbn [perform state_of];
    try reflexivity.
  - destruct (UnregisterCallback th token w) as [[] w' | diagnostic w'] eqn:Hun; cbn.
    + by destruct (UnregisterCallback_returns_inv th token w w' Hun)
        as (l1 & tok & l2 & _ & _ & _ & _ & -> & _).
    + by rewrite (UnregisterCallback_fatal_inv th token w diagnostic w' Hun).
  - by destruct (GetState_registry th w) as (_ & _ & _ & _ & -> & _).
  - destruct (deliver_cases th sig sinfo uc w) as [-> | ->]; [reflexivity |].
    by destruct (SignalHandler_registry th sig sinfo uc w) as (_ & _ & _ & -> & _).
Qed.

Lemma frequency_run cs w :
  frequency_ (instance_ (state_of (run cs w))) = frequency_ (instance_ w).
Proof.
  apply (run_invariant (fun w' => frequency_ (instance_ w') = frequency_ (instance_ w)));
    [| reflexivity].
  intros th c w' Hw'. by rewrite frequency_perform.
Qed.

Lemma ctor_registry th es fr k sigs :
  let w := ctor th es fr k sigs in
  callbacks_ (instance_ w) = [] /\
  callback_count_ (instance_ w) = 0 /\
  interrupts_ (instance_ w) = 0 /\
  frequency_ (instance_ w) = ctor_frequency fr /\
  invoked w = [] /\
  timers w = k.
Proof. by repeat split. Qed.

Lemma count_is_length_run th es fr k sigs cs :
  count_is_length (state_of (run cs (ctor th es fr k sigs))).
Proof. apply run_invariant; [apply count_is_length_perform | reflexivity]. Qed.

(** Registrations alone append to the registry, in the order of the
    calls. *)
Lemma run_registrations rs w :
  exists w',
    run (map registration rs) w = Returns tt w' /\
    callbacks_ (instance_ w') = callbacks_ (instance_ w) ++ map registered rs.
Proof.
  revert w. induction rs as [| [th [[cb arg] token]] rs IH]; intros w.
  - exists w. by rewrite app_nil_r.
  - cbn [map run registration perform fst snd].
    destruct (IH (snd (RegisterCallback th cb arg token w))) as (w' & Hrun & Hcb).
    exists w'. split; [exact Hrun |]. rewrite Hcb.
    destruct (RegisterCallback_registry th cb arg token w) as (_ & -> & _).
    by rewrite <- app_assoc.
Qed.

End Runs.

(** The two counters grow by one per call at most: after a run of [n]
    calls on a new singleton both are between 0 and [n].  An [int32]
    [callback_count_] and an [int64] [interrupts_] hold them as long as
    the run is shorter than 2^31 calls. *)
Lemma counters_perform {ES : Type} `{!ProfileEventSource.interface ES}
    th c (w : process ES) :
  let w' := state_of (perform th c w) in
  (length (callbacks_ (instance_ w')) <= S (length (callbacks_ (instance_ w))))%nat /\
  interrupts_ (instance_ w) <= interrupts_ (instance_ w') <= interrupts_ (instance_ w) + 1.
Proof.
  destruct c as [| cb arg token | token | | | sig sinfo uc |]; cbn [perform state_of].
  - destruct (RegisterThread_registry th w) as (-> & _ & -> & _). lia.
  - destruct (RegisterCallback_registry th cb arg token w) as (_ & -> & _ & -> & _).
    rewrite length_app. cbn [length]. lia.
  - destruct (UnregisterCallback th token w) as [[] w' | diagnostic w'] eqn:Hun;
      cbn [state_of].
    + destruct (UnregisterCallback_returns_inv th token w w' Hun)
        as (l1 & tok & l2 & -> & -> & _ & -> & _).
      rewrite !length_app. cbn [length]. lia.
    + rewrite (UnregisterCallback_fatal_inv th token w diagnostic w' Hun). lia.
  - destruct (Reset_registry th w) as (-> & _ & -> & _). cbn [length]. lia.
  - destruct (GetState_registry th w) as (_ & -> & _ & -> & _). lia.
  - destruct (deliver_cases th sig sinfo uc w) as [-> | ->]; [lia |].
    destruct (SignalHandler_registry th sig sinfo uc w) as (-> & _ & -> & _). lia.
  - cbn [elapse instance_]. lia.
Qed.

Lemma counters_run {ES : Type} `{!ProfileEventSource.interface ES} cs :
  forall w : process ES,
    let w' := state_of (run cs w) in
    (length (callbacks_ (instance_ w')) <=
       length (callbacks_ (instance_ w)) + length cs)%nat /\
    interrupts_ (instance_ w) <= interrupts_ (instance_ w')
      <= interrupts_ (instance_ w) + Z.of_nat (length cs).
Proof.
  induction cs as [| [th c] cs IH]; intros w; cbn [run length]; [cbn; lia |].
  pose proof (counters_perform th c w) as Hstep. cbv zeta in Hstep.
  destruct (perform th c w) as [[] w1 | diagnostic w1]; cbn [state_of] in *.
  - specialize (IH w1). cbv zeta in IH. lia.
  - lia.
Qed.

Lemma counters_bounded {ES : Type} `{!ProfileEventSource.interface ES}
    th0 (es : ES) fr k sigs cs :
  let w := state_of (run cs (ctor th0 es fr k sigs)) in
  0 <= callback_count_ (instance_ w) <= Z.of_nat (length cs) /\
  0 <= interrupts_ (instance_ w) <= Z.of_nat (length cs).
Proof.
  intros w. pose proof (count_is_length_run th0 es fr k sigs cs) as Hwf.
  pose proof (counters_run cs (ctor th0 es fr k sigs)) as Hrun.
  cbv zeta in Hrun. fold w in Hwf, Hrun. unfold count_is_length in Hwf.
  destruct (ctor_registry th0 es fr k sigs) as (Hcb & _ & Hint & _).
  rewrite Hcb, Hint in Hrun. cbn [length] in Hrun. lia.
Qed.

(** The registry holds entries in the order they were registered in:
    after any run it is what is left of the entries it had, followed by
    the ones registered during the run, once some have been taken out. *)
Lemma callbacks_perform_sublist {ES : Type} `{!ProfileEventSource.interface ES}
    th c (w : process ES) :
  callbacks_ (instance_ (state_of (perform th c w)))
    `sublist_of` callbacks_ (instance_ w) ++ registered_by [(th, c)].
Proof.
  destruct c as [| cb arg token | token | | | sig sinfo uc |];
    cbn [perform state_of registered_by flat_map snd app];
    rewrite ?app_nil_r.
  - by destruct (RegisterThread_registry th w) as (-> & _).
  - by destruct (RegisterCallback_registry th cb arg token w) as (_ & -> & _).
  - destruct (UnregisterCallback th token w) as [[] w' | diagnostic w'] eqn:Hun;
      cbn [state_of].
    + destruct (UnregisterCallback_returns_inv th token w w' Hun)
        as (l1 & tok & l2 & -> & -> & _).
      apply sublist_app; [done |]. by apply sublist_cons.
    + by rewrite (UnregisterCallback_fatal_inv th token w diagnostic w' Hun).
  - destruct (Reset_registry th w) as (-> & _). apply sublist_nil_l.
  - by destruct (GetState_registry th w) as (_ & -> & _).
  - destruct (deliver_cases th sig sinfo uc w) as [-> | ->]; [done |].
    by destruct (SignalHandler_registry th sig sinfo uc w) as (-> & _).
  - done.
Qed.

Lemma registered_by_cons tc cs :
  registered_by (tc :: cs) = registered_by [tc] ++ registered_by cs.
Proof. unfold registered_by. cbn [flat_map]. by rewrite app_nil_r. Qed.

Lemma callbacks_run_sublist {ES : Type} `{!ProfileEventSource.interface ES} cs :
  forall w : process ES,
    callbacks_ (instance_ (state_of (run cs w)))
      `sublist_of` callbacks_ (instance_ w) ++ registered_by cs.
Proof.
  induction cs as [| [th c] cs IH]; intros w.
  - cbn. by rewrite app_nil_r.
  - rewrite registered_by_cons, app_assoc. cbn [run].
    pose proof (callbacks_perform_sublist th c w) as Hstep.
    destruct (perform th c w) as [[] w1 | diagnostic w1]; cbn [state_of] in *.
    + etransitivity; [apply IH |]. by apply sublist_app.
    + by apply sublist_inserts_r.
Qed.

(** [new] returns an address that no live object has: registering under
    such an address keeps the live tokens distinct. *)
Lemma NoDup_RegisterCallback {ES : Type} `{!ProfileEventSource.interface ES}
    th cb arg token (w : process ES) :
  ~ In token (live_tokens w) ->
  List.NoDup (live_tokens w) ->
  List.NoDup (live_tokens (snd (RegisterCallback th cb arg token w))).
Proof.
  intros Hfresh Hnd. unfold live_tokens in *.
  destruct (RegisterCallback_registry th cb arg token w) as (_ & -> & _).
  rewrite addresses_app. cbn.
  apply NoDup_ListNoDup, NoDup_app.
  split; [by apply NoDup_ListNoDup |]. split.
  - intros a Ha Hin. apply list_elem_of_In in Ha.
    apply list_elem_of_In in Hin. destruct Hin as [<- | []]. by apply Hfresh.
  - apply NoDup_singleton.
Qed.

(** ** The claims about the registry *)

(** C1.  Whatever calls are made on the singleton after its construction
    (registrations, unregistrations, resets, and also thread
    registrations, state queries and signal deliveries), the
    [callback_count] that [GetState] reports is the number of entries of
    the registry, which is the number of live tokens, and
    [UnregisterCallback] returns for each of them.  [RegisterCallback]
    adds one entry and one to the count;
    an [UnregisterCallback] that returns has taken one entry away and one
    off the count; [Reset] leaves the registry empty and the count 0. *)
Theorem C1_callback_count_is_registry_size :
  forall (ES : Type) (HES : ProfileEventSource.interface ES),
    (forall th0 (es : ES) fr k sigs cs th,
        let w := state_of (run cs (ctor th0 es fr k sigs)) in
        callback_count (fst (GetState th w)) =
          Z.of_nat (length (callbacks_ (instance_ w))) /\
        callback_count (fst (GetState th w)) = Z.of_nat (length (live_tokens w)) /\
        (forall token,
            In token (live_tokens w) ->
            exists w', UnregisterCallback th token w = Returns tt w')) /\
    (forall th cb arg token (w : process ES),
        let w' := snd (RegisterCallback th cb arg token w) in
        length (callbacks_ (instance_ w')) = S (length (callbacks_ (instance_ w))) /\
        callback_count_ (instance_ w') = callback_count_ (instance_ w) + 1) /\
    (forall th token (w w' : process ES),
        UnregisterCallback th token w = Returns tt w' ->
        S (length (callbacks_ (instance_ w'))) = length (callbacks_ (instance_ w)) /\
        callback_count_ (instance_ w') = callback_count_ (instance_ w) - 1) /\
    (forall th (w : process ES),
        callbacks_ (instance_ (Reset th w)) = [] /\
        callback_count_ (instance_ (Reset th w)) = 0).
Proof.
  intros ES HES. split; [| split; [| split]].
  - intros th0 es fr k sigs cs th w.
    pose proof (count_is_length_run th0 es fr k sigs cs) as Hwf. fold w in Hwf.
    destruct (GetState_registry th w) as (-> & _). cbn [callback_count].
    split; [exact Hwf |]. split.
    + unfold live_tokens, addresses. by rewrite length_map.
    + intros token Hin.
      destruct (UnregisterCallback_cases th token w)
        as [[Hnot _] | (l1 & tok & l2 & Hcb & _ & ->)]; [contradiction |].
      assert (Hpos : 0 < callback_count_ (instance_ w)).
      { unfold count_is_length in Hwf. rewrite Hwf, Hcb, length_app.
        cbn [length]. lia. }
      destruct (UnregisterCallback_found_returns th l1 l2 w Hpos) as (w' & Hret & _).
      by exists w'.
  - intros th cb arg token w w'. subst w'.
    destruct (RegisterCallback_registry th cb arg token w) as (_ & -> & -> & _).
    rewrite length_app. cbn. split; [lia | reflexivity].
  - intros th token w w' Hret.
    destruct (UnregisterCallback_returns_inv th token w w' Hret)
      as (l1 & tok & l2 & -> & -> & -> & _).
    rewrite !length_app. cbn. split; [lia | reflexivity].
  - intros th w. by destruct (Reset_registry th w) as (-> & -> & _).
Qed.

(** C4.  Each run of [SignalHandler] adds exactly 1 to the interrupt
    counter, whatever the tick count; it leaves the registry and the count
    as they are; and the calls it makes are, when the event source reports
    a tick count above 0, one call per entry of the registry, in the order
    of the registry: the call for an entry is the call of that entry's
    callback, with the signal, the signal information and the context
    the handler was given, that tick count, and that entry's argument;
    with a tick count of 0 it makes none.  The order of the registry is
    the order of registration: [RegisterCallback] appends, after a
    series of registrations on a new singleton the registry lists them
    in the order they were made, and after any run of calls the registry
    is, in that order, part of the entries registered during the run. *)
Theorem C4_SignalHandler_dispatch :
  forall (ES : Type) (HES : ProfileEventSource.interface ES)
         th sig sinfo ucontext (w : process ES),
    let ticks := fst (ProfileEventSource.GetTicksSinceLastCall th
                        (event_source_ (instance_ w))) in
    let w' := SignalHandler th sig sinfo ucontext w in
    interrupts_ (instance_ w') = interrupts_ (instance_ w) + 1 /\
    callbacks_ (instance_ w') = callbacks_ (instance_ w) /\
    callback_count_ (instance_ w') = callback_count_ (instance_ w) /\
    invoked w' =
      invoked w ++
      (if (0 <? ticks)%N
       then map (fun e : address * ProfileHandlerToken =>
                   {| inv_callback := callback (snd e); inv_sig := sig;
                      inv_sinfo := sinfo; inv_ucontext := ucontext;
                      inv_ticks := ticks; inv_arg := callback_arg (snd e) |})
              (callbacks_ (instance_ w))
       else []) /\
    (forall th' cb arg token,
        callbacks_ (instance_ (snd (RegisterCallback th' cb arg token w))) =
          callbacks_ (instance_ w) ++
          [(token, {| callback := cb; callback_arg := arg |})]) /\
    (forall th0 (es : ES) fr k sigs rs,
        callbacks_ (instance_
          (state_of (run (map registration rs) (ctor th0 es fr k sigs)))) =
        map registered rs) /\
    (forall th0 (es : ES) fr k sigs cs,
        callbacks_ (instance_ (state_of (run cs (ctor th0 es fr k sigs))))
          `sublist_of` registered_by cs).
Proof.
  intros ES HES th sig sinfo ucontext w ticks w'.
  destruct (SignalHandler_registry th sig sinfo ucontext w)
    as (Hcb & Hcount & Hint & _ & _ & _ & Hinv).
  split; [exact Hint |]. split; [exact Hcb |]. split; [exact Hcount |].
  split; [exact Hinv |]. split; [| split].
  - intros th' cb arg token.
    by destruct (RegisterCallback_registry th' cb arg token w) as (_ & -> & _).
  - intros th0 es fr k sigs rs.
    destruct (run_registrations rs (ctor th0 es fr k sigs)) as (w1 & Hrun & Hreg).
    rewrite Hrun. cbn [state_of]. exact Hreg.
  - intros th0 es fr k sigs cs.
    apply (callbacks_run_sublist cs (ctor th0 es fr k sigs)).
Qed.

Lemma C4_SignalHandler_dispatch_witness :
  interrupts_
    (instance_
       (SignalHandler 2%nat SIGPROF 11 13
          (snd (RegisterCallback 1%nat 77 8 4128
                  (snd (RegisterCallback 0%nat 55 7 4096 (sample_process true))))))) =
    1 /\
  invoked
    (SignalHandler 2%nat SIGPROF 11 13
       (snd (RegisterCallback 1%nat 77 8 4128
               (snd (RegisterCallback 0%nat 55 7 4096 (sample_process true)))))) =
    [ {| inv_callback := 55; inv_sig := SIGPROF; inv_sinfo := 11;
         inv_ucontext := 13; inv_ticks := 1; inv_arg := 7 |};
      {| inv_callback := 77; inv_sig := SIGPROF; inv_sinfo := 11;
         inv_ucontext := 13; inv_ticks := 1; inv_arg := 8 |} ].
Proof.
  destruct (C4_SignalHandler_dispatch _ _ 2%nat SIGPROF 11 13
              (snd (RegisterCallback 1%nat 77 8 4128
                      (snd (RegisterCallback 0%nat 55 7 4096 (sample_process true))))))
    as (Hint & _ & _ & Hinv & _).
  split.
  - rewrite Hint. vm_compute; reflexivity.
  - rewrite Hinv. vm_compute; reflexivity.
Defined.

(** C6.  [UnregisterCallback] with a token that is not in the registry
    ends in the fatal log "Invalid token"; the process stops in the state
    it was called in, so no entry has been removed and the count is what
    it was. *)
Theorem C6_UnregisterCallback_unknown_token :
  forall (ES : Type) (HES : ProfileEventSource.interface ES)
         th token (w : process ES),
    ~ In token (live_tokens w) ->
    UnregisterCallback th token w = Fatal "Invalid token" w /\
    callbacks_ (instance_ (state_of (UnregisterCallback th token w))) =
      callbacks_ (instance_ w) /\
    callback_count_ (instance_ (state_of (UnregisterCallback th token w))) =
      callback_count_ (instance_ w).
Proof.
  intros ES HES th token w Hnot.
  assert (Hfatal : UnregisterCallback th token w = Fatal "Invalid token" w)
    by (by apply UnregisterCallback_loop_absent).
  rewrite Hfatal. by repeat split.
Qed.

Lemma C1_callback_count_is_registry_size_witness :
  exists w',
    UnregisterCallback 0%nat 4096 (sample_two_callbacks true) = Returns tt w' /\
    S (length (callbacks_ (instance_ w'))) =
      length (callbacks_ (instance_ (sample_two_callbacks true))) /\
    callback_count_ (instance_ w') =
      callback_count_ (instance_ (sample_two_callbacks true)) - 1.
Proof.
  eexists. split; [vm_compute; reflexivity |].
  apply (proj1 (proj2 (proj2 (C1_callback_count_is_registry_size
                                TimerProfileEventSource.t
                                TimerProfileEventSource.event_source)))
           0%nat 4096).
  vm_compute; reflexivity.
Defined.

Lemma C6_UnregisterCallback_unknown_token_witness :
  ~ In 4160 (live_tokens (sample_two_callbacks false)) /\
  UnregisterCallback 1%nat 4160 (sample_two_callbacks false) =
    Fatal "Invalid token" (sample_two_callbacks false).
Proof.
  assert (Hnot : ~ In 4160 (live_tokens (sample_two_callbacks false))).
  { vm_compute. intros [H | [H | []]]; discriminate H. }
  split; [exact Hnot |].
  exact (proj1 (C6_UnregisterCallback_unknown_token _ _ 1%nat 4160
                  (sample_two_callbacks false) Hnot)).
Defined.

(** C5.  In a state where the count is the length of the registry, and for
    a token [token] that is in the registry, [UnregisterCallback] returns;
    it has removed the first (and, the tokens being distinct, the only)
    entry whose address is [token], the entries before and after it stay,
    in their order; the count is one less, and still the length of the
    registry.  The signal [sig] of the event source is bound to
    [SignalHandler] afterwards when the count left is above 0, and is
    ignored when it is 0. *)
Theorem C5_UnregisterCallback_live_token :
  forall (ES : Type) (HES : ProfileEventSource.interface ES)
         th token (w : process ES),
    count_is_length w ->
    In token (live_tokens w) ->
    exists l1 tok l2 w',
      callbacks_ (instance_ w) = l1 ++ (token, tok) :: l2 /\
      ~ In token (addresses l1) /\
      UnregisterCallback th token w = Returns tt w' /\
      callbacks_ (instance_ w') = l1 ++ l2 /\
      callback_count_ (instance_ w') = callback_count_ (instance_ w) - 1 /\
      count_is_length w' /\
      (List.NoDup (live_tokens w) ->
       ~ In token (live_tokens w') /\ List.NoDup (live_tokens w')) /\
      (forall sig,
          let es1 := ProfileEventSource.DisableEvents th (event_source_ (instance_ w)) in
          ProfileEventSource.GetSignal es1 = sig ->
          ProfileEventSource.GetSignal (ProfileEventSource.EnableEvents th es1) = sig ->
          disposition_of (signals w') sig =
            if 0 <? callback_count_ (instance_ w') then SA_SignalHandler else SIG_IGN).
Proof.
  intros ES HES th token w Hwf Hin.
  destruct (UnregisterCallback_loop_present th token _ [] w Hin)
    as (l1 & tok & l2 & Hcb & Hl1 & Hloop).
  cbn [app] in Hloop.
  assert (Hpos : 0 < callback_count_ (instance_ w)).
  { unfold count_is_length in Hwf. rewrite Hwf, Hcb, length_app. cbn [length]. lia. }
  destruct (UnregisterCallback_found_returns th l1 l2 w Hpos)
    as (w' & Hfound & Hcb' & Hcount' & _ & _ & _ & Hsig & _).
  exists l1, tok, l2, w'.
  split; [exact Hcb |]. split; [exact Hl1 |].
  split; [unfold UnregisterCallback; by rewrite Hloop |].
  split; [exact Hcb' |]. split; [exact Hcount' |].
  split.
  { unfold count_is_length in *. rewrite Hcount', Hcb', Hwf, Hcb, !length_app.
    cbn [length]. lia. }
  split.
  { unfold live_tokens. rewrite Hcb, Hcb', !addresses_app. cbn.
    intros Hnd. apply NoDup_remove in Hnd. tauto. }
  intros sig es1 Hsig1 Hsig2. rewrite Hcount'.
  cbv zeta in Hsig. fold es1 in Hsig. rewrite Hsig1, Hsig2 in Hsig. rewrite Hsig.
  unfold disposition_of, sigaction.
  destruct (0 <? callback_count_ (instance_ w) - 1); by rewrite lookup_insert_eq.
Qed.

Lemma C5_UnregisterCallback_live_token_witness :
  count_is_length (sample_two_callbacks true) /\
  In 4096 (live_tokens (sample_two_callbacks true)) /\
  exists w',
    UnregisterCallback 0%nat 4096 (sample_two_callbacks true) = Returns tt w' /\
    callback_count_ (instance_ w') =
      callback_count_ (instance_ (sample_two_callbacks true)) - 1 /\
    count_is_length w'.
Proof.
  assert (Hwf : count_is_length (sample_two_callbacks true))
    by (vm_compute; reflexivity).
  assert (Hin : In 4096 (live_tokens (sample_two_callbacks true)))
    by (vm_compute; left; reflexivity).
  split; [exact Hwf |]. split; [exact Hin |].
  destruct (C5_UnregisterCallback_live_token _ _ 0%nat 4096
              (sample_two_callbacks true) Hwf Hin)
    as (l1 & tok & l2 & w' & _ & _ & Hun & _ & Hcount & Hwf' & _).
  exists w'. split; [exact Hun |]. split; [exact Hcount | exact Hwf'].
Defined.

(** ** The process over a [TimerProfileEventSource] *)

Section TimerProcess.

Implicit Types (w : process TimerProfileEventSource.t) (th : thread)
  (c : call) (cs : list (thread * call)).

Lemma set_sharing_sharing s self :
  TimerProfileEventSource.timer_sharing_ (TimerProfileEventSource.set_sharing s self) = s.
Proof. reflexivity. Qed.

Lemma set_sharing_same self :
  TimerProfileEventSource.set_sharing (TimerProfileEventSource.timer_sharing_ self) self
  = self.
Proof. by destruct self. Qed.

(** The three switches of the handler do not reach the event source or
    the timers. *)
Lemma timer_EnableHandler th w :
  event_source_ (instance_ (EnableHandler th w)) = event_source_ (instance_ w) /\
  signals (EnableHandler th w) =
    sigaction (TimerProfileEventSource.GetSignal (event_source_ (instance_ w)))
      SA_SignalHandler (signals w).
Proof. by split. Qed.

Lemma timer_DisableHandler th w :
  event_source_ (instance_ (DisableHandler th w)) = event_source_ (instance_ w) /\
  signals (DisableHandler th w) =
    sigaction (TimerProfileEventSource.GetSignal (event_source_ (instance_ w)))
      SIG_IGN (signals w).
Proof. by split. Qed.

(** What each operation asks of the event source. *)
Lemma timer_RegisterThread th w :
  (event_source_ (instance_ (RegisterThread th w)), timers (RegisterThread th w)) =
  TimerProfileEventSource.RegisterThread th (frequency_ (instance_ w))
    (callback_count_ (instance_ w)) (event_source_ (instance_ w)) (timers w).
Proof. unfold RegisterThread, on_event_source. cbn. by rewrite <- surjective_pairing. Qed.

Lemma timer_RegisterCallback th cb arg token w :
  let w' := snd (RegisterCallback th cb arg token w) in
  (event_source_ (instance_ w'), timers w') =
    TimerProfileEventSource.RegisteredCallback th (frequency_ (instance_ w))
      (callback_count_ (instance_ w) + 1) (event_source_ (instance_ w)) (timers w) /\
  signals w' =
    sigaction (TimerProfileEventSource.GetSignal (event_source_ (instance_ w)))
      SA_SignalHandler (signals w).
Proof.
  cbn. split.
  - unfold TimerProfileEventSource.RegisteredCallback.
    destruct (_ && _); reflexivity.
  - unfold TimerProfileEventSource.RegisteredCallback.
    destruct (_ && _); cbn; unfold sigaction; by rewrite insert_insert_eq.
Qed.

Lemma timer_Reset th w :
  (event_source_ (instance_ (Reset th w)), timers (Reset th w)) =
    TimerProfileEventSource.Reset th (frequency_ (instance_ w))
      (event_source_ (instance_ w)) (timers w) /\
  signals (Reset th w) =
    sigaction (TimerProfileEventSource.GetSignal (event_source_ (instance_ w)))
      SIG_IGN (signals w).
Proof. by split. Qed.

Lemma timer_GetState th w :
  let w' := snd (GetState th w) in
  event_source_ (instance_ w') = event_source_ (instance_ w) /\
  timers w' = timers w /\
  signals w' =
    sigaction (TimerProfileEventSource.GetSignal (event_source_ (instance_ w)))
      (if 0 <? callback_count_ (instance_ w) then SA_SignalHandler else SIG_IGN)
      (signals w).
Proof.
  unfold GetState. cbn.
  destruct (0 <? callback_count_ (instance_ w)); cbn; repeat split.
  unfold sigaction. by rewrite insert_insert_eq.
Qed.

Lemma timer_SignalHandler th sig sinfo ucontext w :
  let w' := SignalHandler th sig sinfo ucontext w in
  event_source_ (instance_ w') = event_source_ (instance_ w) /\
  timers w' = timers w /\
  signals w' = signals w /\
  invoked w' =
    invoked w ++ map (invoke sig sinfo ucontext 1%N) (callbacks_ (instance_ w)).
Proof. by repeat split. Qed.

Lemma timer_UnregisterCallback_found th before after w :
  0 < callback_count_ (instance_ w) ->
  exists w',
    UnregisterCallback_found th before after w = Returns tt w' /\
    (event_source_ (instance_ w'), timers w') =
      TimerProfileEventSource.UnregisteredCallback th (frequency_ (instance_ w))
        (callback_count_ (instance_ w) - 1) (event_source_ (instance_ w)) (timers w) /\
    signals w' =
      sigaction (TimerProfileEventSource.GetSignal (event_source_ (instance_ w)))
        (if 0 <? callback_count_ (instance_ w) - 1 then SA_SignalHandler else SIG_IGN)
        (signals w).
Proof.
  intros Hpos.
  destruct (UnregisterCallback_found_returns th before after w Hpos)
    as (w' & Hfound & _ & _ & _ & _ & _ & Hsig & Hes).
  exists w'. split; [exact Hfound |]. cbn in Hsig, Hes. split.
  - rewrite Hes. by destruct (0 <? callback_count_ (instance_ w) - 1).
  - rewrite Hsig. destruct (0 <? callback_count_ (instance_ w) - 1); [| done].
    unfold sigaction. by rewrite insert_insert_eq.
Qed.

End TimerProcess.

Section TimerRuns.

Implicit Types (w : process TimerProfileEventSource.t) (th : thread)
  (c : call) (cs : list (thread * call)).

Ltac no_effect := apply effect_none; [cbn; tauto | done | done | done].

Lemma perform_timer_effect th c w :
  timer_effect th w (state_of (perform th c w)) c.
Proof.
  destruct c as [| cb arg token | token | | | sig sinfo uc |]; cbn [perform state_of].
  - apply effect_RegisterThread; [apply timer_RegisterThread | reflexivity].
  - apply effect_RegisteredCallback;
      [apply timer_RegisterCallback | reflexivity].
  - destruct (UnregisterCallback_cases th token w)
      as [[_ ->] | (l1 & tok & l2 & _ & _ & ->)].
    + no_effect.
    + destruct (Z_lt_le_dec 0 (callback_count_ (instance_ w))) as [Hpos | Hle].
      * destruct (timer_UnregisterCallback_found th l1 l2 w Hpos)
          as (w' & Hfound & Hes & _).
        destruct (UnregisterCallback_found_returns th l1 l2 w Hpos)
          as (w'' & Hfound' & _ & Hcount & _).
        rewrite Hfound in Hfound'. injection Hfound' as <-.
        rewrite Hfound. by apply effect_UnregisteredCallback.
      * rewrite UnregisterCallback_found_fatal by done. no_effect.
  - apply effect_Reset; [apply timer_Reset | reflexivity].
  - destruct (timer_GetState th w) as (Hes & Hk & _).
    destruct (GetState_registry th w) as (_ & _ & Hcount & _).
    no_effect.
  - destruct (deliver_cases th sig sinfo uc w) as [-> | ->]; no_effect.
  - by apply effect_Elapse.
Qed.

End TimerRuns.

(** ** The sharing state *)

Section Sharing.

Implicit Types (w : process TimerProfileEventSource.t) (th : thread)
  (c : call) (cs : list (thread * call)).

Lemma RegisteredCallback_self th frequency n self k :
  fst (TimerProfileEventSource.RegisteredCallback th frequency n self k) = self.
Proof.
  unfold TimerProfileEventSource.RegisteredCallback. by destruct (_ && _).
Qed.

Lemma UnregisteredCallback_self th frequency n self k :
  fst (TimerProfileEventSource.UnregisteredCallback th frequency n self k) = self.
Proof.
  unfold TimerProfileEventSource.UnregisteredCallback. by destruct (_ && _).
Qed.

Lemma RegisterThread_settled th frequency n self k :
  settled (TimerProfileEventSource.timer_sharing_ self) ->
  fst (TimerProfileEventSource.RegisterThread th frequency n self k) = self.
Proof.
  unfold TimerProfileEventSource.RegisterThread. by intros [-> | ->].
Qed.

(** No call but [Reset] moves a settled sharing state. *)
Lemma sharing_perform th c w :
  ~ is_reset c -> settled (sharing_of w) ->
  sharing_of (state_of (perform th c w)) = sharing_of w.
Proof.
  intros Hc Hs. unfold sharing_of in *.
  pose proof (perform_timer_effect th c w) as He.
  inversion He as [c' _ Hes _ _ | Hes _ | cb arg token Hes _ | token _ Hes _ | Hes _
                   | Hes _ _ _];
    subst.
  - by rewrite Hes.
  - apply (f_equal fst) in Hes. cbn [fst] in Hes.
    by rewrite Hes, RegisterThread_settled.
  - apply (f_equal fst) in Hes. cbn [fst] in Hes.
    by rewrite Hes, RegisteredCallback_self.
  - apply (f_equal fst) in Hes. cbn [fst] in Hes.
    by rewrite Hes, UnregisteredCallback_self.
  - exfalso. by apply Hc.
  - by rewrite Hes.
Qed.

Lemma sharing_run cs :
  forall w,
    forallb (fun tc => negb (is_reset (snd tc))) cs = true ->
    settled (sharing_of w) ->
    sharing_of (state_of (run cs w)) = sharing_of w.
Proof.
  induction cs as [| [th c] cs IH]; intros w Hcs Hs; [reflexivity |].
  cbn [forallb snd] in Hcs. apply andb_true_iff in Hcs as [Hc Hcs].
  assert (Hnr : ~ is_reset c) by (destruct (is_reset c); [discriminate | tauto]).
  pose proof (sharing_perform th c w Hnr Hs) as Hstep.
  cbn [run]. destruct (perform th c w) as [[] w' | diagnostic w']; cbn [state_of] in *.
  - rewrite IH; [exact Hstep | exact Hcs | by rewrite Hstep].
  - exact Hstep.
Qed.

End Sharing.

(** C2.  [RegisterThread] follows the detection state machine.  From
    [TIMERS_UNTOUCHED] it starts the timer and goes to [TIMERS_ONE_SET].
    From [TIMERS_ONE_SET], when [IsTimerRunning] answers yes it goes to
    [TIMERS_SHARED], and it stops the timer when the callback count is 0
    and leaves the timers as they are (the timer still running) when it is
    not; when [IsTimerRunning] answers no it goes to [TIMERS_SEPARATE] and
    starts the caller's timer.  In [TIMERS_SHARED] it changes nothing; in
    [TIMERS_SEPARATE] it starts the caller's timer and stays.  Once the
    state is [TIMERS_SHARED] or [TIMERS_SEPARATE], a run of calls with no
    [Reset] among them ends in the same state; [Reset] takes it back to
    [TIMERS_UNTOUCHED]. *)
Theorem C2_RegisterThread_state_machine :
  (forall th frequency callback_count (self : TimerProfileEventSource.t) k,
      let r := TimerProfileEventSource.RegisterThread th frequency callback_count self k in
      (TimerProfileEventSource.timer_sharing_ self =
         TimerProfileEventSource.TIMERS_UNTOUCHED ->
       r = (TimerProfileEventSource.set_sharing
              TimerProfileEventSource.TIMERS_ONE_SET self,
            TimerProfileEventSource.StartTimer th frequency self k)) /\
      (TimerProfileEventSource.timer_sharing_ self =
         TimerProfileEventSource.TIMERS_ONE_SET ->
       TimerProfileEventSource.IsTimerRunning th self k = true ->
       fst r = TimerProfileEventSource.set_sharing
                 TimerProfileEventSource.TIMERS_SHARED self /\
       (callback_count = 0 ->
        snd r = TimerProfileEventSource.StopTimer th self k) /\
       (callback_count <> 0 -> snd r = k) /\
       TimerProfileEventSource.IsTimerRunning th self (snd r) =
         negb (callback_count =? 0)) /\
      (TimerProfileEventSource.timer_sharing_ self =
         TimerProfileEventSource.TIMERS_ONE_SET ->
       TimerProfileEventSource.IsTimerRunning th self k = false ->
       r = (TimerProfileEventSource.set_sharing
              TimerProfileEventSource.TIMERS_SEPARATE self,
            TimerProfileEventSource.StartTimer th frequency self k)) /\
      (TimerProfileEventSource.timer_sharing_ self =
         TimerProfileEventSource.TIMERS_SHARED ->
       r = (self, k)) /\
      (TimerProfileEventSource.timer_sharing_ self =
         TimerProfileEventSource.TIMERS_SEPARATE ->
       r = (self, TimerProfileEventSource.StartTimer th frequency self k))) /\
  (forall (w : process TimerProfileEventSource.t) cs,
      sharing_of w = TimerProfileEventSource.TIMERS_SHARED \/
      sharing_of w = TimerProfileEventSource.TIMERS_SEPARATE ->
      forallb (fun tc => negb (is_reset (snd tc))) cs = true ->
      sharing_of (state_of (run cs w)) = sharing_of w) /\
  (forall th (w : process TimerProfileEventSource.t),
      sharing_of (Reset th w) = TimerProfileEventSource.TIMERS_UNTOUCHED).
Proof.
  split; [| split].
  - intros th frequency callback_count self k r. subst r.
    unfold TimerProfileEventSource.RegisterThread.
    split; [by intros -> |]. split.
    { intros -> Hrun. rewrite Hrun. cbn [fst snd].
      split; [reflexivity |]. split; [by intros -> |]. split.
      - intros Hne. by destruct (Z.eqb_spec callback_count 0).
      - destruct (Z.eqb_spec callback_count 0); cbn [negb].
        + apply IsTimerRunning_StopTimer.
        + exact Hrun. }
    split; [by intros -> -> |]. split; by intros ->.
  - intros w cs Hs Hcs. by apply sharing_run.
  - intros th w. reflexivity.
Qed.

Lemma C2_RegisterThread_state_machine_witness :
  sharing_of (RegisterThread 1%nat (RegisterThread 0%nat (sample_process true))) =
    TimerProfileEventSource.TIMERS_SHARED /\
  sharing_of
    (state_of
       (run [(1%nat, CallRegisterThread);
             (0%nat, CallRegisterCallback 55 0 4096);
             (2%nat, CallRegisterThread);
             (0%nat, CallUnregisterCallback 4096)]
          (RegisterThread 1%nat (RegisterThread 0%nat (sample_process true))))) =
    sharing_of (RegisterThread 1%nat (RegisterThread 0%nat (sample_process true))).
Proof.
  split; [vm_compute; reflexivity |].
  apply (proj1 (proj2 C2_RegisterThread_state_machine)).
  - left. vm_compute; reflexivity.
  - vm_compute; reflexivity.
Defined.

(** ** The frequency the constructor settles on *)

Lemma ctor_frequency_cases fr :
  ctor_frequency fr = kDefaultFrequency \/
  exists s u,
    fr = Some s /\ Scanf.sscanf_u_c s = (1, Some u) /\ 0 < Scanf.as_int32 u /\
    ctor_frequency fr = Z.min (Scanf.as_int32 u) kMaxFrequency.
Proof.
  destruct fr as [s |]; [| by left].
  unfold ctor_frequency.
  destruct (Scanf.sscanf_u_c s) as [n [u |]] eqn:Hscan; [| left; by destruct n as [| [] |]].
  destruct (Z.eq_dec n 1) as [-> | Hn].
  - destruct (Z.ltb_spec 0 (Scanf.as_int32 u)) as [Hpos | Hle]; [| by left].
    right. exists s, u. repeat split; try done.
    unfold kMaxFrequency. destruct (Z.ltb_spec 4000 (Scanf.as_int32 u)); lia.
  - left. by destruct n as [| [] |].
Qed.

Lemma ctor_frequency_range fr : 1 <= ctor_frequency fr <= kMaxFrequency.
Proof.
  destruct (ctor_frequency_cases fr) as [-> | (s & u & _ & _ & Hpos & ->)];
    unfold kMaxFrequency, kDefaultFrequency; lia.
Qed.

Lemma ctor_frequency_start fr : 1 <= ctor_frequency fr <= 1000000.
Proof. pose proof (ctor_frequency_range fr). unfold kMaxFrequency in *. lia. Qed.

(** ** The hooks *)

Lemma IsTimerRunning_set_sharing th s self k :
  TimerProfileEventSource.IsTimerRunning th (TimerProfileEventSource.set_sharing s self) k =
  TimerProfileEventSource.IsTimerRunning th self k.
Proof. reflexivity. Qed.

Lemma RegisteredCallback_not_shared th frequency n self k :
  TimerProfileEventSource.timer_sharing_ self <> TimerProfileEventSource.TIMERS_SHARED ->
  TimerProfileEventSource.RegisteredCallback th frequency n self k = (self, k).
Proof.
  intros Hns. unfold TimerProfileEventSource.RegisteredCallback.
  rewrite bool_decide_eq_false_2 by done. by rewrite andb_false_r.
Qed.

Lemma UnregisteredCallback_not_shared th frequency n self k :
  TimerProfileEventSource.timer_sharing_ self <> TimerProfileEventSource.TIMERS_SHARED ->
  TimerProfileEventSource.UnregisteredCallback th frequency n self k = (self, k).
Proof.
  intros Hns. unfold TimerProfileEventSource.UnregisteredCallback.
  rewrite bool_decide_eq_false_2 by done. by rewrite andb_false_r.
Qed.







(** ** The shared timer *)

Section SharedTimer.

Implicit Types (w : process TimerProfileEventSource.t) (th : thread)
  (c : call) (cs : list (thread * call)).

Lemma process_wide_StartTimer th frequency self k :
  process_wide (TimerProfileEventSource.StartTimer th frequency self k) = process_wide k.
Proof. apply process_wide_setitimer. Qed.


Lemma count_nonneg w : count_is_length w -> 0 <= callback_count_ (instance_ w).
Proof. unfold count_is_length. lia. Qed.

End SharedTimer.


(** ** [Reset] *)

(** A property kept by the calls that [allowed] lets through holds at the
    end of every run made of such calls. *)
Lemma run_invariant_on {ES : Type} `{!ProfileEventSource.interface ES}
    (I : process ES -> Prop) (allowed : call -> bool) :
  (forall th c (w : process ES),
      allowed c = true -> I w -> I (state_of (perform th c w))) ->
  forall cs (w : process ES),
    forallb (fun tc => allowed (snd tc)) cs = true ->
    I w -> I (state_of (run cs w)).
Proof.
  intros Hstep. induction cs as [| [th c] cs IH]; intros w Hcs Hw; [exact Hw |].
  cbn [forallb snd] in Hcs. apply andb_true_iff in Hcs as [Hc Hcs].
  cbn [run]. pose proof (Hstep th c w Hc Hw) as Hnext.
  destruct (perform th c w) as [[] w' | diagnostic w']; cbn in *.
  - by apply IH.
  - exact Hnext.
Qed.

Section AfterReset.

Implicit Types (w : process TimerProfileEventSource.t) (th : thread)
  (c : call) (cs : list (thread * call)).

Lemma delivery_enabled_sigaction w (d : disposition) sigs es :
  signals w =
    sigaction (TimerProfileEventSource.GetSignal es) d sigs ->
  TimerProfileEventSource.timer_type_ (event_source_ (instance_ w)) =
    TimerProfileEventSource.timer_type_ es ->
  delivery_enabled w = bool_decide (d = SA_SignalHandler).
Proof.
  intros Hsig Htype. unfold delivery_enabled, TimerProfileEventSource.GetSignal in *.
  rewrite Htype, Hsig. unfold disposition_of, sigaction.
  by rewrite lookup_insert_eq.
Qed.

Lemma delivery_enabled_same w w' :
  signals w' = signals w ->
  TimerProfileEventSource.timer_type_ (event_source_ (instance_ w')) =
    TimerProfileEventSource.timer_type_ (event_source_ (instance_ w)) ->
  delivery_enabled w' = delivery_enabled w.
Proof.
  intros Hsig Htype. unfold delivery_enabled, TimerProfileEventSource.GetSignal.
  by rewrite Htype, Hsig.
Qed.

Lemma timer_type_RegisterThread th frequency n self k :
  TimerProfileEventSource.timer_type_
    (fst (TimerProfileEventSource.RegisterThread th frequency n self k)) =
  TimerProfileEventSource.timer_type_ self.
Proof.
  unfold TimerProfileEventSource.RegisterThread.
  destruct (TimerProfileEventSource.timer_sharing_ self); try reflexivity.
  by destruct (TimerProfileEventSource.IsTimerRunning th self k).
Qed.

Lemma quiet_perform w0 th c w :
  is_registration c = false -> quiet w0 w -> quiet w0 (state_of (perform th c w)).
Proof.
  intros Hc (Hcb & Hcount & Hinv & Hdel).
  destruct c as [| cb arg token | token | | | sig sinfo uc |]; cbn [perform state_of];
    try discriminate Hc.
  - destruct (RegisterThread_registry th w) as (Hcb' & Hcount' & _ & _ & Hinv').
    split; [congruence |]. split; [congruence |]. split; [congruence |].
    rewrite <- Hdel. apply delivery_enabled_same; [reflexivity |].
    pose proof (timer_RegisterThread th w) as Hes.
    apply (f_equal fst) in Hes. cbn [fst] in Hes. rewrite Hes.
    apply timer_type_RegisterThread.
  - unfold UnregisterCallback.
    rewrite UnregisterCallback_loop_absent by (rewrite Hcb; cbn; tauto).
    cbn [state_of]. by repeat split.
  - destruct (Reset_registry th w) as (Hcb' & Hcount' & _ & _ & Hinv').
    split; [done |]. split; [done |]. split; [congruence |].
    destruct (timer_Reset th w) as (_ & Hsig).
    by rewrite (delivery_enabled_sigaction _ SIG_IGN _ _ Hsig).
  - destruct (GetState_registry th w) as (_ & Hcb' & Hcount' & _ & _ & Hinv').
    split; [congruence |]. split; [congruence |]. split; [congruence |].
    destruct (timer_GetState th w) as (Hes & _ & Hsig).
    rewrite Hcount in Hsig. change (0 <? 0) with false in Hsig. cbv iota in Hsig.
    rewrite (delivery_enabled_sigaction (snd (GetState th w)) SIG_IGN _ _ Hsig);
      [done |].
    by rewrite Hes.
  - destruct (deliver_cases th sig sinfo uc w) as [-> | ->]; [done |].
    destruct (SignalHandler_registry th sig sinfo uc w)
      as (Hcb' & Hcount' & _ & _ & _ & Hsig & Hinv').
    split; [congruence |]. split; [congruence |]. split.
    + rewrite Hinv', Hcb, <- Hinv. cbn. by destruct (0 <? 1)%N; rewrite app_nil_r.
    + rewrite <- Hdel. by apply delivery_enabled_same.
  - split; [exact Hcb |]. split; [exact Hcount |]. split; [exact Hinv |].
    rewrite <- Hdel. by apply delivery_enabled_same.
Qed.

Lemma quiet_Reset th w : quiet (Reset th w) (Reset th w).
Proof.
  destruct (Reset_registry th w) as (Hcb' & Hcount' & _).
  split; [done |]. split; [done |]. split; [done |].
  destruct (timer_Reset th w) as (_ & Hsig).
  by rewrite (delivery_enabled_sigaction _ SIG_IGN _ _ Hsig).
Qed.

End AfterReset.

(** C8.  [Reset] leaves the registry empty and [callback_count_] 0, puts
    the sharing state of the timer event source back to
    [TIMERS_UNTOUCHED], having stopped the timer when the state was
    [TIMERS_SHARED] (and touched no timer otherwise), and leaves
    [interrupts_] and [frequency_] as they were.  The signal is ignored
    afterwards, and in any run of calls that registers no callback the
    registry stays empty, the signal stays ignored and no callback is
    invoked. *)
Theorem C8_Reset :
  forall th (w : process TimerProfileEventSource.t),
    let w' := Reset th w in
    callbacks_ (instance_ w') = [] /\
    callback_count_ (instance_ w') = 0 /\
    sharing_of w' = TimerProfileEventSource.TIMERS_UNTOUCHED /\
    timers w' =
      (if bool_decide (sharing_of w = TimerProfileEventSource.TIMERS_SHARED)
       then TimerProfileEventSource.StopTimer th (event_source_ (instance_ w)) (timers w)
       else timers w) /\
    (sharing_of w = TimerProfileEventSource.TIMERS_SHARED ->
     timer_running th w' = false) /\
    interrupts_ (instance_ w') = interrupts_ (instance_ w) /\
    frequency_ (instance_ w') = frequency_ (instance_ w) /\
    delivery_enabled w' = false /\
    (forall cs,
        forallb (fun tc => negb (is_registration (snd tc))) cs = true ->
        let w'' := state_of (run cs w') in
        invoked w'' = invoked w /\
        callbacks_ (instance_ w'') = [] /\
        callback_count_ (instance_ w'') = 0 /\
        delivery_enabled w'' = false).
Proof.
  intros th w w'.
  destruct (Reset_registry th w) as (Hcb & Hcount & Hint & Hfreq & Hinv).
  destruct (timer_Reset th w) as (Hes & _).
  pose proof (quiet_Reset th w) as Hquiet.
  fold w' in Hcb, Hcount, Hint, Hfreq, Hinv, Hes, Hquiet. clearbody w'.
  unfold TimerProfileEventSource.Reset in Hes. injection Hes as Hes Hk.
  unfold sharing_of, timer_running.
  split; [exact Hcb |]. split; [exact Hcount |].
  split; [by rewrite Hes |]. split; [exact Hk |].
  split.
  { intros Hs. rewrite Hes, Hk, bool_decide_eq_true_2 by exact Hs.
    rewrite IsTimerRunning_set_sharing. apply IsTimerRunning_StopTimer. }
  split; [exact Hint |]. split; [exact Hfreq |].
  split; [apply Hquiet |].
  intros cs Hcs. set (w'' := state_of (run cs w')).
  assert (Hq : quiet w' w'').
  { apply (run_invariant_on (quiet w') (fun c => negb (is_registration c)));
      [| exact Hcs | exact Hquiet].
    intros th' c w1 Hc Hw1. apply quiet_perform; [| exact Hw1].
    by destruct (is_registration c). }
  destruct Hq as (Hcb'' & Hcount'' & Hinv'' & Hdel'').
  split; [congruence |]. by repeat split.
Qed.

Lemma C8_Reset_witness :
  sharing_of (RegisterThread 1%nat (RegisterThread 0%nat (sample_two_callbacks true))) =
    TimerProfileEventSource.TIMERS_SHARED /\
  timer_running 0%nat
    (RegisterThread 1%nat (RegisterThread 0%nat (sample_two_callbacks true))) = true /\
  timer_running 2%nat
    (Reset 2%nat
       (RegisterThread 1%nat (RegisterThread 0%nat (sample_two_callbacks true)))) = false.
Proof.
  assert (Hs : sharing_of (RegisterThread 1%nat
                             (RegisterThread 0%nat (sample_two_callbacks true))) =
               TimerProfileEventSource.TIMERS_SHARED) by (vm_compute; reflexivity).
  split; [exact Hs |]. split; [vm_compute; reflexivity |].
  pose proof (C8_Reset 2%nat
                (RegisterThread 1%nat (RegisterThread 0%nat (sample_two_callbacks true))))
    as H.
  cbv zeta in H. destruct H as (_ & _ & _ & _ & Hstop & _). exact (Hstop Hs).
Defined.

(** ** The frequency override *)

Section Frequency.

Lemma digit_cases d :
  0 <= d <= 9 ->
  d = 0 \/ d = 1 \/ d = 2 \/ d = 3 \/ d = 4 \/ d = 5 \/ d = 6 \/ d = 7 \/ d = 8 \/ d = 9.
Proof. lia. Qed.

Lemma digit_of_digit_char d :
  0 <= d <= 9 -> Scanf.digit_of (digit_char d) = Some d.
Proof.
  intros Hd. destruct (digit_cases d Hd) as [-> | [-> | [-> | [-> | [-> | [-> | [-> | [-> | [-> | ->]]]]]]]]];
    reflexivity.
Qed.

Lemma digit_char_plain d :
  0 <= d <= 9 ->
  Scanf.isspace (digit_char d) = false /\
  Ascii.eqb (digit_char d) "-" = false /\
  Ascii.eqb (digit_char d) "+" = false.
Proof.
  intros Hd. destruct (digit_cases d Hd) as [-> | [-> | [-> | [-> | [-> | [-> | [-> | [-> | [-> | ->]]]]]]]]];
    by repeat split.
Qed.

(** Scanning a numeral reads all of it, by Horner's rule. *)
Lemma scan_digits_numeral ds :
  Forall (fun d => 0 <= d <= 9) ds ->
  forall acc,
    Scanf.scan_digits acc (numeral ds) =
      (fold_left (fun a d => 10 * a + d) ds acc, EmptyString).
Proof.
  induction 1 as [| d ds Hd _ IH]; intros acc; [reflexivity |].
  unfold numeral in *. cbn [map string_of_list_ascii Scanf.scan_digits fold_left].
  rewrite digit_of_digit_char by exact Hd. apply IH.
Qed.

Lemma sscanf_numeral ds :
  decimal_digits ds ->
  Scanf.sscanf_u_c (numeral ds) = (1, Some (Scanf.conv_u false (numeral_value ds))).
Proof.
  intros [Hne Hds]. destruct ds as [| d ds]; [done |].
  pose proof (scan_digits_numeral (d :: ds) Hds 0) as Hscan.
  inversion Hds as [| d' ds' Hd Hds']; subst.
  destruct (digit_char_plain d Hd) as (Hsp & Hminus & Hplus).
  unfold Scanf.sscanf_u_c. unfold numeral in *.
  cbn [map string_of_list_ascii Scanf.skip_spaces].
  rewrite Hsp, Hminus, Hplus, digit_of_digit_char by exact Hd.
  cbn [map string_of_list_ascii] in Hscan. rewrite Hscan. reflexivity.
Qed.

Lemma conv_u_small v : 0 <= v < 2 ^ 32 -> Scanf.conv_u false v = v.
Proof.
  intros Hv. unfold Scanf.conv_u, Scanf.ULONG_MAX.
  destruct (Z.ltb_spec (2 ^ 64 - 1) v) as [Hbig | _]; [lia |].
  by apply Z.mod_small.
Qed.

(** A numeral whose value is positive and fits an [int32] gives that
    value, limited to [kMaxFrequency]. *)
Lemma ctor_frequency_numeral ds :
  decimal_digits ds ->
  0 < numeral_value ds < 2 ^ 31 ->
  ctor_frequency (Some (numeral ds)) = Z.min (numeral_value ds) kMaxFrequency.
Proof.
  intros Hds Hv. unfold ctor_frequency. rewrite sscanf_numeral by exact Hds.
  rewrite conv_u_small by lia. unfold Scanf.as_int32, kMaxFrequency.
  destruct (Z.ltb_spec (numeral_value ds) (2 ^ 31)) as [_ | Hbig]; [| lia].
  destruct (Z.ltb_spec 0 (numeral_value ds)) as [_ | Hle]; [| lia].
  destruct (Z.ltb_spec 4000 (numeral_value ds)); lia.
Qed.

(** A numeral of value 0 gives the default. *)
Lemma ctor_frequency_numeral_zero ds :
  decimal_digits ds ->
  numeral_value ds = 0 ->
  ctor_frequency (Some (numeral ds)) = kDefaultFrequency.
Proof.
  intros Hds Hv. unfold ctor_frequency. rewrite sscanf_numeral by exact Hds.
  by rewrite Hv.
Qed.

(** A numeral whose value is an [unsigned int] above the [int32]s is
    read by [%u] and seen as negative through [frequency_]: it gives
    the default, not [kMaxFrequency]. *)
Lemma ctor_frequency_numeral_high ds :
  decimal_digits ds ->
  2 ^ 31 <= numeral_value ds < 2 ^ 32 ->
  ctor_frequency (Some (numeral ds)) = kDefaultFrequency.
Proof.
  intros Hds Hv. unfold ctor_frequency. rewrite sscanf_numeral by exact Hds.
  rewrite conv_u_small by lia. unfold Scanf.as_int32.
  destruct (Z.ltb_spec (numeral_value ds) (2 ^ 31)) as [Hsmall | _]; [lia |].
  destruct (Z.ltb_spec 0 (numeral_value ds - 2 ^ 32)) as [Hpos | _]; [lia | done].
Qed.

Example ctor_frequency_10000 : ctor_frequency (Some "10000"%string) = 4000.
Proof. reflexivity. Qed.

Example ctor_frequency_50 : ctor_frequency (Some "50"%string) = 50.
Proof. reflexivity. Qed.

Example ctor_frequency_4000 : ctor_frequency (Some "4000"%string) = 4000.
Proof. reflexivity. Qed.

Example ctor_frequency_absent : ctor_frequency None = 100.
Proof. reflexivity. Qed.

Example ctor_frequency_0 : ctor_frequency (Some "0"%string) = 100.
Proof. reflexivity. Qed.

Example ctor_frequency_non_numeric : ctor_frequency (Some "fast"%string) = 100.
Proof. reflexivity. Qed.

Example ctor_frequency_empty : ctor_frequency (Some ""%string) = 100.
Proof. reflexivity. Qed.

Example ctor_frequency_trailing : ctor_frequency (Some "50Hz"%string) = 100.
Proof. reflexivity. Qed.

Example ctor_frequency_minus : ctor_frequency (Some "-50"%string) = 100.
Proof. reflexivity. Qed.

Example numeral_2147483648 :
  numeral [2; 1; 4; 7; 4; 8; 3; 6; 4; 8] = "2147483648"%string /\
  numeral_value [2; 1; 4; 7; 4; 8; 3; 6; 4; 8] = 2 ^ 31.
Proof. by split. Qed.

End Frequency.

(** C7.  The frequency override "2147483648", a positive integer that
    [%u] parses: the constructor leaves the default 100 in [frequency_],
    where limiting the value to [kMaxFrequency] gives 4000.  (Up to
    2147483647 the frequency is the value limited to 4000, see
    [ctor_frequency_numeral]; absent, non-numeric, zero and malformed
    values give 100; the result is always from 1 to 4000, see
    [ctor_frequency_range]; no call changes it, see [frequency_run].) *)
Theorem C7_frequency_override_above_int32 :
  ctor_frequency (Some "2147483648"%string) = kDefaultFrequency /\
  kDefaultFrequency = 100 /\
  Z.min 2147483648 kMaxFrequency = 4000.
Proof. by repeat split. Qed.

(** * Further properties *)

(** ** The frequency override, as [sscanf] reads it *)

Lemma skip_spaces_white ws rest :
  white_space ws ->
  Scanf.skip_spaces (String.append (string_of_list_ascii ws) rest) =
    Scanf.skip_spaces rest.
Proof.
  induction 1 as [| c ws Hc _ IH]; [reflexivity |].
  simpl. by rewrite Hc.
Qed.

Lemma scan_digits_numeral_tail ds tail :
  Forall (fun d => 0 <= d <= 9) ds ->
  no_digit_ahead tail ->
  forall acc,
    Scanf.scan_digits acc (String.append (numeral ds) tail) =
      (fold_left (fun a d => 10 * a + d) ds acc, tail).
Proof.
  intros Hds Htail. induction Hds as [| d ds Hd _ IH]; intros acc.
  - destruct tail as [| c rest]; [reflexivity |].
    simpl in *. by rewrite Htail.
  - unfold numeral in *.
    change (String.append (string_of_list_ascii (map digit_char (d :: ds))) tail)
      with (String (digit_char d)
              (String.append (string_of_list_ascii (map digit_char ds)) tail)).
    cbn [Scanf.scan_digits fold_left].
    rewrite digit_of_digit_char by exact Hd. apply IH.
Qed.

(** What [sscanf] returns and stores for an override of that shape. *)
Lemma sscanf_override ws s ds tail :
  white_space ws -> decimal_digits ds -> no_digit_ahead tail ->
  Scanf.sscanf_u_c (override ws s ds tail) =
    (match tail with EmptyString => 1 | String _ _ => 2 end,
     Some (Scanf.conv_u (match s with minus_sign => true | _ => false end)
             (numeral_value ds))).
Proof.
  intros Hws [Hne Hds] Htail. destruct ds as [| d ds]; [done |].
  pose proof (scan_digits_numeral_tail (d :: ds) tail Hds Htail 0) as Hscan.
  inversion Hds as [| d' ds' Hd Hds']; subst.
  destruct (digit_char_plain d Hd) as (Hsp & Hminus & Hplus).
  unfold Scanf.sscanf_u_c, override. rewrite skip_spaces_white by exact Hws.
  set (body := String.append (numeral (d :: ds)) tail) in *.
  assert (Hbody : body = String (digit_char d)
                           (String.append (numeral ds) tail)) by reflexivity.
  destruct s.
  - change (String.append (sign_string no_sign) body) with body.
    rewrite Hbody. cbn [Scanf.skip_spaces].
    rewrite Hsp, Hminus, Hplus. cbv beta iota.
    rewrite digit_of_digit_char by exact Hd.
    rewrite <- Hbody, Hscan. by destruct tail.
  - change (String.append (sign_string plus_sign) body) with (String "+" body).
    cbn [Scanf.skip_spaces].
    change (Scanf.isspace "+") with false. cbv iota.
    change (Ascii.eqb "+" "-") with false. change (Ascii.eqb "+" "+") with true.
    cbv beta iota. rewrite Hbody. rewrite digit_of_digit_char by exact Hd.
    rewrite <- Hbody, Hscan. by destruct tail.
  - change (String.append (sign_string minus_sign) body) with (String "-" body).
    cbn [Scanf.skip_spaces].
    change (Scanf.isspace "-") with false. cbv iota.
    change (Ascii.eqb "-" "-") with true.
    cbv beta iota. rewrite Hbody. rewrite digit_of_digit_char by exact Hd.
    rewrite <- Hbody, Hscan. by destruct tail.
Qed.

Lemma conv_u_minus v :
  0 < v <= 2 ^ 31 -> Scanf.as_int32 (Scanf.conv_u true v) = - v.
Proof.
  intros Hv. unfold Scanf.conv_u, Scanf.ULONG_MAX, Scanf.as_int32.
  destruct (Z.ltb_spec (2 ^ 64 - 1) v) as [Hbig | _]; [lia |].
  rewrite (Z.mod_small (2 ^ 64 - v)) by lia.
  replace (2 ^ 64 - v) with ((2 ^ 32 - v) + (2 ^ 32 - 1) * 2 ^ 32) by lia.
  rewrite Z_mod_plus_full, Z.mod_small by lia.
  destruct (Z.ltb_spec (2 ^ 32 - v) (2 ^ 31)); lia.
Qed.

(** X1.  Whatever [CPUPROFILE_FREQUENCY] holds, or when it is not set,
    the frequency the constructor settles on is from 1 to 4000, and
    after any run of calls on the singleton [GetFrequency] and
    [GetState] still report that frequency. *)
Theorem X1_frequency_fixed_in_range :
  forall (ES : Type) (HES : ProfileEventSource.interface ES)
         th0 (es : ES) fr k sigs cs th,
    let w := state_of (run cs (ctor th0 es fr k sigs)) in
    1 <= GetFrequency (instance_ w) <= 4000 /\
    GetFrequency (instance_ w) = ctor_frequency fr /\
    frequency (fst (GetState th w)) = ctor_frequency fr.
Proof.
  intros ES HES th0 es fr k sigs cs th w.
  assert (Hf : frequency_ (instance_ w) = ctor_frequency fr).
  { subst w. by rewrite frequency_run. }
  destruct (GetState_registry th w) as (-> & _).
  unfold GetFrequency. cbn [frequency]. rewrite Hf.
  pose proof (ctor_frequency_range fr) as Hr. unfold kMaxFrequency in Hr.
  split; [exact Hr |]. by split.
Qed.

(** X2.  An override made of optional white space, an optional plus
    sign and a decimal numeral of a value [v] with 0 < v < 2^31, and
    nothing after it, gives the frequency min(v, 4000). *)
Theorem X2_frequency_override_accepted :
  forall ws s ds,
    white_space ws -> s <> minus_sign -> decimal_digits ds ->
    0 < numeral_value ds < 2 ^ 31 ->
    ctor_frequency (Some (override ws s ds EmptyString)) =
      Z.min (numeral_value ds) 4000.
Proof.
  intros ws s ds Hws Hs Hds Hv. unfold ctor_frequency.
  rewrite sscanf_override by done.
  replace (match s with minus_sign => true | _ => false end) with false
    by (by destruct s).
  rewrite conv_u_small by lia. unfold Scanf.as_int32, kMaxFrequency.
  destruct (Z.ltb_spec (numeral_value ds) (2 ^ 31)) as [_ | Hbig]; [| lia].
  destruct (Z.ltb_spec 0 (numeral_value ds)) as [_ | Hle]; [| lia].
  destruct (Z.ltb_spec 4000 (numeral_value ds)); lia.
Qed.

Lemma X2_frequency_override_accepted_witness :
  ctor_frequency (Some (override [" "%char] plus_sign [2; 5; 0] EmptyString)) =
    Z.min (numeral_value [2; 5; 0]) 4000.
Proof.
  apply X2_frequency_override_accepted.
  - repeat constructor.
  - discriminate.
  - split; [discriminate | repeat constructor; lia].
  - vm_compute. by split.
Defined.

(** X3.  An override in which the numeral is followed by any character
    that is not a digit (a space, a newline, a unit, a decimal point)
    gives the default frequency 100, whatever the numeral. *)
Theorem X3_frequency_override_trailing_character :
  forall ws s ds c rest,
    white_space ws -> decimal_digits ds -> Scanf.digit_of c = None ->
    ctor_frequency (Some (override ws s ds (String c rest))) = 100.
Proof.
  intros ws s ds c rest Hws Hds Hc. unfold ctor_frequency.
  by rewrite sscanf_override.
Qed.

Lemma X3_frequency_override_trailing_character_witness :
  ctor_frequency (Some (override [] no_sign [5; 0] (String " " EmptyString))) = 100.
Proof.
  apply X3_frequency_override_trailing_character.
  - constructor.
  - split; [discriminate | repeat constructor; lia].
  - reflexivity.
Defined.

(** X4.  An override whose numeral has the value 0, or carries a minus
    sign and a value up to 2^31, or carries no minus sign and a value
    from 2^31 to 2^32 - 1, gives the default frequency 100: the value
    stored in the [int32] [frequency_] is not above 0. *)
Theorem X4_frequency_override_not_positive :
  forall ws s ds,
    white_space ws -> decimal_digits ds ->
    numeral_value ds = 0 \/
    (s = minus_sign /\ 0 < numeral_value ds <= 2 ^ 31) \/
    (s <> minus_sign /\ 2 ^ 31 <= numeral_value ds < 2 ^ 32) ->
    ctor_frequency (Some (override ws s ds EmptyString)) = 100.
Proof.
  intros ws s ds Hws Hds Hv. unfold ctor_frequency.
  rewrite sscanf_override by done.
  destruct Hv as [Hv | [[-> Hv] | [Hs Hv]]].
  - rewrite Hv. by destruct s.
  - rewrite conv_u_minus by exact Hv.
    destruct (Z.ltb_spec 0 (- numeral_value ds)); [lia | done].
  - replace (match s with minus_sign => true | _ => false end) with false
      by (by destruct s).
    rewrite conv_u_small by lia. unfold Scanf.as_int32.
    destruct (Z.ltb_spec (numeral_value ds) (2 ^ 31)) as [Hsmall | _]; [lia |].
    destruct (Z.ltb_spec 0 (numeral_value ds - 2 ^ 32)) as [Hpos | _]; [lia | done].
Qed.

Lemma X4_frequency_override_not_positive_witness :
  ctor_frequency (Some (override [] minus_sign [5; 0] EmptyString)) = 100.
Proof.
  apply X4_frequency_override_not_positive.
  - constructor.
  - split; [discriminate | repeat constructor; lia].
  - right. left. split; [reflexivity | vm_compute; by split].
Defined.

(** ** The signal disposition follows the callback count *)

Section Disposition.

Implicit Types (w : process TimerProfileEventSource.t) (th : thread)
  (c : call) (cs : list (thread * call)).

Lemma GetSignal_timer_type (a b : TimerProfileEventSource.t) :
  TimerProfileEventSource.timer_type_ a = TimerProfileEventSource.timer_type_ b ->
  TimerProfileEventSource.GetSignal a = TimerProfileEventSource.GetSignal b.
Proof. unfold TimerProfileEventSource.GetSignal. by intros ->. Qed.

Lemma handler_follows_count_intro w (d : disposition) sigs es n :
  signals w = sigaction (TimerProfileEventSource.GetSignal es) d sigs ->
  TimerProfileEventSource.timer_type_ (event_source_ (instance_ w)) =
    TimerProfileEventSource.timer_type_ es ->
  callback_count_ (instance_ w) = n ->
  d = (if 0 <? n then SA_SignalHandler else SIG_IGN) ->
  handler_follows_count w.
Proof.
  intros Hsig Htype Hn ->. unfold handler_follows_count.
  rewrite (GetSignal_timer_type _ es Htype), Hsig, Hn.
  unfold sigaction. by rewrite lookup_insert_eq.
Qed.

Lemma handler_follows_count_same w w' :
  signals w' = signals w ->
  TimerProfileEventSource.timer_type_ (event_source_ (instance_ w')) =
    TimerProfileEventSource.timer_type_ (event_source_ (instance_ w)) ->
  callback_count_ (instance_ w') = callback_count_ (instance_ w) ->
  handler_follows_count w -> handler_follows_count w'.
Proof.
  unfold handler_follows_count. intros Hsig Htype Hn Hw.
  by rewrite (GetSignal_timer_type _ _ Htype), Hsig, Hn.
Qed.

Lemma handler_follows_count_perform th c w :
  count_is_length w -> handler_follows_count w ->
  handler_follows_count (state_of (perform th c w)).
Proof.
  intros Hwf Hw. pose proof (count_nonneg w Hwf) as Hn.
  destruct c as [| cb arg token | token | | | sig sinfo uc |]; cbn [perform state_of].
  - apply (handler_follows_count_same w); [reflexivity | | reflexivity | exact Hw].
    pose proof (timer_RegisterThread th w) as Hes.
    apply (f_equal fst) in Hes. cbn [fst] in Hes. rewrite Hes.
    apply timer_type_RegisterThread.
  - destruct (timer_RegisterCallback th cb arg token w) as (Hes & Hsig).
    destruct (RegisterCallback_registry th cb arg token w) as (_ & _ & Hcount & _).
    apply (f_equal fst) in Hes. cbn [fst] in Hes.
    rewrite RegisteredCallback_self in Hes.
    eapply (handler_follows_count_intro _ SA_SignalHandler _ _ _ Hsig);
      [by rewrite Hes | exact Hcount |].
    destruct (Z.ltb_spec 0 (callback_count_ (instance_ w) + 1)); [done | lia].
  - destruct (UnregisterCallback_cases th token w)
      as [[_ ->] | (l1 & tok & l2 & _ & _ & ->)]; [exact Hw |].
    destruct (Z_lt_le_dec 0 (callback_count_ (instance_ w))) as [Hpos | Hle].
    + destruct (timer_UnregisterCallback_found th l1 l2 w Hpos)
        as (w' & Hfound & Hes & Hsig).
      destruct (UnregisterCallback_found_returns th l1 l2 w Hpos)
        as (w'' & Hfound' & _ & Hcount & _).
      rewrite Hfound in Hfound'. injection Hfound' as <-.
      rewrite Hfound. cbn [state_of].
      apply (f_equal fst) in Hes. cbn [fst] in Hes.
      rewrite UnregisteredCallback_self in Hes.
      eapply (handler_follows_count_intro _ _ _ _ _ Hsig);
        [by rewrite Hes | exact Hcount | reflexivity].
    + rewrite UnregisterCallback_found_fatal by done. exact Hw.
  - destruct (timer_Reset th w) as (Hes & Hsig).
    destruct (Reset_registry th w) as (_ & Hcount & _).
    apply (f_equal fst) in Hes. cbn [fst] in Hes.
    eapply (handler_follows_count_intro _ SIG_IGN _ _ _ Hsig);
      [by rewrite Hes | exact Hcount | reflexivity].
  - destruct (timer_GetState th w) as (Hes & _ & Hsig).
    destruct (GetState_registry th w) as (_ & _ & Hcount & _).
    eapply (handler_follows_count_intro _ _ _ _ _ Hsig);
      [by rewrite Hes | exact Hcount | reflexivity].
  - destruct (deliver_cases th sig sinfo uc w) as [-> | ->]; [exact Hw |].
    by apply (handler_follows_count_same w).
  - by apply (handler_follows_count_same w).
Qed.

Lemma handler_follows_count_run th0 timer fr k sigs cs :
  let w := state_of (run cs (ctor th0 (TimerProfileEventSource.ctor timer) fr k sigs)) in
  count_is_length w /\ handler_follows_count w.
Proof.
  apply (run_invariant (fun w => count_is_length w /\ handler_follows_count w)).
  - intros th c w [Hwf Hw]. split.
    + by apply count_is_length_perform.
    + by apply handler_follows_count_perform.
  - split; [reflexivity |]. unfold handler_follows_count, ctor, DisableHandler.
    cbn. unfold sigaction. by rewrite lookup_insert_eq.
Qed.

End Disposition.

(** ** The shared timer *)

Section SharedTimer.

Implicit Types (w : process TimerProfileEventSource.t) (th : thread)
  (c : call) (cs : list (thread * call)).





End SharedTimer.





(** X5.  After any run of calls on a singleton over a timer event
    source, the signal of that source is bound to [SignalHandler] when
    [callback_count_] is above 0 and is ignored when it is 0: the first
    registration installs the handler, taking the last callback away or
    a [Reset] puts the signal back to ignored. *)
Theorem X5_handler_installed_iff_callbacks :
  forall th0 timer fr k sigs cs,
    let w := state_of (run cs (ctor th0 (TimerProfileEventSource.ctor timer)
                                 fr k sigs)) in
    disposition_of (signals w)
      (TimerProfileEventSource.GetSignal (event_source_ (instance_ w))) =
      (if 0 <? callback_count_ (instance_ w) then SA_SignalHandler else SIG_IGN) /\
    delivery_enabled w = (0 <? callback_count_ (instance_ w)).
Proof.
  intros th0 timer fr k sigs cs w.
  destruct (handler_follows_count_run th0 timer fr k sigs cs) as [_ Hw].
  fold w in Hw. clearbody w. unfold handler_follows_count in Hw.
  unfold delivery_enabled, disposition_of. rewrite Hw. cbn [default].
  split; [reflexivity |]. by destruct (0 <? callback_count_ (instance_ w)).
Qed.


(** X7.  After any run of calls on a singleton over a timer event
    source, the delivery of that source's signal never ends the
    process.  With callbacks registered it runs [SignalHandler]: the
    interrupt counter goes up by 1 and for every entry of the registry,
    in order, that entry's callback is called once, with the signal,
    the signal information and the context of the delivery, the tick
    count 1 and that entry's argument.  With none registered the signal
    is dropped and the process stays as it is; in particular the
    interrupt counter does not count it. *)
Theorem X7_delivery_counts_only_with_callbacks :
  forall th0 timer fr k sigs cs th sinfo ucontext,
    let w := state_of (run cs (ctor th0 (TimerProfileEventSource.ctor timer)
                                 fr k sigs)) in
    let sig := TimerProfileEventSource.GetSignal (event_source_ (instance_ w)) in
    exists w',
      deliver th sig sinfo ucontext w = Returns tt w' /\
      (callback_count_ (instance_ w) = 0 -> w' = w) /\
      interrupts_ (instance_ w') =
        interrupts_ (instance_ w) +
        (if 0 <? callback_count_ (instance_ w) then 1 else 0) /\
      invoked w' =
        invoked w ++
        map (fun e : address * ProfileHandlerToken =>
               {| inv_callback := callback (snd e); inv_sig := sig;
                  inv_sinfo := sinfo; inv_ucontext := ucontext;
                  inv_ticks := 1; inv_arg := callback_arg (snd e) |})
          (callbacks_ (instance_ w)).
Proof.
  intros th0 timer fr k sigs cs th sinfo ucontext w sig.
  destruct (handler_follows_count_run th0 timer fr k sigs cs) as [Hwf Hw].
  fold w in Hwf, Hw. clearbody w. unfold handler_follows_count in Hw.
  fold sig in Hw. unfold deliver, disposition_of. rewrite Hw. cbn [default].
  destruct (Z.ltb_spec 0 (callback_count_ (instance_ w))) as [Hpos | Hle].
  - exists (SignalHandler th sig sinfo ucontext w).
    destruct (timer_SignalHandler th sig sinfo ucontext w) as (_ & _ & _ & Hinv).
    destruct (SignalHandler_registry th sig sinfo ucontext w) as (_ & _ & Hint & _).
    split; [reflexivity |]. split; [lia |]. split; [exact Hint | exact Hinv].
  - exists w. split; [reflexivity |]. split; [done |]. split; [lia |].
    unfold count_is_length in Hwf.
    destruct (callbacks_ (instance_ w)) as [| e l]; [by rewrite app_nil_r |].
    cbn [length] in Hwf. lia.
Qed.

Lemma X7_delivery_counts_only_with_callbacks_witness :
  exists w',
    deliver 2%nat SIGALRM 11 13
      (state_of (run [(0%nat, CallRegisterCallback 55 7 4096);
                      (1%nat, CallRegisterCallback 77 8 4128)]
                   (ctor 0%nat (TimerProfileEventSource.ctor ITIMER_REAL) None
                      (no_timers true) ∅))) = Returns tt w' /\
    interrupts_ (instance_ w') = 1 /\
    invoked w' =
      [ {| inv_callback := 55; inv_sig := SIGALRM; inv_sinfo := 11;
           inv_ucontext := 13; inv_ticks := 1; inv_arg := 7 |};
        {| inv_callback := 77; inv_sig := SIGALRM; inv_sinfo := 11;
           inv_ucontext := 13; inv_ticks := 1; inv_arg := 8 |} ].
Proof.
  destruct (X7_delivery_counts_only_with_callbacks 0%nat ITIMER_REAL None
              (no_timers true) ∅
              [(0%nat, CallRegisterCallback 55 7 4096);
               (1%nat, CallRegisterCallback 77 8 4128)] 2%nat 11 13)
    as (w' & Hd & _ & Hint & Hinv).
  exists w'. split; [exact Hd |]. split.
  - rewrite Hint. vm_compute; reflexivity.
  - rewrite Hinv. vm_compute; reflexivity.
Defined.

(** ** Detection of the timer sharing *)

Section Detection.

Implicit Types (w : process TimerProfileEventSource.t) (th : thread)
  (c : call) (cs : list (thread * call)).


Lemma getitimer_setitimer_cases which th th' v k :
  valid_itimerval v = true ->
  getitimer which th' (setitimer which th v k) =
    if decide (slot k which th = slot k which th') then v
    else getitimer which th' k.
Proof.
  intros Hv. unfold getitimer. rewrite slot_setitimer. unfold setitimer.
  rewrite Hv. cbn [setting]. rewrite lookup_insert. by case_decide.
Qed.

(** Starting a timer, whichever thread does it, stops none. *)
Lemma IsTimerRunning_StartTimer_keeps th th' frequency self k :
  1 <= frequency <= 1000000 ->
  TimerProfileEventSource.IsTimerRunning th self k = true ->
  TimerProfileEventSource.IsTimerRunning th self
    (TimerProfileEventSource.StartTimer th' frequency self k) = true.
Proof.
  intros Hf Hrun.
  destruct (Z.eq_dec frequency 1) as [-> | Hne];
    [by rewrite StartTimer_refused |].
  unfold TimerProfileEventSource.IsTimerRunning, TimerProfileEventSource.StartTimer in *.
  rewrite getitimer_setitimer_cases by (apply StartTimer_value_valid; lia).
  case_decide as Hslot; [| exact Hrun].
  cbn. pose proof (period_positive frequency Hf) as Hp.
  destruct (Z.eqb_spec (1000000 ÷ frequency) 0); [lia | done].
Qed.

(** A period that goes by leaves what every thread reads of the timer
    of the event source, when that one is sure to be armed again. *)
Lemma keeps_time_elapse th c w :
  keeps_time (TimerProfileEventSource.timer_type_ (event_source_ (instance_ w))) c = true ->
  forall th',
    TimerProfileEventSource.IsTimerRunning th' (event_source_ (instance_ w))
      (if is_elapse c then expire th (signals w) (timers w) else timers w) =
    TimerProfileEventSource.IsTimerRunning th' (event_source_ (instance_ w)) (timers w).
Proof.
  intros Hkeep th'. destruct (is_elapse c) eqn:Hc; [| reflexivity].
  unfold keeps_time in Hkeep.
  destruct (TimerProfileEventSource.timer_type_ (event_source_ (instance_ w))) eqn:Htype.
  - by rewrite Hc in Hkeep.
  - by apply IsTimerRunning_expire_PROF.
Qed.

(** Between the first and the second [RegisterThread] no call but a
    [Reset] touches the event source, and none starts or stops a
    timer. *)
Lemma one_set_perform th c w :
  is_thread_registration c = false -> is_reset c = false ->
  keeps_time (TimerProfileEventSource.timer_type_ (event_source_ (instance_ w))) c = true ->
  sharing_of w = TimerProfileEventSource.TIMERS_ONE_SET ->
  event_source_ (instance_ (state_of (perform th c w))) = event_source_ (instance_ w) /\
  process_wide (timers (state_of (perform th c w))) = process_wide (timers w) /\
  forall th', timer_running th' (state_of (perform th c w)) = timer_running th' w.
Proof.
  intros Hrt Hrs Hkeep Hs. unfold sharing_of in Hs.
  assert (Hns : TimerProfileEventSource.timer_sharing_ (event_source_ (instance_ w))
                <> TimerProfileEventSource.TIMERS_SHARED) by (rewrite Hs; discriminate).
  pose proof (perform_timer_effect th c w) as He.
  pose proof (keeps_time_elapse th c w Hkeep) as Hel.
  unfold timer_running.
  set (w' := state_of (perform th c w)) in *. clearbody w'.
  inversion He as [c' _ Hes Hk _ | Hes _ | cb arg token Hes _ | token _ Hes _ | Hes _
                   | Hes Hk _ _];
    subst; try discriminate.
  - by rewrite Hes, Hk.
  - rewrite RegisteredCallback_not_shared in Hes by exact Hns.
    injection Hes as Hes Hk. by rewrite Hes, Hk.
  - rewrite UnregisteredCallback_not_shared in Hes by exact Hns.
    injection Hes as Hes Hk. by rewrite Hes, Hk.
  - rewrite Hes, Hk, process_wide_expire. split; [done |]. split; [done |].
    exact Hel.
Qed.

Lemma one_set_run cs :
  forall w,
    forallb (fun tc => negb (is_thread_registration (snd tc)) &&
                       negb (is_reset (snd tc)) &&
                       keeps_time (TimerProfileEventSource.timer_type_
                                     (event_source_ (instance_ w))) (snd tc)) cs = true ->
    sharing_of w = TimerProfileEventSource.TIMERS_ONE_SET ->
    event_source_ (instance_ (state_of (run cs w))) = event_source_ (instance_ w) /\
    process_wide (timers (state_of (run cs w))) = process_wide (timers w) /\
    forall th', timer_running th' (state_of (run cs w)) = timer_running th' w.
Proof.
  induction cs as [| [th c] cs IH]; intros w Hcs Hs; [by repeat split |].
  cbn [forallb snd] in Hcs. apply andb_true_iff in Hcs as [Hc Hcs].
  apply andb_true_iff in Hc as [Hc Hkeep].
  apply andb_true_iff in Hc as [Hrt Hrs].
  apply negb_true_iff in Hrt, Hrs.
  destruct (one_set_perform th c w Hrt Hrs Hkeep Hs) as (Hes & Hpw & Hrun).
  cbn [run]. destruct (perform th c w) as [[] w' | diagnostic w']; cbn [state_of] in *.
  - destruct (IH w') as (Hes' & Hpw' & Hrun').
    + by rewrite Hes.
    + unfold sharing_of. by rewrite Hes.
    + split; [congruence |]. split; [congruence |].
      intros th'. by rewrite Hrun', Hrun.
  - by repeat split.
Qed.

(** The second [RegisterThread], on a singleton that was built [cs]
    calls before and has had its first one from [th0]. *)
Lemma second_RegisterThread thc timer fr k sigs th0 cs th1 w1 w1' w2 :
  forallb (fun tc => negb (is_thread_registration (snd tc)) &&
                     negb (is_reset (snd tc)) &&
                     keeps_time timer (snd tc)) cs = true ->
  w1 = RegisterThread th0
         (ctor thc (TimerProfileEventSource.ctor timer) fr k sigs) ->
  w1' = state_of (run cs w1) ->
  w2 = RegisterThread th1 w1' ->
  let es1 := TimerProfileEventSource.set_sharing
               TimerProfileEventSource.TIMERS_ONE_SET
               (TimerProfileEventSource.ctor timer) in
  sharing_of w1 = TimerProfileEventSource.TIMERS_ONE_SET /\
  process_wide (timers w1') = process_wide k /\
  (forall th, TimerProfileEventSource.IsTimerRunning th es1 (timers w1') =
              TimerProfileEventSource.IsTimerRunning th es1
                (TimerProfileEventSource.StartTimer th0 (ctor_frequency fr)
                   (TimerProfileEventSource.ctor timer) k)) /\
  0 <= callback_count_ (instance_ w1') /\
  callback_count_ (instance_ w2) = callback_count_ (instance_ w1') /\
  (event_source_ (instance_ w2), timers w2) =
    TimerProfileEventSource.RegisterThread th1 (ctor_frequency fr)
      (callback_count_ (instance_ w1')) es1 (timers w1').
Proof.
  intros Hcs Hw1 Hw1' Hw2 es1.
  assert (Hes1 : event_source_ (instance_ w1) = es1) by (by subst w1).
  assert (Hk1 : timers w1 =
                TimerProfileEventSource.StartTimer th0 (ctor_frequency fr)
                  (TimerProfileEventSource.ctor timer) k) by (by subst w1).
  assert (Hf1 : frequency_ (instance_ w1) = ctor_frequency fr) by (by subst w1).
  assert (Hs1 : sharing_of w1 = TimerProfileEventSource.TIMERS_ONE_SET)
    by (by subst w1).
  assert (Hwf : count_is_length w1').
  { subst w1' w1.
    exact (count_is_length_run thc (TimerProfileEventSource.ctor timer) fr k sigs
             ((th0, CallRegisterThread) :: cs)). }
  pose proof (frequency_run cs w1) as Hf'. rewrite Hf1, <- Hw1' in Hf'.
  assert (Hcs' : forallb
                   (fun tc => negb (is_thread_registration (snd tc)) &&
                              negb (is_reset (snd tc)) &&
                              keeps_time (TimerProfileEventSource.timer_type_
                                            (event_source_ (instance_ w1))) (snd tc))
                   cs = true) by (by rewrite Hes1).
  destruct (one_set_run cs w1 Hcs' Hs1) as (Hes' & Hpw' & Hrun').
  rewrite <- Hw1' in Hes', Hpw', Hrun'. rewrite Hes1 in Hes'.
  pose proof (timer_RegisterThread th1 w1') as Hreg.
  destruct (RegisterThread_registry th1 w1') as (_ & Hcount & _).
  rewrite <- Hw2 in Hreg, Hcount.
  pose proof (count_nonneg _ Hwf) as Hn.
  assert (Hpw1 : process_wide (timers w1) = process_wide k).
  { rewrite Hk1. apply process_wide_StartTimer. }
  clear Hw1 Hw1' Hw2 Hcs Hcs'. rewrite Hf', Hes' in Hreg.
  split; [exact Hs1 |]. split; [congruence |]. split.
  { intros th. specialize (Hrun' th). unfold timer_running in Hrun'.
    by rewrite Hes', Hes1, Hk1 in Hrun'. }
  split; [exact Hn |]. split; [exact Hcount | exact Hreg].
Qed.

End Detection.



(** X9.  When the first two [RegisterThread] calls on a new singleton
    with a frequency of 2 or more come from the same thread, with
    between them only calls that are neither [RegisterThread] nor
    [Reset] and over which the timer is sure to be armed again, the
    state becomes [TIMERS_SHARED] whatever the platform: the thread
    sees the timer it has set itself.  Its timer is then running
    exactly when callbacks are registered, and from then on a
    [RegisterThread] by any thread sets no timer. *)
Theorem X9_detection_by_one_thread :
  forall thc timer fr k sigs th0 cs,
    2 <= ctor_frequency fr ->
    forallb (fun tc => negb (is_thread_registration (snd tc)) &&
                       negb (is_reset (snd tc)) &&
                       keeps_time timer (snd tc)) cs = true ->
    let w1 := RegisterThread th0
                (ctor thc (TimerProfileEventSource.ctor timer) fr k sigs) in
    let w2 := RegisterThread th0 (state_of (run cs w1)) in
    sharing_of w2 = TimerProfileEventSource.TIMERS_SHARED /\
    timer_running th0 w2 = (0 <? callback_count_ (instance_ w2)) /\
    forall th,
      sharing_of (RegisterThread th w2) = TimerProfileEventSource.TIMERS_SHARED /\
      timers (RegisterThread th w2) = timers w2.
Proof.
  intros thc timer fr k sigs th0 cs Hf2 Hcs w1 w2.
  destruct (second_RegisterThread thc timer fr k sigs th0 cs th0
              w1 (state_of (run cs w1)) w2 Hcs eq_refl eq_refl eq_refl)
    as (Hs1 & Hpw' & Hrun' & Hn & Hcount & Hreg).
  clearbody w2 w1. set (w1' := state_of (run cs w1)) in *. clearbody w1'.
  set (es0 := TimerProfileEventSource.ctor timer) in *.
  set (es1 := TimerProfileEventSource.set_sharing
                TimerProfileEventSource.TIMERS_ONE_SET es0) in *.
  set (f := ctor_frequency fr) in *.
  assert (Hf : 2 <= f <= 1000000)
    by (pose proof (ctor_frequency_start fr); unfold f; lia).
  assert (Hrun : TimerProfileEventSource.IsTimerRunning th0 es1
                   (TimerProfileEventSource.StartTimer th0 f es0 k) = true).
  { unfold es1. rewrite IsTimerRunning_set_sharing.
    apply (IsTimerRunning_StartTimer th0 f es0 k Hf). }
  unfold TimerProfileEventSource.RegisterThread in Hreg.
  change (TimerProfileEventSource.timer_sharing_ es1)
    with TimerProfileEventSource.TIMERS_ONE_SET in Hreg. cbv iota in Hreg.
  rewrite (Hrun' th0), Hrun in Hreg.
  pose proof (timer_RegisterThread) as Hreg3.
  injection Hreg as Hes2 Hk2.
  unfold sharing_of, timer_running. rewrite Hcount, Hes2, Hk2.
  split; [reflexivity |]. split.
  - rewrite IsTimerRunning_set_sharing.
    destruct (Z.eqb_spec (callback_count_ (instance_ w1')) 0) as [H0 | H0].
    + rewrite H0. apply IsTimerRunning_StopTimer.
    + rewrite (Hrun' th0), Hrun. symmetry. apply Z.ltb_lt. lia.
  - intros th. specialize (Hreg3 th w2).
    rewrite Hes2 in Hreg3. unfold TimerProfileEventSource.RegisterThread in Hreg3.
    change (TimerProfileEventSource.timer_sharing_
              (TimerProfileEventSource.set_sharing
                 TimerProfileEventSource.TIMERS_SHARED es1))
      with TimerProfileEventSource.TIMERS_SHARED in Hreg3. cbv iota in Hreg3.
    set (w3 := RegisterThread th w2) in *. clearbody w3.
    injection Hreg3 as Hes3 Hk3. rewrite Hes3, Hk3, Hk2. by split.
Qed.

Lemma X9_detection_by_one_thread_witness :
  sharing_of
    (RegisterThread 0%nat
       (state_of
          (run [(1%nat, CallGetState)]
             (RegisterThread 0%nat
                (ctor 0%nat (TimerProfileEventSource.ctor ITIMER_REAL) None
                   (no_timers false) ∅))))) =
    TimerProfileEventSource.TIMERS_SHARED.
Proof.
  refine (proj1 (X9_detection_by_one_thread 0%nat ITIMER_REAL None
                   (no_timers false) ∅ 0%nat _ _ _)).
  - vm_compute. discriminate.
  - vm_compute; reflexivity.
Defined.

Lemma separate_perform th0 th c (w : process TimerProfileEventSource.t) :
  is_reset c = false ->
  keeps_time (TimerProfileEventSource.timer_type_ (event_source_ (instance_ w))) c = true ->
  sharing_of w = TimerProfileEventSource.TIMERS_SEPARATE /\
  1 <= frequency_ (instance_ w) <= 1000000 /\
  timer_running th0 w = true ->
  TimerProfileEventSource.timer_type_ (event_source_ (instance_ (state_of (perform th c w)))) =
    TimerProfileEventSource.timer_type_ (event_source_ (instance_ w)) /\
  sharing_of (state_of (perform th c w)) = TimerProfileEventSource.TIMERS_SEPARATE /\
  1 <= frequency_ (instance_ (state_of (perform th c w))) <= 1000000 /\
  timer_running th0 (state_of (perform th c w)) = true.
Proof.
  intros Hc Hkeep (Hs & Hf & Hrun).
  assert (Hnr : ~ is_reset c) by (rewrite Hc; tauto).
  pose proof (keeps_time_elapse th c w Hkeep th0) as Hel.
  assert (Hs' : sharing_of (state_of (perform th c w)) =
                TimerProfileEventSource.TIMERS_SEPARATE).
  { rewrite sharing_perform; [exact Hs | exact Hnr | right; exact Hs]. }
  assert (Hf' := frequency_perform th c w).
  unfold sharing_of, timer_running in *.
  assert (Hns : TimerProfileEventSource.timer_sharing_ (event_source_ (instance_ w))
                <> TimerProfileEventSource.TIMERS_SHARED) by (by rewrite Hs).
  pose proof (perform_timer_effect th c w) as He.
  set (w' := state_of (perform th c w)) in *. clearbody w'.
  rewrite Hf'. split; [| split; [exact Hs' | split; [exact Hf |]]];
  (inversion He as [c' _ Hes Hk _ | Hes _ | cb arg token Hes _ | token _ Hes _ | Hes _
                    | Hes Hk _ _];
    subst; try discriminate).
  - by rewrite Hes.
  - apply (f_equal fst) in Hes. cbn [fst] in Hes. rewrite Hes.
    apply timer_type_RegisterThread.
  - apply (f_equal fst) in Hes. cbn [fst] in Hes.
    by rewrite Hes, RegisteredCallback_self.
  - apply (f_equal fst) in Hes. cbn [fst] in Hes.
    by rewrite Hes, UnregisteredCallback_self.
  - by rewrite Hes.
  - by rewrite Hes, Hk.
  - unfold TimerProfileEventSource.RegisterThread in Hes. rewrite Hs in Hes.
    injection Hes as Hes Hk. rewrite Hes, Hk.
    by apply IsTimerRunning_StartTimer_keeps.
  - rewrite RegisteredCallback_not_shared in Hes by done.
    injection Hes as Hes Hk. by rewrite Hes, Hk.
  - rewrite UnregisteredCallback_not_shared in Hes by done.
    injection Hes as Hes Hk. by rewrite Hes, Hk.
  - cbn [is_elapse] in Hel. by rewrite Hes, Hk, Hel.
Qed.

(** X10.  Once the timers are known to be separate, the timer that
    [RegisterThread] starts for a thread is never stopped short of
    [Reset].  In state [TIMERS_SEPARATE] and with a frequency of 2 or
    more, the timer of a thread is running after its [RegisterThread],
    and after any further calls with no [Reset] among them and over
    which the timer is sure to be armed again (any for the profiling
    timer, none with a period going by for the real-time timer), by
    whichever threads, the state is still [TIMERS_SEPARATE] and the
    timer is still running, callbacks registered or not. *)
Theorem X10_separate_timers_keep_running :
  forall cs (w : process TimerProfileEventSource.t) th0,
    forallb (fun tc => negb (is_reset (snd tc)) &&
                       keeps_time (TimerProfileEventSource.timer_type_
                                     (event_source_ (instance_ w))) (snd tc))
      cs = true ->
    sharing_of w = TimerProfileEventSource.TIMERS_SEPARATE ->
    2 <= frequency_ (instance_ w) <= 1000000 ->
    let w0 := RegisterThread th0 w in
    timer_running th0 w0 = true /\
    sharing_of (state_of (run cs w0)) = TimerProfileEventSource.TIMERS_SEPARATE /\
    timer_running th0 (state_of (run cs w0)) = true.
Proof.
  intros cs w th0 Hcs Hs Hf w0.
  set (timer := TimerProfileEventSource.timer_type_ (event_source_ (instance_ w))) in *.
  pose proof (timer_RegisterThread th0 w) as Hreg. fold w0 in Hreg.
  destruct (RegisterThread_registry th0 w) as (_ & _ & _ & Hf0 & _). fold w0 in Hf0.
  clearbody w0. unfold TimerProfileEventSource.RegisterThread in Hreg.
  unfold sharing_of in Hs. rewrite Hs in Hreg. injection Hreg as Hes0 Hk0.
  assert (Hrun0 : timer_running th0 w0 = true).
  { unfold timer_running. rewrite Hes0, Hk0. by apply IsTimerRunning_StartTimer. }
  split; [exact Hrun0 |].
  pose proof (run_invariant_on
                (fun w' => TimerProfileEventSource.timer_type_
                             (event_source_ (instance_ w')) = timer /\
                           sharing_of w' = TimerProfileEventSource.TIMERS_SEPARATE /\
                           1 <= frequency_ (instance_ w') <= 1000000 /\
                           timer_running th0 w' = true)
                (fun c => negb (is_reset c) && keeps_time timer c)) as Hinv.
  cbv beta in Hinv.
  destruct (Hinv (fun th c w' Hc '(conj Ht Hrest) =>
                    match andb_prop _ _ Hc with
                    | conj Hr Hkeep =>
                        match separate_perform th0 th c w'
                                (proj1 (negb_true_iff _) Hr)
                                (eq_ind_r (fun t => keeps_time t c = true) Hkeep Ht)
                                Hrest with
                        | conj Ht' Hrest' => conj (eq_trans Ht' Ht) Hrest'
                        end
                    end)
              cs w0 Hcs) as (_ & Hs' & _ & Hrun').
  - split; [by rewrite Hes0 |]. split; [unfold sharing_of; by rewrite Hes0, Hs |].
    split; [lia | exact Hrun0].
  - by split.
Qed.

Lemma X10_separate_timers_keep_running_witness :
  sharing_of
    (state_of
       (run [(1%nat, CallRegisterCallback 55 0 4096);
             (0%nat, CallUnregisterCallback 4096);
             (2%nat, Elapse);
             (1%nat, CallRegisterThread)]
          (RegisterThread 2%nat
             (RegisterThread 1%nat
                (RegisterThread 0%nat
                   (ctor 0%nat (TimerProfileEventSource.ctor ITIMER_PROF) None
                      (no_timers false) ∅)))))) =
    TimerProfileEventSource.TIMERS_SEPARATE /\
  timer_running 2%nat
    (state_of
       (run [(1%nat, CallRegisterCallback 55 0 4096);
             (0%nat, CallUnregisterCallback 4096);
             (2%nat, Elapse);
             (1%nat, CallRegisterThread)]
          (RegisterThread 2%nat
             (RegisterThread 1%nat
                (RegisterThread 0%nat
                   (ctor 0%nat (TimerProfileEventSource.ctor ITIMER_PROF) None
                      (no_timers false) ∅)))))) = true.
Proof.
  apply (X10_separate_timers_keep_running
           [(1%nat, CallRegisterCallback 55 0 4096);
            (0%nat, CallUnregisterCallback 4096);
            (2%nat, Elapse);
            (1%nat, CallRegisterThread)]
           (RegisterThread 1%nat
              (RegisterThread 0%nat
                 (ctor 0%nat (TimerProfileEventSource.ctor ITIMER_PROF) None
                    (no_timers false) ∅))) 2%nat).
  - vm_compute; reflexivity.
  - vm_compute; reflexivity.
  - vm_compute. split; discriminate.
Defined.

(** ** Where the detection goes wrong *)

Section DetectionMissed.

Implicit Types (w : process TimerProfileEventSource.t) (th : thread)
  (c : call) (cs : list (thread * call)).

(** Between the first and the second [RegisterThread] nothing starts a
    timer. *)
Lemma one_set_stopped_perform th c w :
  is_thread_registration c = false -> is_reset c = false ->
  sharing_of w = TimerProfileEventSource.TIMERS_ONE_SET /\
  (forall th', timer_running th' w = false) ->
  event_source_ (instance_ (state_of (perform th c w))) = event_source_ (instance_ w) /\
  sharing_of (state_of (perform th c w)) = TimerProfileEventSource.TIMERS_ONE_SET /\
  (forall th', timer_running th' (state_of (perform th c w)) = false).
Proof.
  intros Hrt Hrs [Hs Hstop]. unfold sharing_of, timer_running in *.
  assert (Hns : TimerProfileEventSource.timer_sharing_ (event_source_ (instance_ w))
                <> TimerProfileEventSource.TIMERS_SHARED) by (rewrite Hs; discriminate).
  pose proof (perform_timer_effect th c w) as He.
  set (w' := state_of (perform th c w)) in *. clearbody w'.
  inversion He as [c' _ Hes Hk _ | Hes _ | cb arg token Hes _ | token _ Hes _ | Hes _
                   | Hes Hk _ _];
    subst; try discriminate.
  - by rewrite Hes, Hk.
  - rewrite RegisteredCallback_not_shared in Hes by exact Hns.
    injection Hes as Hes Hk. by rewrite Hes, Hk.
  - rewrite UnregisteredCallback_not_shared in Hes by exact Hns.
    injection Hes as Hes Hk. by rewrite Hes, Hk.
  - rewrite Hes, Hk. split; [done |]. split; [done |].
    intros th'. by apply IsTimerRunning_expire_stopped.
Qed.

Lemma IsTimerRunning_lapse_shared th th' (self : TimerProfileEventSource.t) k :
  process_wide k = true ->
  TimerProfileEventSource.IsTimerRunning th' self
    (lapse (TimerProfileEventSource.timer_type_ self) th k) = false.
Proof.
  intros Hk.
  rewrite (IsTimerRunning_shared th' th self) by (by rewrite process_wide_lapse).
  apply IsTimerRunning_lapse.
Qed.

End DetectionMissed.

(** X18.  At frequency 1 the detection finds no timer.  On a new
    singleton whose frequency is 1, in a process where no timer of the
    event source's type is running, the first [RegisterThread] sets no
    timer ([setitimer] turns the request down); whatever calls follow
    that are neither [RegisterThread] nor [Reset], the second
    [RegisterThread], by any thread, finds no timer running and settles
    on [TIMERS_SEPARATE], also where the timers are process wide, and
    still no timer is running afterwards. *)
Theorem X18_detection_at_frequency_1 :
  forall thc timer fr k sigs th0 cs th1,
    ctor_frequency fr = 1 ->
    (forall th, TimerProfileEventSource.IsTimerRunning th
                  (TimerProfileEventSource.ctor timer) k = false) ->
    forallb (fun tc => negb (is_thread_registration (snd tc)) &&
                       negb (is_reset (snd tc))) cs = true ->
    let w1 := RegisterThread th0
                (ctor thc (TimerProfileEventSource.ctor timer) fr k sigs) in
    let w2 := RegisterThread th1 (state_of (run cs w1)) in
    sharing_of w1 = TimerProfileEventSource.TIMERS_ONE_SET /\
    timers w1 = k /\
    sharing_of w2 = TimerProfileEventSource.TIMERS_SEPARATE /\
    forall th, timer_running th w2 = false.
Proof.
  intros thc timer fr k sigs th0 cs th1 Hf1 Hfree Hcs w1 w2.
  assert (Hs1 : sharing_of w1 = TimerProfileEventSource.TIMERS_ONE_SET)
    by reflexivity.
  assert (Hk1 : timers w1 = k).
  { change (timers w1) with
      (TimerProfileEventSource.StartTimer th0 (ctor_frequency fr)
         (TimerProfileEventSource.ctor timer) k).
    rewrite Hf1. apply StartTimer_refused. }
  assert (Hstop1 : forall th, timer_running th w1 = false).
  { intros th. unfold timer_running. rewrite Hk1.
    change (event_source_ (instance_ w1)) with
      (TimerProfileEventSource.set_sharing TimerProfileEventSource.TIMERS_ONE_SET
         (TimerProfileEventSource.ctor timer)).
    rewrite IsTimerRunning_set_sharing. apply Hfree. }
  assert (Hf1' : frequency_ (instance_ w1) = 1) by exact Hf1.
  pose proof (frequency_run cs w1) as Hf'. rewrite Hf1' in Hf'.
  pose proof (run_invariant_on
                (fun w => sharing_of w = TimerProfileEventSource.TIMERS_ONE_SET /\
                          forall th, timer_running th w = false)
                (fun c => negb (is_thread_registration c) && negb (is_reset c)))
    as Hinv.
  cbv beta in Hinv.
  destruct (Hinv (fun th c w Hc Hw =>
                    match andb_prop _ _ Hc with
                    | conj Hrt Hrs =>
                        proj2 (one_set_stopped_perform th c w
                                 (proj1 (negb_true_iff _) Hrt)
                                 (proj1 (negb_true_iff _) Hrs) Hw)
                    end)
              cs w1 Hcs (conj Hs1 Hstop1)) as [Hs' Hstop'].
  pose proof (timer_RegisterThread th1 (state_of (run cs w1))) as Hreg.
  fold w2 in Hreg. clearbody w2 w1.
  set (w1' := state_of (run cs w1)) in *. clearbody w1'.
  unfold sharing_of, timer_running in *.
  unfold TimerProfileEventSource.RegisterThread in Hreg.
  rewrite Hs', (Hstop' th1), Hf', StartTimer_refused in Hreg.
  injection Hreg as Hes2 Hk2. rewrite Hes2, Hk2.
  split; [exact Hs1 |]. split; [exact Hk1 |]. split; [reflexivity |].
  intros th. rewrite IsTimerRunning_set_sharing. apply Hstop'.
Qed.

Lemma X18_detection_at_frequency_1_witness :
  sharing_of
    (RegisterThread 1%nat
       (state_of
          (run [(0%nat, CallRegisterCallback 55 0 4096)]
             (RegisterThread 0%nat
                (ctor 0%nat (TimerProfileEventSource.ctor ITIMER_PROF) (Some "1")
                   (no_timers true) ∅))))) =
    TimerProfileEventSource.TIMERS_SEPARATE.
Proof.
  refine (proj1 (proj2 (proj2 (X18_detection_at_frequency_1 0%nat ITIMER_PROF
                                 (Some "1") (no_timers true) ∅ 0%nat _ 1%nat _ _ _)))).
  - vm_compute; reflexivity.
  - intros th. reflexivity.
  - vm_compute; reflexivity.
Defined.

(** X19.  A real-time timer that lapses hides the sharing.  With the
    real-time timer, timers that are process wide and a frequency of 2
    or more, the timer runs after the first [RegisterThread] on a new
    singleton, with [SIGALRM] ignored as no callback is registered.
    When a period goes by before the second [RegisterThread], the
    timer reads as stopped: the second call, by any thread, settles on
    [TIMERS_SEPARATE] although the timers are shared, and starts the
    timer again. *)
Theorem X19_detection_after_a_lapse :
  forall thc fr k sigs th0 th th1,
    process_wide k = true ->
    2 <= ctor_frequency fr ->
    let w1 := RegisterThread th0
                (ctor thc (TimerProfileEventSource.ctor ITIMER_REAL) fr k sigs) in
    let w2 := RegisterThread th1 (elapse th w1) in
    timer_running th1 w1 = true /\
    timer_running th1 (elapse th w1) = false /\
    sharing_of w2 = TimerProfileEventSource.TIMERS_SEPARATE /\
    forall th', timer_running th' w2 = true.
Proof.
  intros thc fr k sigs th0 th th1 Hk Hf2 w1 w2.
  set (es0 := TimerProfileEventSource.ctor ITIMER_REAL) in *.
  set (es1 := TimerProfileEventSource.set_sharing
                TimerProfileEventSource.TIMERS_ONE_SET es0).
  set (f := ctor_frequency fr) in *.
  assert (Hf : 2 <= f <= 1000000)
    by (pose proof (ctor_frequency_start fr); unfold f; lia).
  assert (Hes1 : event_source_ (instance_ w1) = es1) by reflexivity.
  assert (Hk1 : timers w1 = TimerProfileEventSource.StartTimer th0 f es0 k)
    by reflexivity.
  assert (Hf1 : frequency_ (instance_ w1) = f) by reflexivity.
  assert (Hc1 : callback_count_ (instance_ w1) = 0) by reflexivity.
  assert (Hsig : disposition_of (signals w1) SIGALRM = SIG_IGN).
  { change (signals w1) with (sigaction SIGALRM SIG_IGN sigs).
    unfold disposition_of, sigaction. by rewrite lookup_insert_eq. }
  assert (Hpw : process_wide (timers w1) = true).
  { by rewrite Hk1, process_wide_StartTimer. }
  pose proof (timer_RegisterThread th1 (elapse th w1)) as Hreg. fold w2 in Hreg.
  change (frequency_ (instance_ (elapse th w1))) with (frequency_ (instance_ w1)) in Hreg.
  change (callback_count_ (instance_ (elapse th w1)))
    with (callback_count_ (instance_ w1)) in Hreg.
  change (event_source_ (instance_ (elapse th w1)))
    with (event_source_ (instance_ w1)) in Hreg.
  change (timers (elapse th w1)) with (expire th (signals w1) (timers w1)) in Hreg.
  unfold timer_running, sharing_of.
  change (event_source_ (instance_ (elapse th w1)))
    with (event_source_ (instance_ w1)).
  change (timers (elapse th w1)) with (expire th (signals w1) (timers w1)).
  clearbody w2 w1. rewrite Hes1, Hf1, Hc1 in *.
  assert (Hlapse : forall th',
             TimerProfileEventSource.IsTimerRunning th' es1
               (expire th (signals w1) (timers w1)) = false).
  { intros th'. unfold expire. rewrite Hsig.
    apply (IsTimerRunning_lapse_shared th th' es1 (timers w1) Hpw). }
  unfold TimerProfileEventSource.RegisterThread in Hreg.
  change (TimerProfileEventSource.timer_sharing_ es1)
    with TimerProfileEventSource.TIMERS_ONE_SET in Hreg. cbv iota in Hreg.
  rewrite (Hlapse th1) in Hreg. injection Hreg as Hes2 Hk2.
  split.
  { rewrite Hk1. unfold es1. rewrite IsTimerRunning_set_sharing.
    by apply IsTimerRunning_StartTimer_shared. }
  split; [apply Hlapse |]. rewrite Hes2, Hk2.
  split; [reflexivity |]. intros th'. rewrite IsTimerRunning_set_sharing.
  apply IsTimerRunning_StartTimer_shared; [| exact Hf].
  by rewrite process_wide_expire.
Qed.

Lemma X19_detection_after_a_lapse_witness :
  sharing_of
    (RegisterThread 1%nat
       (elapse 0%nat
          (RegisterThread 0%nat
             (ctor 0%nat (TimerProfileEventSource.ctor ITIMER_REAL) None
                (no_timers true) ∅)))) =
    TimerProfileEventSource.TIMERS_SEPARATE.
Proof.
  refine (proj1 (proj2 (proj2 (X19_detection_after_a_lapse 0%nat None
                                 (no_timers true) ∅ 0%nat 0%nat 1%nat _ _)))).
  - reflexivity.
  - vm_compute. discriminate.
Defined.

(** ** Tokens *)

Section Tokens.

Context {ES : Type} `{!ProfileEventSource.interface ES}.

Lemma registry_last_entry (l l1 l2 : list (address * ProfileHandlerToken))
    token a b :
  l ++ [(token, a)] = l1 ++ (token, b) :: l2 ->
  ~ In token (addresses l) ->
  ~ In token (addresses l1) ->
  l1 = l /\ l2 = [].
Proof.
  revert l1. induction l as [| e l IH]; intros l1 Heq Hl Hl1.
  - destruct l1 as [| e1 l1]; cbn in Heq.
    + injection Heq as _ <-. by split.
    + injection Heq as <- _. exfalso. apply Hl1. by left.
  - destruct l1 as [| e1 l1]; cbn in Heq.
    + injection Heq as -> _. exfalso. apply Hl. by left.
    + injection Heq as <- Heq.
      destruct (IH l1 Heq) as [-> ->].
      * intros Hin. apply Hl. by right.
      * intros Hin. apply Hl1. by right.
      * by split.
Qed.

Lemma interrupts_perform th c (w : process ES) :
  interrupts_ (instance_ (state_of (perform th c w))) = interrupts_ (instance_ w) \/
  (is_delivery c = true /\
   interrupts_ (instance_ (state_of (perform th c w))) = interrupts_ (instance_ w) + 1).
Proof.
  destruct c as [| cb arg token | token | | | sig sinfo uc |]; cbn [perform state_of].
  - left. by destruct (RegisterThread_registry th w) as (_ & _ & -> & _).
  - left. by destruct (RegisterCallback_registry th cb arg token w)
      as (_ & _ & _ & -> & _).
  - left. destruct (UnregisterCallback th token w) as [[] w' | diagnostic w'] eqn:Hun;
      cbn [state_of].
    + by destruct (UnregisterCallback_returns_inv th token w w' Hun)
        as (l1 & tok & l2 & _ & _ & _ & -> & _).
    + by rewrite (UnregisterCallback_fatal_inv th token w diagnostic w' Hun).
  - left. by destruct (Reset_registry th w) as (_ & _ & -> & _).
  - left. by destruct (GetState_registry th w) as (_ & _ & _ & -> & _).
  - destruct (deliver_cases th sig sinfo uc w) as [-> | ->]; [by left | right].
    split; [reflexivity |].
    by destruct (SignalHandler_registry th sig sinfo uc w) as (_ & _ & -> & _).
  - by left.
Qed.

Lemma interrupts_run cs :
  forall w : process ES,
    interrupts_ (instance_ w) <= interrupts_ (instance_ (state_of (run cs w)))
      <= interrupts_ (instance_ w) +
         Z.of_nat (length (filter (fun tc => is_delivery (snd tc)) cs)).
Proof.
  induction cs as [| [th c] cs IH]; intros w; cbn [run]; [cbn; lia |].
  pose proof (interrupts_perform th c w) as Hstep.
  assert (Hlen : (length (filter (fun tc => is_delivery (snd tc)) cs) <=
                  length (filter (fun tc => is_delivery (snd tc)) ((th, c) :: cs)))%nat).
  { rewrite filter_cons. case_decide; cbn [length]; lia. }
  destruct (perform th c w) as [[] w1 | diagnostic w1]; cbn [state_of] in *.
  - specialize (IH w1). destruct Hstep as [Hsame | [Hd Hone]].
    + lia.
    + rewrite filter_cons. cbn [snd]. rewrite Hd.
      rewrite decide_True by done. cbn [length]. lia.
  - destruct Hstep as [Hsame | [Hd Hone]]; [lia |].
    rewrite filter_cons. cbn [snd]. rewrite Hd.
    rewrite decide_True by done. cbn [length]. lia.
Qed.

End Tokens.

(** X11.  Registering a callback and unregistering it again leaves the
    registry as it was.  In a state where the count is the length of
    the registry, let [RegisterCallback] return a token that no entry
    of the registry has yet (as [new] does); [UnregisterCallback] with
    that token, by any thread, then returns, and the registry, the
    count, the interrupt counter and the frequency are what they were
    before the registration. *)
Theorem X11_register_unregister_round_trip :
  forall (ES : Type) (HES : ProfileEventSource.interface ES)
         th th' cb arg token (w : process ES),
    count_is_length w ->
    ~ In token (live_tokens w) ->
    exists w',
      UnregisterCallback th' (fst (RegisterCallback th cb arg token w))
        (snd (RegisterCallback th cb arg token w)) = Returns tt w' /\
      callbacks_ (instance_ w') = callbacks_ (instance_ w) /\
      callback_count_ (instance_ w') = callback_count_ (instance_ w) /\
      interrupts_ (instance_ w') = interrupts_ (instance_ w) /\
      frequency_ (instance_ w') = frequency_ (instance_ w) /\
      invoked w' = invoked w.
Proof.
  intros ES HES th th' cb arg token w Hwf Hfresh.
  destruct (RegisterCallback_registry th cb arg token w)
    as (Htok & Hcb & Hcount & Hint & Hfreq & Hinv).
  rewrite Htok.
  set (w2 := snd (RegisterCallback th cb arg token w)) in *. clearbody w2.
  destruct (UnregisterCallback_cases th' token w2)
    as [[Hnot _] | (l1 & tok & l2 & Hcb2 & Hl1 & Hun)].
  - exfalso. apply Hnot. unfold live_tokens. rewrite Hcb, addresses_app.
    apply in_or_app. right. by left.
  - rewrite Hcb in Hcb2.
    destruct (registry_last_entry _ _ _ _ _ _ Hcb2 Hfresh Hl1) as [-> ->].
    assert (Hpos : 0 < callback_count_ (instance_ w2)).
    { unfold count_is_length in Hwf. lia. }
    destruct (UnregisterCallback_found_returns th' (callbacks_ (instance_ w)) [] w2 Hpos)
      as (w' & Hfound & Hcb' & Hcount' & Hint' & Hfreq' & Hinv' & _).
    exists w'. rewrite Hun. split; [exact Hfound |].
    rewrite app_nil_r in Hcb'. split; [exact Hcb' |].
    split; [lia |]. split; [congruence |]. split; congruence.
Qed.

Lemma X11_register_unregister_round_trip_witness :
  exists w',
    UnregisterCallback 1%nat
      (fst (RegisterCallback 0%nat 77 0 4224 (sample_two_callbacks true)))
      (snd (RegisterCallback 0%nat 77 0 4224 (sample_two_callbacks true))) =
      Returns tt w' /\
    callbacks_ (instance_ w') = callbacks_ (instance_ (sample_two_callbacks true)).
Proof.
  destruct (X11_register_unregister_round_trip _ _ 0%nat 1%nat 77 0 4224
              (sample_two_callbacks true))
    as (w' & Hun & Hcb & _).
  - vm_compute; reflexivity.
  - vm_compute. intros [H | [H | []]]; discriminate H.
  - exists w'. by split.
Defined.

(** X12.  A token is good for one [UnregisterCallback].  When the
    tokens of the registry are distinct and [UnregisterCallback] has
    returned for a token, a second [UnregisterCallback] with it ends in
    the fatal log "Invalid token"; and so does, after [Reset],
    [UnregisterCallback] with any token, the ones that were live before
    included. *)
Theorem X12_token_spent :
  forall (ES : Type) (HES : ProfileEventSource.interface ES)
         th th' token (w : process ES),
    (forall w',
        List.NoDup (live_tokens w) ->
        UnregisterCallback th token w = Returns tt w' ->
        UnregisterCallback th' token w' = Fatal "Invalid token" w') /\
    UnregisterCallback th' token (Reset th w) = Fatal "Invalid token" (Reset th w).
Proof.
  intros ES HES th th' token w. split.
  - intros w' Hnd Hun.
    destruct (UnregisterCallback_returns_inv th token w w' Hun)
      as (l1 & tok & l2 & Hcb & Hcb' & _).
    unfold UnregisterCallback at 1. apply UnregisterCallback_loop_absent.
    unfold live_tokens in Hnd. rewrite Hcb, addresses_app in Hnd. cbn in Hnd.
    apply NoDup_remove in Hnd. rewrite Hcb', addresses_app. tauto.
  - unfold UnregisterCallback at 1. apply UnregisterCallback_loop_absent.
    destruct (Reset_registry th w) as (-> & _). cbn. tauto.
Qed.

Lemma X12_token_spent_witness :
  exists w',
    UnregisterCallback 0%nat 4096 (sample_two_callbacks true) = Returns tt w' /\
    UnregisterCallback 1%nat 4096 w' = Fatal "Invalid token" w'.
Proof.
  eexists. split; [vm_compute; reflexivity |].
  apply (proj1 (X12_token_spent _ _ 0%nat 1%nat 4096 (sample_two_callbacks true))).
  - vm_compute. repeat constructor; cbn; intuition discriminate.
  - vm_compute; reflexivity.
Defined.

(** X13.  Only deliveries move the interrupt counter.  Over any run of
    calls the counter never goes down, and it goes up by at most the
    number of signal deliveries among the calls; a run with no
    delivery leaves it as it is. *)
Theorem X13_interrupts_count_deliveries :
  forall (ES : Type) (HES : ProfileEventSource.interface ES)
         cs (w : process ES),
    let w' := state_of (run cs w) in
    interrupts_ (instance_ w) <= interrupts_ (instance_ w')
      <= interrupts_ (instance_ w) +
         Z.of_nat (length (filter (fun tc => is_delivery (snd tc)) cs)) /\
    (forallb (fun tc => negb (is_delivery (snd tc))) cs = true ->
     interrupts_ (instance_ w') = interrupts_ (instance_ w)).
Proof.
  intros ES HES cs w w'. pose proof (interrupts_run cs w) as Hrun. fold w' in Hrun.
  split; [exact Hrun |]. intros Hnone.
  assert (Hnil : filter (fun tc => is_delivery (snd tc)) cs = []).
  { clear Hrun w'. induction cs as [| tc cs IH]; [reflexivity |].
    cbn [forallb] in Hnone. apply andb_true_iff in Hnone as [Hc Hcs].
    rewrite filter_cons. apply negb_true_iff in Hc. rewrite Hc.
    rewrite decide_False by (intros []). by apply IH. }
  rewrite Hnil in Hrun. cbn [length] in Hrun. lia.
Qed.

Lemma X13_interrupts_count_deliveries_witness :
  interrupts_
    (instance_
       (state_of (run [(0%nat, CallRegisterThread); (1%nat, CallGetState);
                       (1%nat, CallUnregisterCallback 4096)]
                    (sample_two_callbacks true)))) =
  interrupts_ (instance_ (sample_two_callbacks true)).
Proof.
  apply (proj2 (X13_interrupts_count_deliveries _ _
                  [(0%nat, CallRegisterThread); (1%nat, CallGetState);
                   (1%nat, CallUnregisterCallback 4096)]
                  (sample_two_callbacks true))).
  vm_compute; reflexivity.
Defined.

(** ** The singleton and the C interface *)

Section SingletonProperties.

Context {TS : Type} `{!ProfileEventSource.interface TS}.
Variable new_ThreadProfileEventSource : TS.

Lemma Instance_HasInstance link getenv th once_ (w : process (Singleton.source TS)) :
  (link = Singleton.once_pthreads -> once_ = true) ->
  Singleton.Instance new_ThreadProfileEventSource link getenv th
    (Singleton.HasInstance once_ w) = (once_, w).
Proof.
  intros Honce. destruct link; try reflexivity.
  rewrite Honce by reflexivity. reflexivity.
Qed.

Lemma Instance_once link getenv th (p : Singleton.program TS) :
  link = Singleton.once_pthreads ->
  fst (Singleton.Instance new_ThreadProfileEventSource link getenv th p) = true.
Proof.
  intros ->. unfold Singleton.Instance, Singleton.pthread_once.
  destruct p as [[] k sigs | [] w]; reflexivity.
Qed.

Lemma perform_HasInstance link getenv th c once_ (w : process (Singleton.source TS)) :
  (link = Singleton.once_pthreads -> once_ = true) ->
  Singleton.perform new_ThreadProfileEventSource link getenv th c
    (Singleton.HasInstance once_ w) =
  Singleton.program_of once_ (perform th c w).
Proof.
  intros Honce.
  destruct c as [| cb arg token | token | | | sig sinfo uc |];
    cbn [Singleton.perform perform];
    unfold Singleton.ProfileHandlerRegisterThread,
      Singleton.ProfileHandlerRegisterCallback,
      Singleton.ProfileHandlerUnregisterCallback,
      Singleton.ProfileHandlerReset, Singleton.ProfileHandlerGetState,
      Singleton.member;
    rewrite ?(Instance_HasInstance link getenv th once_ w Honce);
    cbn [fst snd Singleton.program_of]; try reflexivity.
  unfold Singleton.deliver, deliver. cbn [Singleton.dispositions].
  by destruct (disposition_of (signals w) sig).
Qed.

Lemma run_HasInstance link cs :
  forall once_ (w : process (Singleton.source TS)),
    (link = Singleton.once_pthreads -> once_ = true) ->
    Singleton.run new_ThreadProfileEventSource link cs
      (Singleton.HasInstance once_ w) =
    Singleton.program_of once_ (run (map snd cs) w).
Proof.
  induction cs as [| [getenv [th c]] cs IH]; intros once_ w Honce; [reflexivity |].
  cbn [Singleton.run map snd run].
  rewrite (perform_HasInstance link getenv th c once_ w Honce).
  destruct (perform th c w) as [[] w' | diagnostic w']; cbn [Singleton.program_of].
  - by apply IH.
  - reflexivity.
Qed.

Lemma empty_spec (s : string) :
  Singleton.empty s = true <-> s = EmptyString.
Proof. destruct s; cbn; split; congruence. Qed.

Lemma BuildEventSource_named getenv (event_source_type : string) :
  event_source_type <> EmptyString ->
  Singleton.BuildEventSource new_ThreadProfileEventSource getenv event_source_type =
    if String.eqb event_source_type "timer-realtime"
    then Singleton.Timer (TimerProfileEventSource.ctor ITIMER_REAL)
    else if String.eqb event_source_type "thread-wallclock"
         then Singleton.Thread new_ThreadProfileEventSource
         else Singleton.Timer (TimerProfileEventSource.ctor ITIMER_PROF).
Proof.
  intros Hne. unfold Singleton.BuildEventSource.
  destruct event_source_type; [done | reflexivity].
Qed.

Lemma BuildEventSource_default getenv :
  Singleton.BuildEventSource new_ThreadProfileEventSource getenv EmptyString =
    match getenv "CPUPROFILE_EVENT" with
    | Some event =>
        if String.eqb event "timer-realtime"
        then Singleton.Timer (TimerProfileEventSource.ctor ITIMER_REAL)
        else if String.eqb event "thread-wallclock"
             then Singleton.Thread new_ThreadProfileEventSource
             else Singleton.Timer (TimerProfileEventSource.ctor ITIMER_PROF)
    | None =>
        match getenv "CPUPROFILE_REALTIME" with
        | Some _ => Singleton.Timer (TimerProfileEventSource.ctor ITIMER_REAL)
        | None => Singleton.Timer (TimerProfileEventSource.ctor ITIMER_PROF)
        end
    end.
Proof.
  unfold Singleton.BuildEventSource. cbn [Singleton.empty].
  destruct (getenv "CPUPROFILE_EVENT") as [event |].
  - destruct event; reflexivity.
  - destruct (getenv "CPUPROFILE_REALTIME"); reflexivity.
Qed.

Lemma upcast_found th before after (w : process TimerProfileEventSource.t) :
  UnregisterCallback_found th before after (Singleton.upcast (TS := TS) w) =
  Singleton.upcast_outcome (UnregisterCallback_found th before after w).
Proof.
  unfold UnregisterCallback_found. cbn.
  destruct (0 <? callback_count_ (instance_ w)); [| reflexivity].
  destruct (0 <? callback_count_ (instance_ w) - 1); reflexivity.
Qed.

Lemma upcast_loop th token it :
  forall before (w : process TimerProfileEventSource.t),
    UnregisterCallback_loop th token before it (Singleton.upcast (TS := TS) w) =
    Singleton.upcast_outcome (UnregisterCallback_loop th token before it w).
Proof.
  induction it as [| e it IH]; intros before w; [reflexivity |].
  cbn [UnregisterCallback_loop]. destruct (fst e =? token).
  - apply upcast_found.
  - apply IH.
Qed.

Lemma upcast_perform th c (w : process TimerProfileEventSource.t) :
  perform th c (Singleton.upcast (TS := TS) w) =
  Singleton.upcast_outcome (perform th c w).
Proof.
  destruct c as [| cb arg token | token | | | sig sinfo uc |];
    cbn [perform Singleton.upcast_outcome].
  - reflexivity.
  - reflexivity.
  - apply upcast_loop.
  - reflexivity.
  - unfold GetState. cbn.
    by destruct (0 <? callback_count_ (instance_ w)).
  - unfold deliver. cbn [Singleton.upcast signals].
    by destruct (disposition_of (signals w) sig).
  - reflexivity.
Qed.

Lemma upcast_run cs :
  forall w : process TimerProfileEventSource.t,
    run cs (Singleton.upcast (TS := TS) w) = Singleton.upcast_outcome (run cs w).
Proof.
  induction cs as [| [th c] cs IH]; intros w; [reflexivity |].
  cbn [run]. rewrite upcast_perform.
  destruct (perform th c w) as [[] w' | diagnostic w']; cbn [Singleton.upcast_outcome].
  - apply IH.
  - reflexivity.
Qed.

End SingletonProperties.

(** X14.  The event source the constructor builds, read off the
    environment.  CPUPROFILE_EVENT decides when it is set: the
    thread source for "thread-wallclock", the real-time timer for
    "timer-realtime", and the CPU timer for any other value, the empty
    one included; CPUPROFILE_REALTIME is then not looked at.  When
    CPUPROFILE_EVENT is not set, the real-time timer is built when
    CPUPROFILE_REALTIME is set, to any value, and the CPU timer
    otherwise.  A type that is given to [BuildEventSource] and is not
    empty is used whatever the environment holds. *)
Theorem X14_BuildEventSource_choice :
  forall (TS : Type) (new_ThreadProfileEventSource : TS)
         (getenv : string -> option string),
    let built :=
      Singleton.BuildEventSource new_ThreadProfileEventSource getenv EmptyString in
    (built = Singleton.Thread new_ThreadProfileEventSource <->
     getenv "CPUPROFILE_EVENT" = Some "thread-wallclock") /\
    (built = Singleton.Timer (TimerProfileEventSource.ctor ITIMER_REAL) <->
     getenv "CPUPROFILE_EVENT" = Some "timer-realtime" \/
     (getenv "CPUPROFILE_EVENT" = None /\ getenv "CPUPROFILE_REALTIME" <> None)) /\
    (built = Singleton.Timer (TimerProfileEventSource.ctor ITIMER_PROF) <->
     (exists event,
         getenv "CPUPROFILE_EVENT" = Some event /\
         event <> "timer-realtime" /\ event <> "thread-wallclock") \/
     (getenv "CPUPROFILE_EVENT" = None /\ getenv "CPUPROFILE_REALTIME" = None)) /\
    (forall (event_source_type : string) (getenv' : string -> option string),
        event_source_type <> EmptyString ->
        Singleton.BuildEventSource new_ThreadProfileEventSource getenv
          event_source_type =
        Singleton.BuildEventSource new_ThreadProfileEventSource getenv'
          event_source_type).
Proof.
  intros TS new_ThreadProfileEventSource getenv built.
  assert (Hbuilt := BuildEventSource_default new_ThreadProfileEventSource getenv).
  fold built in Hbuilt. clearbody built.
  split; [| split; [| split]].
  - destruct (getenv "CPUPROFILE_EVENT") as [event |].
    + destruct (String.eqb_spec event "timer-realtime") as [Hrt | Hrt]; [subst event |].
      { rewrite Hbuilt. split; discriminate. }
      destruct (String.eqb_spec event "thread-wallclock") as [Hth | Hth]; [subst event |].
      { by rewrite Hbuilt. }
      rewrite Hbuilt. split; [discriminate | congruence].
    + destruct (getenv "CPUPROFILE_REALTIME"); rewrite Hbuilt; split; discriminate.
  - destruct (getenv "CPUPROFILE_EVENT") as [event |].
    + destruct (String.eqb_spec event "timer-realtime") as [Hrt | Hrt]; [subst event |].
      { rewrite Hbuilt. split; [by left | done]. }
      destruct (String.eqb_spec event "thread-wallclock") as [Hth | Hth];
        rewrite Hbuilt; (split; [discriminate |]);
        intros [Heq | [Heq _]]; congruence.
    + destruct (getenv "CPUPROFILE_REALTIME") as [flag |]; rewrite Hbuilt.
      * split; [| done]. intros _. right. by split.
      * split; [discriminate |]. intros [Heq | [_ Hflag]]; congruence.
  - destruct (getenv "CPUPROFILE_EVENT") as [event |].
    + destruct (String.eqb_spec event "timer-realtime") as [Hrt | Hrt]; [subst event |].
      { rewrite Hbuilt. split; [discriminate |].
        intros [(event' & Heq & Hne & _) | [Heq _]]; congruence. }
      destruct (String.eqb_spec event "thread-wallclock") as [Hth | Hth]; rewrite Hbuilt.
      * split; [discriminate |].
        intros [(event' & Heq & _ & Hne) | [Heq _]]; congruence.
      * split; [| done]. intros _. left. by exists event.
    + destruct (getenv "CPUPROFILE_REALTIME") as [flag |]; rewrite Hbuilt.
      * split; [discriminate |].
        intros [(event' & Heq & _) | [_ Heq]]; congruence.
      * split; [| done]. intros _. by right.
  - intros event_source_type getenv' Hne.
    by rewrite !BuildEventSource_named.
Qed.

Lemma X14_BuildEventSource_choice_witness :
  Singleton.BuildEventSource tt
    (fun name => if String.eqb name "CPUPROFILE_REALTIME" then Some EmptyString else None)
    EmptyString =
  Singleton.Timer (TimerProfileEventSource.ctor ITIMER_REAL).
Proof.
  apply (proj1 (proj2 (X14_BuildEventSource_choice unit tt
                  (fun name => if String.eqb name "CPUPROFILE_REALTIME"
                               then Some EmptyString else None)))).
  right. split; [vm_compute; reflexivity | vm_compute; discriminate].
Defined.

(** X15.  [Instance] builds the singleton once.  The first call builds
    the handler from the environment it is made in, and builds the same
    handler however [pthread_once] is linked.  Whatever the program
    was, a call that follows a call of [Instance] returns the handler
    the first returned and changes nothing, whichever thread makes it
    and whatever the environment has become: the environment is read
    by the first call only. *)
Theorem X15_Instance_builds_once :
  forall (TS : Type) (HTS : ProfileEventSource.interface TS)
         (new_ThreadProfileEventSource : TS) link getenv th k sigs
         getenv' th' (p : Singleton.program TS),
    snd (Singleton.Instance new_ThreadProfileEventSource link getenv th
           (Singleton.NoInstance false k sigs)) =
      Singleton.new_ProfileHandler new_ThreadProfileEventSource getenv th k sigs /\
    let r := Singleton.Instance new_ThreadProfileEventSource link getenv th p in
    Singleton.Instance new_ThreadProfileEventSource link getenv' th'
      (Singleton.HasInstance (fst r) (snd r)) = r.
Proof.
  intros TS HTS new_ThreadProfileEventSource link getenv th k sigs getenv' th' p.
  split; [by destruct link |].
  intros r. rewrite Instance_HasInstance; [by destruct r |].
  intros Hlink. by apply Instance_once.
Qed.

(** X16.  The C interface runs the members of the singleton.  The
    static initializer builds the handler from the environment of the
    program's start and registers the main thread; the calls made
    through the C interface afterwards, and the signals delivered, do
    what the same calls do as members of that handler, one after the
    other, whatever the environment is at each call and however
    [pthread_once] is linked. *)
Theorem X16_C_interface_runs_the_singleton :
  forall (TS : Type) (HTS : ProfileEventSource.interface TS)
         (new_ThreadProfileEventSource : TS) link getenv main k sigs cs,
    Singleton.run new_ThreadProfileEventSource link cs
      (Singleton.ProfileHandlerInitializer new_ThreadProfileEventSource link
         getenv main (Singleton.NoInstance false k sigs)) =
    Singleton.program_of
      (match link with Singleton.once_pthreads => true | _ => false end)
      (run (map snd cs)
         (RegisterThread main
            (Singleton.new_ProfileHandler new_ThreadProfileEventSource
               getenv main k sigs))).
Proof.
  intros TS HTS new_ThreadProfileEventSource link getenv main k sigs cs.
  unfold Singleton.ProfileHandlerInitializer.
  set (w := Singleton.new_ProfileHandler new_ThreadProfileEventSource getenv main k sigs).
  assert (Hfirst : Singleton.Instance new_ThreadProfileEventSource link getenv main
                     (Singleton.NoInstance false k sigs) =
                   (match link with Singleton.once_pthreads => true | _ => false end, w))
    by (by destruct link).
  rewrite Hfirst. cbn [fst snd]. clearbody w.
  apply run_HasInstance. by intros ->.
Qed.

(** X17.  Unless CPUPROFILE_EVENT is "thread-wallclock", the handler
    the singleton is built with is the handler over a timer event
    source: it starts as the constructor over a
    [TimerProfileEventSource] leaves it, and every run of calls on it
    ends as the same run on the handler over the timer event source
    does, the event source being called through the pointer. *)
Theorem X17_timer_source_behind_the_pointer :
  forall (TS : Type) (HTS : ProfileEventSource.interface TS)
         (new_ThreadProfileEventSource : TS) getenv th k sigs,
    getenv "CPUPROFILE_EVENT" <> Some "thread-wallclock" ->
    exists timer,
      Singleton.new_ProfileHandler new_ThreadProfileEventSource getenv th k sigs =
        Singleton.upcast
          (ctor th (TimerProfileEventSource.ctor timer)
             (getenv "CPUPROFILE_FREQUENCY") k sigs) /\
      forall cs,
        run cs (Singleton.new_ProfileHandler new_ThreadProfileEventSource
                  getenv th k sigs) =
        Singleton.upcast_outcome
          (run cs (ctor th (TimerProfileEventSource.ctor timer)
                     (getenv "CPUPROFILE_FREQUENCY") k sigs)).
Proof.
  intros TS HTS new_ThreadProfileEventSource getenv th k sigs Hev.
  assert (Hbuilt : exists timer,
             Singleton.BuildEventSource new_ThreadProfileEventSource getenv EmptyString =
             Singleton.Timer (TimerProfileEventSource.ctor timer)).
  { rewrite BuildEventSource_default.
    destruct (getenv "CPUPROFILE_EVENT") as [event |].
    - destruct (String.eqb_spec event "timer-realtime"); [by eexists |].
      destruct (String.eqb_spec event "thread-wallclock"); [congruence | by eexists].
    - destruct (getenv "CPUPROFILE_REALTIME"); by eexists. }
  destruct Hbuilt as [timer Hbuilt]. exists timer.
  assert (Hnew : Singleton.new_ProfileHandler new_ThreadProfileEventSource getenv th k sigs =
                 Singleton.upcast
                   (ctor th (TimerProfileEventSource.ctor timer)
                      (getenv "CPUPROFILE_FREQUENCY") k sigs)).
  { unfold Singleton.new_ProfileHandler. by rewrite Hbuilt. }
  split; [exact Hnew |]. intros cs. rewrite Hnew. apply upcast_run.
Qed.

Lemma X17_timer_source_behind_the_pointer_witness :
  exists timer,
    Singleton.new_ProfileHandler (TimerProfileEventSource.ctor ITIMER_REAL)
      (fun _ => None) 0%nat (no_timers true) ∅ =
    Singleton.upcast
      (ctor 0%nat (TimerProfileEventSource.ctor timer) None (no_timers true) ∅).
Proof.
  destruct (X17_timer_source_behind_the_pointer TimerProfileEventSource.t _
              (TimerProfileEventSource.ctor ITIMER_REAL) (fun _ => None) 0%nat
              (no_timers true) ∅) as (timer & Hnew & _).
  - discriminate.
  - by exists timer.
Defined.
